(** * Mongore: field descriptors, dirty tracking and the save / load
      lifecycle of model instances.

    The development embeds the JavaScript sources of the package
    (src/fields/*.js, src/utils.js, src/model.js,
    src/model_instance_wrapper.js) as Rocq functions and states the
    behaviour of the field catalogue and of the instance wrapper as
    theorems over that embedding.

    Conventions.
    - A JavaScript object used as a dictionary is an association list in
      enumeration order ([for .. in] / [Object.keys]); assigning a key
      replaces it in place or appends it.
    - Objects (dates, arrays, plain objects, model instances) carry the
      address they live at; [===] on objects compares addresses.
    - A method that can throw returns a [result]; asynchronous storage
      calls are split into the synchronous part, which yields the request
      handed to the client, and the success continuation, which is a
      function of the response.
    - Numbers are the integers and NaN; fractional floats are outside the
      model.  Arithmetic on them rounds as IEEE doubles do.
    - A string is the UTF-8 encoding of the JavaScript string; its
      [length] counts UTF-16 code units. *)

From Stdlib Require Import ZArith Ascii String DecimalString List Bool Lia.
Import ListNotations.
Local Open Scope string_scope.
Local Open Scope list_scope.

Set Implicit Arguments.
Set Warnings "-register-all".

(* ================================================================== *)
(** ** JavaScript values *)
(* ================================================================== *)

Module JS.

Definition ref := nat.

Inductive value : Type :=
| VUndefined
| VNull
| VBool (b : bool)
| VNum (n : Z)
| VNaN
| VStr (s : string)
| VDate (r : ref) (t : Z)
| VList (r : ref) (items : list value)
| VDict (r : ref) (entries : list (string * value))
| VInst (r : ref).

(** A plain object / document: keys in enumeration order. *)
Definition jsobject := list (string * value).

(** What a thrown exception is. *)
Inductive error : Type :=
| ValidationError (msg : string)
| Error (msg : string)
| TypeError (msg : string).

Inductive result (A : Type) : Type :=
| Ok (a : A)
| Throw (e : error).
Arguments Ok {A} a.
Arguments Throw {A} e.

Definition bind {A B} (m : result A) (k : A -> result B) : result B :=
  match m with
  | Ok a => k a
  | Throw e => Throw e
  end.

Definition succeeds {A} (m : result A) : bool :=
  match m with Ok _ => true | Throw _ => false end.

(** [a === b] *)
Definition strict_eq (a b : value) : bool :=
  match a, b with
  | VUndefined, VUndefined => true
  | VNull, VNull => true
  | VBool x, VBool y => Bool.eqb x y
  | VNum x, VNum y => Z.eqb x y
  | VStr x, VStr y => String.eqb x y
  | VDate r _, VDate r' _ => Nat.eqb r r'
  | VList r _, VList r' _ => Nat.eqb r r'
  | VDict r _, VDict r' _ => Nat.eqb r r'
  | VInst r, VInst r' => Nat.eqb r r'
  | _, _ => false
  end.

(** SameValueZero, the comparison of [Set.has]: as [===] but NaN is
    itself. *)
Definition sameValueZero (a b : value) : bool :=
  match a, b with
  | VNaN, VNaN => true
  | _, _ => strict_eq a b
  end.

(** [x == null] *)
Definition nullish (v : value) : bool :=
  match v with
  | VUndefined | VNull => true
  | _ => false
  end.

(** Truthiness: [if (v)], [v || w], [Boolean(v)]. *)
Definition truthy (v : value) : bool :=
  match v with
  | VUndefined | VNull | VNaN => false
  | VBool b => b
  | VNum n => negb (Z.eqb n 0)
  | VStr s => negb (String.eqb s "")
  | VDate _ _ | VList _ _ | VDict _ _ | VInst _ => true
  end.

(** [a || b] *)
Definition or_else (a b : value) : value := if truthy a then a else b.

(** [typeof v === "object"] *)
Definition typeof_object (v : value) : bool :=
  match v with
  | VNull | VDate _ _ | VList _ _ | VDict _ _ | VInst _ => true
  | _ => false
  end.

(** *** Plain objects *)

Fixpoint obj_lookup {A} (k : string) (o : list (string * A)) : option A :=
  match o with
  | [] => None
  | (k', v) :: rest => if String.eqb k k' then Some v else obj_lookup k rest
  end.

(** [o[k]] *)
Definition obj_get (k : string) (o : jsobject) : value :=
  match obj_lookup k o with
  | Some v => v
  | None => VUndefined
  end.

(** [o[k] = v] *)
Fixpoint obj_set (k : string) (v : value) (o : jsobject) : jsobject :=
  match o with
  | [] => [(k, v)]
  | (k', v') :: rest =>
      if String.eqb k k' then (k', v) :: rest
      else (k', v') :: obj_set k v rest
  end.

(** [Object.keys(o)] *)
Definition Object_keys {A} (o : list (string * A)) : list string :=
  map fst o.

(** [new Set(..)] as the list of its members in insertion order. *)
Definition Set_has (k : string) (s : list string) : bool :=
  existsb (String.eqb k) s.

Definition Set_add (k : string) (s : list string) : list string :=
  if Set_has k s then s else s ++ [k].

(** [Array.from(new Set(l))]: first occurrences, in order. *)
Fixpoint dedup_from (seen l : list value) : list value :=
  match l with
  | [] => []
  | x :: rest =>
      if existsb (sameValueZero x) seen then dedup_from seen rest
      else x :: dedup_from (x :: seen) rest
  end.

Definition Array_from_Set (l : list value) : list value := dedup_from [] l.

(** The double nearest to the integer [m], ties to the even mantissa:
    an integer of magnitude up to 2^53 is a double; above, the doubles
    are the multiples of [ulp], the power of two 52 places below the
    leading bit.  (Magnitudes below 2^1024, where doubles end.) *)
Definition double_round (m : Z) : Z :=
  let a := Z.abs m in
  if (a <=? 2 ^ 53)%Z then m
  else
    let ulp := (2 ^ (Z.log2 a - 52))%Z in
    let q := (a / ulp)%Z in
    let r := (a mod ulp)%Z in
    let q' :=
      if (2 * r <? ulp)%Z then q
      else if (ulp <? 2 * r)%Z then (q + 1)%Z
      else if Z.even q then q else (q + 1)%Z in
    (Z.sgn m * (q' * ulp))%Z.

(** [v + 1]: numeric addition unless an operand is a string or an
    object, which concatenates what [toString] of the platform prints. *)
Definition plus_one (toString : value -> string) (v : value) : value :=
  match v with
  | VNum n => VNum (double_round (n + 1))
  | VNaN | VUndefined => VNaN
  | VNull => VNum 1
  | VBool b => VNum (if b then 2 else 1)
  | VStr s => VStr (s ++ "1")
  | VDate _ _ | VList _ _ | VDict _ _ | VInst _ => VStr (toString v ++ "1")
  end.

(** [s.length]: the UTF-16 code units of the string whose UTF-8 bytes
    are [s].  A byte below 0x80 or a lead byte of a two- or three-byte
    sequence opens a character of one unit, the lead byte of a four-byte
    sequence one of two units (a surrogate pair), a continuation byte
    none. *)
Definition utf16_units (c : ascii) : nat :=
  let n := nat_of_ascii c in
  if Nat.ltb n 128 then 1
  else if Nat.ltb n 192 then 0
  else if Nat.ltb n 240 then 1
  else 2.

Fixpoint js_length (s : string) : nat :=
  match s with
  | EmptyString => 0
  | String c rest => utf16_units c + js_length rest
  end.

(** The names [Object.prototype] answers to: a plain object that has no
    own property of such a name yields the inherited member, a function
    or object and so truthy, where it would yield [undefined] for any
    other name. *)
Definition Object_prototype : list string :=
  ["constructor"; "toString"; "valueOf"; "hasOwnProperty"; "isPrototypeOf";
   "propertyIsEnumerable"; "toLocaleString"; "__proto__";
   "__defineGetter__"; "__defineSetter__"; "__lookupGetter__";
   "__lookupSetter__"].

(** The builtins the sources call and that are no part of them. *)
Class Platform : Type := {
  (** [parseFloat], the parser a numeric field falls back on *)
  parseFloat : value -> value;
  (** [v.toString()] / [String(v)] on numbers and objects *)
  toString : value -> string;
  (** [emailRE.test(s)] *)
  emailRE_test : string -> bool;
  (** [JSON.parse(JSON.stringify(v))], the clone allocated at [fresh] *)
  JSON_clone : ref -> value -> value;
  (** [JSON.parse] never yields [undefined] *)
  JSON_clone_defined : forall fresh v, JSON_clone fresh v <> VUndefined
}.

End JS.
Import JS.

Notation "x <- m ;; k" := (bind m (fun x => k))
  (at level 61, m at next level, right associativity).

(* ================================================================== *)
(** ** src/utils.js *)
(* ================================================================== *)

Module Utils.

(** The loop [for (var i = arr1.length; i--;)] of [arraysEqual]: [i] is
    tested, decremented, and the elements at the new [i] compared. *)
Fixpoint arraysEqual_loop (arr1 arr2 : list string) (i : nat) : bool :=
  match i with
  | O => true
  | S j =>
      match nth_error arr1 j, nth_error arr2 j with
      | Some x, Some y =>
          if negb (String.eqb x y) then false else arraysEqual_loop arr1 arr2 j
      | None, None => arraysEqual_loop arr1 arr2 j
      | _, _ => false
      end
  end.

Definition arraysEqual (arr1 arr2 : list string) : bool :=
  if negb (Nat.eqb (length arr1) (length arr2)) then false
  else arraysEqual_loop arr1 arr2 (length arr1).

End Utils.

(* ================================================================== *)
(** ** src/fields: the descriptor catalogue *)
(* ================================================================== *)

Module Fields.

(** The options object [data] a descriptor is built from ([this._data]).
    An option that was not given is [VUndefined], [None] or [false]. *)
Record FieldData : Type := {
  default : value;
  source : option string;
  sourceReadonly : bool;
  canBeNull : bool;
  index : bool;
  unique : bool;
  min : option Z;
  max : option Z;
  parser : option (value -> value);
  maxLength : option Z;
  minLength : option Z;
  autoNow : bool;
  choices : list value;
  maxItems : option Z;
  removeDuplicates : bool
}.

(** [{}] *)
Definition noData : FieldData := {|
  default := VUndefined; source := None; sourceReadonly := false;
  canBeNull := false; index := false; unique := false;
  min := None; max := None; parser := None;
  maxLength := None; minLength := None; autoNow := false;
  choices := []; maxItems := None; removeDuplicates := false |}.

(** One constructor per class of the catalogue; a list field keeps its
    [itemsType], a dictionary field its [schema], a foreign key the name
    of the model class it refers to.  A descriptor is taken as built: the
    argument checks of the class constructors are not part of the
    model. *)
Inductive descriptor : Type :=
| GenericField (data : FieldData)
| BooleanField (data : FieldData)
| NumericField (data : FieldData)
| StringField (data : FieldData)
| EmailField (data : FieldData)
| DateField (data : FieldData)
| ChoiceField (data : FieldData)
| ListField (data : FieldData) (itemsType : option descriptor)
| DictionaryField (data : FieldData)
    (schema : option (list (string * descriptor)))
| ForeignKeyField (data : FieldData) (model : string).

Definition _data (d : descriptor) : FieldData :=
  match d with
  | GenericField data | BooleanField data | NumericField data
  | StringField data | EmailField data | DateField data
  | ChoiceField data | ListField data _ | DictionaryField data _
  | ForeignKeyField data _ => data
  end.

(** What a foreign key sees of a live model instance: its class, the
    classes that class extends (nearest first), and the current
    [mongore.id].  Classes are told apart by name. *)
Record InstanceView : Type := {
  iv_model : string;
  iv_extends : list string;
  iv_id : value
}.

Definition heap := ref -> InstanceView.

(** [value instanceof model] for a live instance: the prototype of
    [model] is on the instance's prototype chain. *)
Definition instance_of (view : InstanceView) (model : string) : bool :=
  String.eqb (iv_model view) model || Set_has model (iv_extends view).

(** [get typeDefault()] *)
Definition typeDefault (d : descriptor) : value :=
  match d with
  | GenericField _ => VNull
  | BooleanField _ => VBool false
  | NumericField _ => VNum 0
  | StringField _ | EmailField _ => VStr ""
  | DateField _ => VNull
  | ChoiceField _ => VNull
  | ListField _ _ => VList 0 []
  | DictionaryField _ _ => VDict 0 []
  | ForeignKeyField _ _ => VNull
  end.

(** [this._default], fixed by the constructor of [Field]. *)
Definition _default (d : descriptor) : value :=
  match default (_data d) with
  | VUndefined => typeDefault d
  | given => given
  end.

(** [this._data.source] when it is truthy. *)
Definition source_of (data : FieldData) : option string :=
  match source data with
  | Some s => if String.eqb s "" then None else Some s
  | None => None
  end.

(** [get isMandatory()], [get isIndex()], [get isUniqueIndex()] *)
Definition isMandatory (d : descriptor) : bool := negb (canBeNull (_data d)).
Definition isIndex (d : descriptor) : bool := index (_data d).
Definition isUniqueIndex (d : descriptor) : bool := unique (_data d).

Section WithPlatform.
Context {P : Platform}.

(** [cloneData(value)]: the foreign key returns the object itself, the
    other classes clone objects through JSON. *)
Definition cloneData (d : descriptor) (fresh : ref) (v : value) : value :=
  match d with
  | ForeignKeyField _ _ => v
  | _ =>
      match v with
      | VNull => VNull
      | _ => if typeof_object v then JSON_clone fresh v else v
      end
  end.

(** [get default()] *)
Definition Field_default (d : descriptor) (fresh : ref) : value :=
  cloneData d fresh (_default d).

(** [v.mongore.id] when [v.mongore] is truthy. *)
Definition member (k : string) (v : value) : value :=
  match v with
  | VDict _ es => obj_get k es
  | _ => VUndefined
  end.

Definition mongore_id (h : heap) (v : value) : option value :=
  match v with
  | VInst r => Some (iv_id (h r))
  | VDict _ es =>
      let m := obj_get "mongore" es in
      if truthy m then Some (member "id" m) else None
  | _ => None
  end.

(** [Field.isEqual] *)
Definition Field_isEqual (a b : value) : bool := strict_eq a b.

(** [ForeignKeyField.isEqual].  In the first branch one side is [null]
    or [undefined], so [a != b] is true unless the other one is too. *)
Definition ForeignKeyField_isEqual (h : heap) (a b : value) : bool :=
  if nullish a || nullish b then negb (nullish a && nullish b)
  else
    match mongore_id h a, mongore_id h b with
    | Some ida, Some idb => negb (strict_eq ida idb)
    | _, _ => false
    end.

Definition isEqual (d : descriptor) (h : heap) (a b : value) : bool :=
  match d with
  | ForeignKeyField _ _ => ForeignKeyField_isEqual h a b
  | _ => Field_isEqual a b
  end.

(** [v.toString()] *)
Definition js_toString (v : value) : result string :=
  match v with
  | VUndefined | VNull =>
      Throw (TypeError "Cannot read property 'toString'")
  | VStr s => Ok s
  | VBool b => Ok (if b then "true" else "false")
  | _ => Ok (toString v)
  end.

(** [String(v)], the coercion [RegExp.test] applies. *)
Definition js_String (v : value) : string :=
  match v with
  | VUndefined => "undefined"
  | VNull => "null"
  | VStr s => s
  | VBool b => if b then "true" else "false"
  | _ => toString v
  end.

(** [Field.clean]: the owner's property [source] replaces the value. *)
Definition Field_clean (data : FieldData) (instance : string -> value)
    (v : value) : value :=
  match source_of data with
  | Some s => instance s
  | None => v
  end.

(** [value === null && this._data.canBeNull] *)
Definition null_allowed (data : FieldData) (v : value) : bool :=
  strict_eq v VNull && canBeNull data.

Definition BooleanField_clean (data : FieldData)
    (instance : string -> value) (v : value) : result value :=
  let v := Field_clean data instance v in
  if null_allowed data v then Ok v else Ok (VBool (truthy v)).

Definition NumericField_clean (data : FieldData)
    (instance : string -> value) (v : value) : result value :=
  let v := Field_clean data instance v in
  if null_allowed data v then Ok v
  else
    let _parser := match parser data with Some f => f | None => parseFloat end in
    match _parser v with
    | VNum n =>
        if match min data with Some m => Z.ltb n m | None => false end
        then Throw (Error "may not be smaller than min")
        else if match max data with Some m => Z.ltb m n | None => false end
        then Throw (Error "may not be larger than max")
        else Ok (VNum n)
    | _ => Throw (Error "not a valid number")
    end.

(** [StringField.clean]; both length tests are [value.length > bound], as
    in the source. *)
Definition StringField_clean (data : FieldData)
    (instance : string -> value) (v : value) : result value :=
  let v := Field_clean data instance v in
  if null_allowed data v then Ok v
  else
    s <- js_toString v ;;
    let len := Z.of_nat (js_length s) in
    if match maxLength data with Some m => Z.ltb m len | None => false end
    then Throw (Error "may not be longer than maxLength")
    else if match minLength data with Some m => Z.ltb m len | None => false end
    then Throw (Error "may not be shorter than minLength")
    else Ok (VStr s).

(** [validateEmail]: the pattern test of the platform on the string the
    value coerces to. *)
Definition validateEmail (email : value) : bool :=
  emailRE_test (js_String email).

Definition EmailField_clean (data : FieldData)
    (instance : string -> value) (v : value) : result value :=
  v <- StringField_clean data instance v ;;
  if negb (validateEmail v)
  then Throw (ValidationError "not a valid email pattern")
  else Ok v.

Definition DateField_clean (data : FieldData)
    (instance : string -> value) (now : value) (v : value) : result value :=
  let v := Field_clean data instance v in
  match v with
  | VNull => Ok (if autoNow data then now else v)
  | VDate _ _ => Ok v
  | _ => Throw (Error "not a date")
  end.

Definition ChoiceField_clean (data : FieldData)
    (instance : string -> value) (v : value) : result value :=
  let v := Field_clean data instance v in
  if null_allowed data v then Ok v
  else
    s <- js_toString v ;;
    if negb (existsb (sameValueZero (VStr s)) (choices data))
    then Throw (Error "value does not appear in possible choices")
    else Ok (VStr s).

Fixpoint clean_items (clean_item : value -> result value)
    (items : list value) : result (list value) :=
  match items with
  | [] => Ok []
  | x :: rest =>
      c <- clean_item x ;;
      cs <- clean_items clean_item rest ;;
      Ok (c :: cs)
  end.

(** [ListField.clean], given the [clean] of [this._type] if there is
    one.  The arrays and objects [clean] builds go to the storage only;
    their address is written 0.  So [removeDuplicates] is modelled for
    items that are values or objects [clean] passes on as they are; two
    arrays or objects that the cleaning of two items built are distinct
    objects to the source's [Set], which keeps both. *)
Definition ListField_clean (data : FieldData)
    (_type : option (value -> result value))
    (instance : string -> value) (v : value) : result value :=
  let v := Field_clean data instance v in
  match v with
  | VList r items =>
      if match maxItems data with
         | Some m => Z.ltb m (Z.of_nat (length items))
         | None => false
         end
      then Throw (Error "list is too long")
      else
        v1 <- match _type with
              | Some clean_item =>
                  newList <- clean_items clean_item items ;;
                  Ok (VList 0 newList)
              | None => Ok v
              end ;;
        if removeDuplicates data
        then match v1 with
             | VList _ l => Ok (VList 0 (Array_from_Set l))
             | other => Ok other
             end
        else Ok v1
  | _ => Throw (Error "not a list")
  end.

(** The loop [for (var key in value) newDict[key] = ...] of
    [DictionaryField.clean]; [clean_key k] is [this._schema[k].clean]. *)
Fixpoint clean_entries (clean_key : string -> value -> result value)
    (value : jsobject) (keys : list string) (newDict : jsobject)
    : result jsobject :=
  match keys with
  | [] => Ok newDict
  | key :: rest =>
      c <- clean_key key (obj_get key value) ;;
      clean_entries clean_key value rest (obj_set key c newDict)
  end.

(** [value.constructor !== Object]: reading [constructor] off [null] or
    [undefined] throws; an own key of that name hides the inherited
    one. *)
Definition constructor_is_Object (v : value) : result bool :=
  match v with
  | VUndefined | VNull =>
      Throw (TypeError "Cannot read property 'constructor'")
  | VDict _ es =>
      Ok (match obj_lookup "constructor" es with Some _ => false | None => true end)
  | _ => Ok false
  end.

(** [DictionaryField.clean], given the keys of [this._schema] and the
    [clean] of its descriptors if there is a schema. *)
Definition DictionaryField_clean (data : FieldData)
    (_schema : option (list string * (string -> value -> result value)))
    (instance : string -> value) (v : value) : result value :=
  let v := Field_clean data instance v in
  isObj <- constructor_is_Object v ;;
  if negb isObj then Throw (ValidationError "not a dictionary")
  else
    match _schema, v with
    | Some (schema_keys, clean_key), VDict _ es =>
        if negb (Utils.arraysEqual (Object_keys es) schema_keys)
        then Throw (ValidationError "value keys don't match schema")
        else
          newDict <- clean_entries clean_key es (Object_keys es) [] ;;
          Ok (VDict 0 newDict)
    | _, _ => Ok v
    end.

Definition ForeignKeyField_clean (data : FieldData) (model : string)
    (h : heap) (instance : string -> value) (v : value) : result value :=
  let v := Field_clean data instance v in
  if null_allowed data v then Ok v
  else
    match v with
    | VInst r =>
        if negb (instance_of (h r) model)
        then Throw (ValidationError "value not an instance of the model")
        else if strict_eq (iv_id (h r)) VUndefined
        then Throw (ValidationError "foreign key to an object without an id")
        else Ok (iv_id (h r))
    | _ => Throw (ValidationError "value not an instance of the model")
    end.

(** [descriptor.clean(instance, value)], dispatched on the class. *)
Fixpoint clean (d : descriptor) (h : heap) (now : value)
    (instance : string -> value) (v : value) {struct d} : result value :=
  match d with
  | GenericField data => Ok (Field_clean data instance v)
  | BooleanField data => BooleanField_clean data instance v
  | NumericField data => NumericField_clean data instance v
  | StringField data => StringField_clean data instance v
  | EmailField data => EmailField_clean data instance v
  | DateField data => DateField_clean data instance now v
  | ChoiceField data => ChoiceField_clean data instance v
  | ListField data itemsType =>
      ListField_clean data
        match itemsType with
        | Some t => Some (clean t h now instance)
        | None => None
        end
        instance v
  | DictionaryField data schema =>
      DictionaryField_clean data
        match schema with
        | Some sch =>
            Some (Object_keys sch,
                  (fix schema_clean (sch : list (string * descriptor))
                       (key : string) (x : value) : result value :=
                     match sch with
                     | [] => Throw (TypeError "Cannot read property 'clean'")
                     | (k, f) :: rest =>
                         if String.eqb key k then clean f h now instance x
                         else schema_clean rest key x
                     end) sch)
        | None => None
        end
        instance v
  | ForeignKeyField data model => ForeignKeyField_clean data model h instance v
  end.

(** [this._schema[key].clean(instance, x)] *)
Definition schema_clean (sch : list (string * descriptor)) (h : heap)
    (now : value) (instance : string -> value) (key : string) (x : value)
    : result value :=
  match obj_lookup key sch with
  | Some f => clean f h now instance x
  | None => Throw (TypeError "Cannot read property 'clean'")
  end.

End WithPlatform.

End Fields.

(* ================================================================== *)
(** ** src/client.js, as far as the wrappers use it *)
(* ================================================================== *)

Module Client.

(** A request handed to the MongoDB collection. *)
Inductive request : Type :=
| InsertOne (obj : jsobject) (collection : string)
| UpdateOne (query : value) (obj : jsobject) (collection : string)
| FindOne (query : value) (collection : string)
| DeleteOne (query : value) (collection : string).

Record MongoConnection : Type := {
  _isReady : bool
}.

Definition validateReady (c : MongoConnection) : result unit :=
  if negb (_isReady c) then Throw (Error "DB is not connected!") else Ok tt.

Definition insertOne (c : MongoConnection) (obj : jsobject)
    (collection : string) : result request :=
  _ <- validateReady c ;; Ok (InsertOne obj collection).

Definition updateOne (c : MongoConnection) (query : value) (obj : jsobject)
    (collection : string) : result request :=
  _ <- validateReady c ;; Ok (UpdateOne query obj collection).

Definition findOne (c : MongoConnection) (query : value)
    (collection : string) : result request :=
  _ <- validateReady c ;; Ok (FindOne query collection).

Definition deleteOne (c : MongoConnection) (query : value)
    (collection : string) : result request :=
  _ <- validateReady c ;; Ok (DeleteOne query collection).

Definition is_write (r : request) : bool :=
  match r with
  | InsertOne _ _ | UpdateOne _ _ _ => true
  | _ => false
  end.

End Client.

(* ================================================================== *)
(** ** src/model_class_wrapper.js, src/model_instance_wrapper.js,
       src/model.js *)
(* ================================================================== *)

Module Model.
Import Fields Client.

(** [modelData], the argument of [buildModel]. *)
Record ModelData : Type := {
  fields : list (string * descriptor);
  maxSizeInBytes : option Z;
  maxCount : option Z;
  collectionName : option string
}.

(** [ModelClassWrapper]: the class (its name) and its model data. *)
Record ModelClassWrapper : Type := {
  _class : string;
  _md : ModelData
}.

(** A model class; [mongore] is set once [buildModel] has run. *)
Record ModelClass : Type := {
  name : string;
  mongore : option ModelClassWrapper
}.

(** A caller's callback, by name. *)
Definition callback := nat.

(** What a continuation does besides changing the wrapper. *)
Inductive event : Type :=
| Invoke (cb : callback)
| ForeignLoad (model : string) (key : value) (instance : ref).

(** [ModelInstanceWrapper], with the own plain properties of the model
    object it wraps.  [onFirstLoad] is the property
    [_afterLoadFromDB] reads; the class itself declares none of that
    name and never assigns it. *)
Record ModelInstanceWrapper : Type := {
  _object : jsobject;
  _classWrapper : ModelClassWrapper;
  _fields : jsobject;
  _lastLoadTime : value;
  _isLoadedFromDB : bool;
  _isSavedToDB : bool;
  _onFirstLoad : option callback;
  onFirstLoad : option callback;
  _dirtyFields : list string
}.

(** The lifecycle methods of the model object; a subclass may override
    them. *)
Record Hooks : Type := {
  afterLoadedFromDB : ModelInstanceWrapper -> ModelInstanceWrapper;
  beforeSaveToDB : ModelInstanceWrapper -> ModelInstanceWrapper;
  afterSavedToDB : ModelInstanceWrapper -> ModelInstanceWrapper;
  afterDeletedFromDB : ModelInstanceWrapper -> ModelInstanceWrapper
}.

(** The empty methods of the base class [Model]. *)
Definition Model_hooks : Hooks := {|
  afterLoadedFromDB := fun w => w;
  beforeSaveToDB := fun w => w;
  afterSavedToDB := fun w => w;
  afterDeletedFromDB := fun w => w |}.

Definition with_object (w : ModelInstanceWrapper) (o : jsobject) :=
  {| _object := o; _classWrapper := _classWrapper w; _fields := _fields w;
     _lastLoadTime := _lastLoadTime w; _isLoadedFromDB := _isLoadedFromDB w;
     _isSavedToDB := _isSavedToDB w; _onFirstLoad := _onFirstLoad w;
     onFirstLoad := onFirstLoad w; _dirtyFields := _dirtyFields w |}.

Definition with_fields (w : ModelInstanceWrapper) (f : jsobject) :=
  {| _object := _object w; _classWrapper := _classWrapper w; _fields := f;
     _lastLoadTime := _lastLoadTime w; _isLoadedFromDB := _isLoadedFromDB w;
     _isSavedToDB := _isSavedToDB w; _onFirstLoad := _onFirstLoad w;
     onFirstLoad := onFirstLoad w; _dirtyFields := _dirtyFields w |}.

Definition with_flags (w : ModelInstanceWrapper) (loaded saved : bool)
    (lastLoad : value) :=
  {| _object := _object w; _classWrapper := _classWrapper w;
     _fields := _fields w; _lastLoadTime := lastLoad;
     _isLoadedFromDB := loaded; _isSavedToDB := saved;
     _onFirstLoad := _onFirstLoad w; onFirstLoad := onFirstLoad w;
     _dirtyFields := _dirtyFields w |}.

Definition with_onFirstLoad (w : ModelInstanceWrapper) (cb : option callback) :=
  {| _object := _object w; _classWrapper := _classWrapper w;
     _fields := _fields w; _lastLoadTime := _lastLoadTime w;
     _isLoadedFromDB := _isLoadedFromDB w; _isSavedToDB := _isSavedToDB w;
     _onFirstLoad := cb; onFirstLoad := onFirstLoad w;
     _dirtyFields := _dirtyFields w |}.

Definition with_dirtyFields (w : ModelInstanceWrapper) (s : list string) :=
  {| _object := _object w; _classWrapper := _classWrapper w;
     _fields := _fields w; _lastLoadTime := _lastLoadTime w;
     _isLoadedFromDB := _isLoadedFromDB w; _isSavedToDB := _isSavedToDB w;
     _onFirstLoad := _onFirstLoad w; onFirstLoad := onFirstLoad w;
     _dirtyFields := s |}.

(** *** ModelClassWrapper *)

Definition ClassWrapper_fieldNames (cw : ModelClassWrapper) : list string :=
  Object_keys (fields (_md cw)).

(** [this._md.fields[fieldName]] as far as it is an own entry of
    [fields].  For a name that is none, the lookup goes on to
    [Object.prototype]: it yields the member of that name, which is no
    descriptor, for the names of [Object_prototype], and [undefined] for
    any other name. *)
Definition ClassWrapper_getFieldDescriptor (cw : ModelClassWrapper)
    (fieldName : string) : option descriptor :=
  obj_lookup fieldName (fields (_md cw)).

Definition ClassWrapper_collectionName (cw : ModelClassWrapper) : string :=
  match collectionName (_md cw) with
  | Some s => if String.eqb s "" then _class cw ++ "s" else s
  | None => _class cw ++ "s"
  end.

Section WithPlatform.
Context {P : Platform}.

Definition ClassWrapper_getDefault (cw : ModelClassWrapper)
    (fieldName : string) (fresh : ref) : result value :=
  match ClassWrapper_getFieldDescriptor cw fieldName with
  | Some d => Ok (Field_default d fresh)
  | None => Throw (TypeError "Cannot read property 'default'")
  end.

(** *** ModelInstanceWrapper: accessors *)

(** [new ModelInstanceWrapper(instance)] *)
Definition new_ModelInstanceWrapper (cw : ModelClassWrapper)
    : ModelInstanceWrapper :=
  {| _object := []; _classWrapper := cw; _fields := [];
     _lastLoadTime := VNull; _isLoadedFromDB := false;
     _isSavedToDB := false; _onFirstLoad := None; onFirstLoad := None;
     _dirtyFields := [] |}.

Definition getFieldDescriptor (w : ModelInstanceWrapper) (fieldName : string)
    : option descriptor :=
  ClassWrapper_getFieldDescriptor (_classWrapper w) fieldName.

Definition getDefault (w : ModelInstanceWrapper) (fieldName : string)
    (fresh : ref) : result value :=
  ClassWrapper_getDefault (_classWrapper w) fieldName fresh.

Definition fieldNames (w : ModelInstanceWrapper) : list string :=
  ClassWrapper_fieldNames (_classWrapper w).

Definition get_collectionName (w : ModelInstanceWrapper) : string :=
  ClassWrapper_collectionName (_classWrapper w).

Definition isDirty (w : ModelInstanceWrapper) : bool :=
  negb (Nat.eqb (length (_dirtyFields w)) 0).

Definition dirtyFields (w : ModelInstanceWrapper) : list string :=
  _dirtyFields w.

Definition creationTime (w : ModelInstanceWrapper) : value :=
  obj_get "_dbCreationTime" (_fields w).

Definition lastUpdateTime (w : ModelInstanceWrapper) : value :=
  obj_get "_dbLastUpdateTime" (_fields w).

Definition objectVersion (w : ModelInstanceWrapper) : value :=
  obj_get "_dbObjectVersion" (_fields w).

Definition isLoadedFromDB (w : ModelInstanceWrapper) : bool :=
  _isLoadedFromDB w.

Definition isSavedToDB (w : ModelInstanceWrapper) : bool :=
  _isSavedToDB w.

Definition isInDB (w : ModelInstanceWrapper) : bool :=
  isLoadedFromDB w || isSavedToDB w.

Definition get_id (w : ModelInstanceWrapper) : value :=
  obj_get "_id" (_fields w).

(** *** The properties [buildModel] installs on the class *)

(** The generated properties, for an instance of a class on which
    [buildModel] returned (every field has its accessor pair) and whose
    property [mongore] is the wrapper: no field is named [mongore], and
    [mongore] has not been assigned.

    [instance[p]]: the getter of a registered field reads the wrapper's
    field map; any other name is read among the own properties of the
    object. *)
Definition object_get (w : ModelInstanceWrapper) (p : string) : value :=
  match getFieldDescriptor w p with
  | Some _ => obj_get p (_fields w)
  | None => obj_get p (_object w)
  end.

(** [instance[p] = value]: the setter of a registered field. *)
Definition object_set (h : heap) (w : ModelInstanceWrapper) (p : string)
    (v : value) : ModelInstanceWrapper :=
  match getFieldDescriptor w p with
  | Some d =>
      if isEqual d h v (obj_get p (_fields w)) then w
      else with_dirtyFields (with_fields w (obj_set p v (_fields w)))
             (Set_add p (_dirtyFields w))
  | None => with_object w (obj_set p v (_object w))
  end.

(** [setToDefault(fieldName)] *)
Definition setToDefault (h : heap) (w : ModelInstanceWrapper)
    (fieldName : string) (fresh : ref) : result ModelInstanceWrapper :=
  v <- getDefault w fieldName fresh ;;
  Ok (object_set h w fieldName v).

(** *** src/model.js: the constructor of [Model] *)

(** The loop over [fieldNames] that assigns every default; the clone of
    the [i]-th default is allocated at [alloc + i].  The defaults are
    taken to survive the JSON clone (no model instance inside). *)
Fixpoint set_defaults (h : heap) (names : list string) (alloc : ref)
    (w : ModelInstanceWrapper) : result ModelInstanceWrapper :=
  match names with
  | [] => Ok w
  | fieldName :: rest =>
      v <- getDefault w fieldName alloc ;;
      set_defaults h rest (S alloc) (object_set h w fieldName v)
  end.

(** [new cls()]: the instance's wrapper once every default is assigned,
    each through the generated setter (see [object_set] for the classes
    this is stated for). *)
Definition Model_constructor (cls : ModelClass) (h : heap) (alloc : ref)
    : result ModelInstanceWrapper :=
  match mongore cls with
  | None =>
      Throw (Error "Cannot create instance of 'Model' before buildModel() is called!")
  | Some cw =>
      let w := new_ModelInstanceWrapper cw in
      set_defaults h (fieldNames w) alloc w
  end.

(** *** ModelInstanceWrapper: serialization and the storage calls *)

(** [{_id: this.id}] *)
Definition id_query (w : ModelInstanceWrapper) : value :=
  VDict 0 [("_id", get_id w)].

(** [descriptor ? descriptor.clean(this._object, this._fields[key])
    : this._fields[key]]; a member of [Object.prototype] found in place
    of a descriptor is truthy and has no [clean]. *)
Definition clean_field (h : heap) (now : value) (w : ModelInstanceWrapper)
    (key : string) : result value :=
  match getFieldDescriptor w key with
  | Some d => clean d h now (object_get w) (obj_get key (_fields w))
  | None =>
      if Set_has key Object_prototype
      then Throw (TypeError "descriptor.clean is not a function")
      else Ok (obj_get key (_fields w))
  end.

(** The loop [for (var key in this._fields)] of [toDocument]. *)
Fixpoint toDocument_loop (h : heap) (now : value) (w : ModelInstanceWrapper)
    (dirtyOnly : bool) (keys : list string) (ret : jsobject)
    : result jsobject :=
  match keys with
  | [] => Ok ret
  | key :: rest =>
      if dirtyOnly && negb (Set_has key (_dirtyFields w))
      then toDocument_loop h now w dirtyOnly rest ret
      else
        c <- clean_field h now w key ;;
        toDocument_loop h now w dirtyOnly rest (obj_set key c ret)
  end.

(** The three metadata assignments that end [toDocument]. *)
Definition stamp_metadata (now : value) (w : ModelInstanceWrapper)
    (ret : jsobject) : jsobject :=
  let ret := obj_set "_dbLastUpdateTime" now ret in
  let ret :=
    obj_set "_dbCreationTime"
      (or_else (obj_get "_dbCreationTime" (_fields w))
               (obj_get "_dbLastUpdateTime" ret)) ret in
  obj_set "_dbObjectVersion"
    (plus_one toString (or_else (obj_get "_dbObjectVersion" (_fields w)) (VNum 0)))
    ret.

Definition toDocument (h : heap) (now : value) (w : ModelInstanceWrapper)
    (dirtyOnly : bool) : result jsobject :=
  ret <- toDocument_loop h now w dirtyOnly (Object_keys (_fields w)) [] ;;
  Ok (stamp_metadata now w ret).

(** [_afterSaveToDB(data)]; [data] is what the client passes to the
    success callback. *)
Definition _afterSaveToDB (hk : Hooks) (w : ModelInstanceWrapper)
    (data : jsobject) : ModelInstanceWrapper :=
  let w := with_flags w (_isLoadedFromDB w) true (_lastLoadTime w) in
  let w := with_dirtyFields w [] in
  let w :=
    with_fields w
      (obj_set "_dbCreationTime"
         (or_else (obj_get "_dbCreationTime" data)
                  (obj_get "_dbCreationTime" (_fields w)))
         (_fields w)) in
  let w :=
    with_fields w
      (obj_set "_dbLastUpdateTime" (obj_get "_dbLastUpdateTime" data)
         (_fields w)) in
  let w :=
    with_fields w
      (obj_set "_dbObjectVersion" (obj_get "_dbObjectVersion" data)
         (_fields w)) in
  afterSavedToDB hk w.

(** [if (onSuccess) { onSuccess(..); }] *)
Definition call (onSuccess : option callback) : list event :=
  match onSuccess with
  | Some cb => [Invoke cb]
  | None => []
  end.

(** [save(onSuccess, onError, forceSave)] up to the call of the client:
    the wrapper as the before-save hook left it, and either the exception
    thrown, or the request handed to the client if there is one. *)
Definition save (hk : Hooks) (c : MongoConnection) (h : heap) (now : value)
    (w : ModelInstanceWrapper) (forceSave : bool)
    : ModelInstanceWrapper * result (option request) :=
  let w := beforeSaveToDB hk w in
  if isInDB w then
    if forceSave || isDirty w then
      (w, data <- toDocument h now w true ;;
          r <- updateOne c (id_query w) data (get_collectionName w) ;;
          Ok (Some r))
    else (w, Ok None)
  else
    (w, data <- toDocument h now w false ;;
        r <- insertOne c data (get_collectionName w) ;;
        Ok (Some r)).

(** The success callback [save] passes to the client. *)
Definition save_onSuccess (hk : Hooks) (w : ModelInstanceWrapper)
    (data : jsobject) (onSuccess : option callback)
    : ModelInstanceWrapper * list event :=
  (_afterSaveToDB hk w data, call onSuccess).

(** [delete(onSuccess, onError)] and its success callback. *)
Definition delete (c : MongoConnection) (w : ModelInstanceWrapper)
    : result request :=
  deleteOne c (id_query w) (get_collectionName w).

Definition delete_onSuccess (hk : Hooks) (w : ModelInstanceWrapper)
    (onSuccess : option callback) : ModelInstanceWrapper * list event :=
  (afterDeletedFromDB hk w, call onSuccess).

(** *** ModelInstanceWrapper: the load path *)

(** [Field.initAfterLoad] *)
Definition Field_initAfterLoad (data : FieldData) (h : heap)
    (w : ModelInstanceWrapper) (v : value) : ModelInstanceWrapper :=
  match source_of data with
  | Some s => if sourceReadonly data then w else object_set h w s v
  | None => w
  end.

(** [descriptor.initAfterLoad(instance, value)]; a foreign key replaces
    the stored key by the instance [model.mongore.load(key)] returns,
    allocated at [alloc]. *)
Definition initAfterLoad (d : descriptor) (h : heap) (alloc : ref)
    (w : ModelInstanceWrapper) (v : value)
    : ModelInstanceWrapper * value * list event :=
  match d with
  | ForeignKeyField data model =>
      let loaded := VInst alloc in
      (Field_initAfterLoad data h w loaded, loaded, [ForeignLoad model v alloc])
  | _ => (Field_initAfterLoad (_data d) h w v, v, [])
  end.

(** [set onLoaded(value)] *)
Definition set_onLoaded (w : ModelInstanceWrapper) (v : option callback)
    : ModelInstanceWrapper * list event :=
  let w := with_onFirstLoad w v in
  (w, if _isLoadedFromDB w then call v else []).

(** [_afterLoadFromDB()] *)
Definition _afterLoadFromDB (hk : Hooks) (now : value)
    (w : ModelInstanceWrapper) : ModelInstanceWrapper * list event :=
  let firstLoad := negb (_isLoadedFromDB w) in
  let w := with_flags w true (_isSavedToDB w) (_lastLoadTime w) in
  let w := with_dirtyFields w [] in
  let w := with_flags w (_isLoadedFromDB w) (_isSavedToDB w) now in
  let w := afterLoadedFromDB hk w in
  (w, if firstLoad then call (onFirstLoad w) else []).

(** The loop [for (var key in data)] of [_setFromDBDocument], for a
    document none of whose keys is a name of [Object_prototype] (for
    such a key the lookup of the descriptor yields the inherited member
    and the call of its [initAfterLoad] throws), and for foreign keys
    whose model's [load] returns. *)
Fixpoint setFields_loop (h : heap) (alloc : ref) (data : jsobject)
    (keys : list string) (w : ModelInstanceWrapper)
    : ModelInstanceWrapper * list event :=
  match keys with
  | [] => (w, [])
  | key :: rest =>
      let '(w1, v, ev) :=
        match getFieldDescriptor w key with
        | Some d => initAfterLoad d h alloc w (obj_get key data)
        | None => (w, obj_get key data, [])
        end in
      let w2 := with_fields w1 (obj_set key v (_fields w1)) in
      let '(w3, ev') := setFields_loop h (S alloc) data rest w2 in
      (w3, ev ++ ev')
  end.

Definition _setFromDBDocument (hk : Hooks) (h : heap) (now : value)
    (alloc : ref) (w : ModelInstanceWrapper) (data : jsobject)
    (invokePostLoadEvents : bool) : ModelInstanceWrapper * list event :=
  let '(w, ev) := setFields_loop h alloc data (Object_keys data) w in
  if invokePostLoadEvents then
    let '(w, ev') := _afterLoadFromDB hk now w in (w, ev ++ ev')
  else (w, ev).

(** [reload(onSuccess, onError)] and its success callback. *)
Definition reload (c : MongoConnection) (w : ModelInstanceWrapper)
    : result request :=
  if negb (isInDB w)
  then Throw (Error "Cannot call 'reload()' on instances that were not load / saved to DB!")
  else findOne c (id_query w) (get_collectionName w).

Definition reload_onSuccess (hk : Hooks) (h : heap) (now : value)
    (alloc : ref) (w : ModelInstanceWrapper) (data : jsobject)
    (onSuccess : option callback) : ModelInstanceWrapper * list event :=
  let '(w, ev) := _setFromDBDocument hk h now alloc w data true in
  (w, ev ++ call onSuccess).

(** [ModelClassWrapper.load(query, ...)]: the instance it returns at
    once and the request; the success callback hydrates the instance. *)
Definition ClassWrapper_load (cls : ModelClass) (c : MongoConnection)
    (h : heap) (alloc : ref) (query : value)
    : result (ModelInstanceWrapper * request) :=
  ret <- Model_constructor cls h alloc ;;
  let query :=
    if typeof_object query then query else VDict 0 [("_id", query)] in
  r <- findOne c query (get_collectionName ret) ;;
  Ok (ret, r).

Definition load_onSuccess (hk : Hooks) (h : heap) (now : value)
    (alloc : ref) (ret : ModelInstanceWrapper) (data : jsobject)
    (onSuccess : option callback) : ModelInstanceWrapper * list event :=
  let '(w, ev) := _setFromDBDocument hk h now alloc ret data true in
  (w, ev ++ call onSuccess).

End WithPlatform.

End Model.

(* ================================================================== *)
(** ** Runs of an instance against a storage, and a reference platform *)
(* ================================================================== *)

Module Scenario.
Import Fields Client Model.

(** The document a write request carries, and the version it persists. *)
Definition request_obj (r : request) : jsobject :=
  match r with
  | InsertOne obj _ | UpdateOne _ obj _ => obj
  | FindOne _ _ | DeleteOne _ _ => []
  end.

Definition persisted_version (r : request) : value :=
  obj_get "_dbObjectVersion" (request_obj r).

(** The answers of the MongoDB driver, which the client passes to the
    success callback of [insertOne] and [updateOne] as they are: the
    result object of the write, which has no [_dbObjectVersion]. *)
Definition answers_without_version (respond : request -> jsobject) : Prop :=
  forall r, is_write r = true ->
    obj_lookup "_dbObjectVersion" (respond r) = None.

(** The names of the three metadata keys [toDocument] stamps. *)
Definition bookkeeping : list string :=
  ["_dbLastUpdateTime"; "_dbCreationTime"; "_dbObjectVersion"].

(** The field map the constructor of [Model] leaves when every
    assignment of a default takes effect. *)
Fixpoint defaults_from {P : Platform} (alloc : ref)
    (fs : list (string * descriptor)) : jsobject :=
  match fs with
  | [] => []
  | (f, d) :: rest => (f, Field_default d alloc) :: defaults_from (S alloc) rest
  end.

(** A descriptor whose default the setter stores at construction: any
    class but the foreign key, and a foreign key whose default is
    [null]. *)
Definition default_is_stored (d : descriptor) : Prop :=
  match d with
  | ForeignKeyField _ _ => _default d = VNull
  | _ => True
  end.

(** One step of application code: some assignments, then [save]. *)
Record step : Type := {
  edits : list (string * value);
  forceSave : bool;
  at_time : value
}.

Fixpoint assign (h : heap) (w : ModelInstanceWrapper)
    (es : list (string * value)) : ModelInstanceWrapper :=
  match es with
  | [] => w
  | (p, v) :: rest => assign h (object_set h w p v) rest
  end.

(** The steps in turn, each save completed by the storage's answer
    before the next step starts; the requests issued, in order. *)
Fixpoint run {P : Platform} (hk : Hooks) (c : MongoConnection) (h : heap)
    (respond : request -> jsobject) (steps : list step)
    (w : ModelInstanceWrapper)
    : result (ModelInstanceWrapper * list request) :=
  match steps with
  | [] => Ok (w, [])
  | s :: rest =>
      let w1 := assign h w (edits s) in
      let '(w2, out) := save hk c h (at_time s) w1 (forceSave s) in
      o <- out ;;
      match o with
      | None => run hk c h respond rest w2
      | Some r =>
          let w3 := fst (save_onSuccess hk w2 (respond r) None) in
          res <- run hk c h respond rest w3 ;;
          Ok (fst res, r :: snd res)
      end
  end.

(** How often callback [cb] is invoked in a trace. *)
Definition invocations (cb : callback) (evs : list event) : nat :=
  length (filter (fun e => match e with
                           | Invoke cb' => Nat.eqb cb cb'
                           | _ => false
                           end) evs).

(** A platform for the integer fragment: [parseFloat] keeps a number,
    [toString] prints a number in decimal and a plain object as
    [[object Object]], the pattern test asks for an [@] (coarser than the
    pattern of the email field), the JSON clone keeps arrays and plain
    objects. *)
Definition ref_parseFloat (v : value) : value :=
  match v with
  | VNum n => VNum n
  | _ => VNaN
  end.

Definition ref_toString (v : value) : string :=
  match v with
  | VNum n => NilZero.string_of_int (Z.to_int n)
  | VNaN => "NaN"
  | _ => "[object Object]"
  end.

Definition ref_emailRE_test (s : string) : bool :=
  match String.index 0 "@" s with
  | Some _ => true
  | None => false
  end.

Definition ref_JSON_clone (fresh : ref) (v : value) : value :=
  match v with
  | VList _ items => VList fresh items
  | VDict _ es => VDict fresh es
  | VUndefined | VInst _ | VNaN => VNull
  | other => other
  end.

Definition ref_platform : Platform.
Proof.
  refine {| parseFloat := ref_parseFloat;
            toString := ref_toString;
            emailRE_test := ref_emailRE_test;
            JSON_clone := ref_JSON_clone |}.
  intros fresh v; destruct v; discriminate.
Defined.

Definition connected : MongoConnection := {| _isReady := true |}.

(** No other live instance: every address shows class [Other], no id. *)
Definition empty_heap : heap :=
  fun _ => {| iv_model := "Other"; iv_extends := []; iv_id := VUndefined |}.

(** A class [Dog] with two generic fields. *)
Definition Dog_data : ModelData := {|
  fields := [("name", GenericField noData); ("breed", GenericField noData)];
  maxSizeInBytes := None; maxCount := None; collectionName := None |}.

Definition Dog : ModelClass :=
  {| name := "Dog"; mongore := Some {| _class := "Dog"; _md := Dog_data |} |}.

(** A class [User] and two live users with the keys 7 and 8, and a class
    [Board] whose [creator] refers to a user. *)
Definition users_heap : heap :=
  fun r =>
    match r with
    | 1 => {| iv_model := "User"; iv_extends := []; iv_id := VNum 7 |}
    | 2 => {| iv_model := "User"; iv_extends := []; iv_id := VNum 7 |}
    | 3 => {| iv_model := "User"; iv_extends := []; iv_id := VNum 8 |}
    | _ => {| iv_model := "Other"; iv_extends := []; iv_id := VUndefined |}
    end.

Definition creator_field : descriptor :=
  ForeignKeyField {| default := VUndefined; source := None;
                     sourceReadonly := false; canBeNull := true;
                     index := false; unique := false; min := None;
                     max := None; parser := None; maxLength := None;
                     minLength := None; autoNow := false; choices := [];
                     maxItems := None; removeDuplicates := false |} "User".

Definition Board_data : ModelData := {|
  fields := [("creator", creator_field)];
  maxSizeInBytes := None; maxCount := None; collectionName := None |}.

Definition Board : ModelClass :=
  {| name := "Board"; mongore := Some {| _class := "Board"; _md := Board_data |} |}.

(** [{canBeNull: true}] *)
Definition nullable : FieldData := {|
  default := VUndefined; source := None; sourceReadonly := false;
  canBeNull := true; index := false; unique := false; min := None;
  max := None; parser := None; maxLength := None; minLength := None;
  autoNow := false; choices := []; maxItems := None;
  removeDuplicates := false |}.

(** The schema [{a: NumericField, b: StringField}] with the default
    [{a: 0, b: ""}]. *)
Definition ab_schema : list (string * descriptor) :=
  [("a", NumericField noData); ("b", StringField noData)].

Definition ab_field : descriptor :=
  DictionaryField
    {| default := VDict 0 [("a", VNum 0); ("b", VStr "")]; source := None;
       sourceReadonly := false; canBeNull := false; index := false;
       unique := false; min := None; max := None; parser := None;
       maxLength := None; minLength := None; autoNow := false;
       choices := []; maxItems := None; removeDuplicates := false |}
    (Some ab_schema).

Definition no_owner : string -> value := fun _ => VUndefined.

(** A storage that answers a write with the document it wrote, and one
    that answers with the driver's result metadata only. *)
Definition echo (r : request) : jsobject := request_obj r.

Definition metadata_only (r : request) : jsobject :=
  [("insertedCount", VNum 1)].

Definition t1 : value := VDate 50 1000.
Definition t2 : value := VDate 51 2000.

(** A dog as the constructor leaves it, and the same dog once its first
    save has been answered by [echo]. *)
Definition fresh_dog : ModelInstanceWrapper :=
  {| _object := []; _classWrapper := {| _class := "Dog"; _md := Dog_data |};
     _fields := [("name", VNull); ("breed", VNull)];
     _lastLoadTime := VNull; _isLoadedFromDB := false;
     _isSavedToDB := false; _onFirstLoad := None; onFirstLoad := None;
     _dirtyFields := ["name"; "breed"] |}.

Definition saved_dog : ModelInstanceWrapper :=
  {| _object := []; _classWrapper := {| _class := "Dog"; _md := Dog_data |};
     _fields := [("name", VNull); ("breed", VNull);
                 ("_dbCreationTime", t1); ("_dbLastUpdateTime", t1);
                 ("_dbObjectVersion", VNum 1)];
     _lastLoadTime := VNull; _isLoadedFromDB := false;
     _isSavedToDB := true; _onFirstLoad := None; onFirstLoad := None;
     _dirtyFields := [] |}.

Definition save_now (t : value) : step :=
  {| edits := []; forceSave := false; at_time := t |}.

Definition rename_and_save (t : value) : step :=
  {| edits := [("name", VStr "Rex")]; forceSave := false; at_time := t |}.

Definition renamed_dog : ModelInstanceWrapper :=
  object_set empty_heap saved_dog "name" (VStr "Rex").

(** The document of the forced update of [renamed_dog] at [t2]. *)
Definition forced_doc : jsobject :=
  [("name", VStr "Rex"); ("_dbLastUpdateTime", t2);
   ("_dbCreationTime", t1); ("_dbObjectVersion", VNum 2)].

(** Two steps on [fresh_dog], each save answered with the driver's
    result: the insert and, after a renaming, the update.  Both writes
    carry version 1, and the dog ends without a version. *)
Definition two_saves : list step := [save_now t1; rename_and_save t2].

Definition writes_of_version_one : list request :=
  [InsertOne [("name", VNull); ("breed", VNull);
              ("_dbLastUpdateTime", t1); ("_dbCreationTime", t1);
              ("_dbObjectVersion", VNum 1)] "Dogs";
   UpdateOne (VDict 0 [("_id", VUndefined)])
     [("name", VStr "Rex"); ("_dbLastUpdateTime", t2);
      ("_dbCreationTime", t2); ("_dbObjectVersion", VNum 1)] "Dogs"].

Definition dog_after_two_saves : ModelInstanceWrapper :=
  {| _object := []; _classWrapper := {| _class := "Dog"; _md := Dog_data |};
     _fields := [("name", VStr "Rex"); ("breed", VNull);
                 ("_dbCreationTime", VUndefined);
                 ("_dbLastUpdateTime", VUndefined);
                 ("_dbObjectVersion", VUndefined)];
     _lastLoadTime := VNull; _isLoadedFromDB := false;
     _isSavedToDB := true; _onFirstLoad := None; onFirstLoad := None;
     _dirtyFields := [] |}.

(** A class [Post] with a list field, a new post, and the post once
    [tags] has been assigned a number. *)
Definition Post_data : ModelData := {|
  fields := [("tags", ListField noData None)];
  maxSizeInBytes := None; maxCount := None; collectionName := None |}.

Definition Post : ModelClass :=
  {| name := "Post"; mongore := Some {| _class := "Post"; _md := Post_data |} |}.

Definition fresh_post : ModelInstanceWrapper :=
  {| _object := []; _classWrapper := {| _class := "Post"; _md := Post_data |};
     _fields := [("tags", VList 10 [])];
     _lastLoadTime := VNull; _isLoadedFromDB := false;
     _isSavedToDB := false; _onFirstLoad := None; onFirstLoad := None;
     _dirtyFields := ["tags"] |}.

Definition bad_post : ModelInstanceWrapper :=
  object_set empty_heap fresh_post "tags" (VNum 3).

(** The document a [findOne] of the dog [Rex] answers with. *)
Definition rex_document : jsobject :=
  [("name", VStr "Rex"); ("breed", VStr "lab");
   ("_dbCreationTime", t1); ("_dbLastUpdateTime", t1);
   ("_dbObjectVersion", VNum 1)].

(** A board in storage whose [creator] holds the user at address 1, with
    nothing dirty. *)
Definition board_of_user1 : ModelInstanceWrapper :=
  with_flags
    (with_fields (new_ModelInstanceWrapper {| _class := "Board"; _md := Board_data |})
       [("creator", VInst 1)])
    true false VNull.

End Scenario.

Import Fields Client Model Scenario.

(* ================================================================== *)
(** ** The rest of the sources: validators, collection set-up,
       registration, and the callbacks of the client *)
(* ================================================================== *)

Module Admin.
Import Fields Client Model.

(** *** src/utils.js and src/client.js: where a reply of the driver goes *)

(** What the callback given to the driver ends in. *)
Inductive routed : Type :=
| ToSuccess (cb : callback) (res : jsobject)
| ToNotFound (cb : callback)
| ToError (cb : callback) (e : error)
| Raised (e : error)
| Dropped.

(** [callbackOrThrow(err, callback)] *)
Definition callbackOrThrow (err : error) (cb : option callback) : routed :=
  match cb with
  | Some f => ToError f err
  | None => Raised err
  end.

(** The callback [findOne] and [deleteOne] give the driver, run on the
    reply [(err, res)]; an absent [err] or [res] is [None], and [query]
    is what [JSON.stringify] prints for the query. *)
Definition on_document_reply (query collection : string)
    (err : option error) (res : option jsobject)
    (onSuccess onError onNotFound : option callback) : routed :=
  let notFound :=
    match err, res with
    | None, None => true
    | _, _ => false
    end in
  match (if notFound then onNotFound else None) with
  | Some f => ToNotFound f
  | None =>
      let err :=
        if notFound
        then Some (Error ("Document matching query '" ++ query
                          ++ "' not found in collection '" ++ collection
                          ++ "'!"))
        else err in
      match err with
      | Some e => callbackOrThrow e onError
      | None =>
          match res, onSuccess with
          | Some doc, Some f => ToSuccess f doc
          | _, _ => Dropped
          end
      end
  end.

(** The callback [insertOne] and [updateOne] give the driver. *)
Definition on_write_reply (err : option error) (res : jsobject)
    (onSuccess onError : option callback) : routed :=
  match err with
  | Some e => callbackOrThrow e onError
  | None =>
      match onSuccess with
      | Some f => ToSuccess f res
      | None => Dropped
      end
  end.

(** *** src/fields: [indexType] and [getValidatorProperties] *)

(** [get indexType()]: the number 1 or the name of the index kind. *)
Definition indexType (d : descriptor) : value :=
  match d with
  | NumericField _ | BooleanField _ => VNum 1
  | StringField _ | EmailField _ => VStr "text"
  | _ => VStr "hashed"
  end.

Definition required_suffix (d : descriptor) : string :=
  if isMandatory d then " and is required" else "".

(** [if (this._data.k) { ret.k = this._data.k; }]: a bound that is 0 is
    falsy and left out. *)
Definition set_if_truthy (k : string) (bound : option Z) (ret : jsobject)
    : jsobject :=
  match bound with
  | Some m => if Z.eqb m 0 then ret else obj_set k (VNum m) ret
  | None => ret
  end.

(** The loop [for (var field in schema) properties[field] =
    schema[field].getValidatorProperties()]. *)
Fixpoint properties_loop (gvp : descriptor -> result jsobject)
    (fs : list (string * descriptor)) (properties : jsobject)
    : result jsobject :=
  match fs with
  | [] => Ok properties
  | (field, f) :: rest =>
      p <- gvp f ;;
      properties_loop gvp rest (obj_set field (VDict 0 p) properties)
  end.

(** The loop that collects the names of the mandatory fields. *)
Definition mandatoryFields (fs : list (string * descriptor)) : list string :=
  map fst (filter (fun fd => isMandatory (snd fd)) fs).

(** [s.split(' ')[1]] for words separated by single spaces. *)
Fixpoint first_word (s : string) : string :=
  match s with
  | EmptyString => EmptyString
  | String c rest =>
      if Ascii.eqb c " "%char then EmptyString else String c (first_word rest)
  end.

Fixpoint drop_word (s : string) : string :=
  match s with
  | EmptyString => EmptyString
  | String c rest => if Ascii.eqb c " "%char then rest else drop_word rest
  end.

Definition second_word (s : string) : string := first_word (drop_word s).

Section Validators.
(** The regular expression object [emailRE], and the test
    [this._parser == parseInt] on the function a numeric field was given. *)
Variable emailRE : value.
Variable is_parseInt : (value -> value) -> bool.

(** [NumericField.getValidatorProperties]: with [min] or [max] given it
    assigns to [ret], a variable the method never declares, which throws
    a ReferenceError (an [Error] here). *)
Definition NumericField_getValidatorProperties (d : descriptor)
    : result jsobject :=
  let data := _data d in
  let type :=
    match parser data with
    | Some f => if is_parseInt f then "an int" else "a double"
    | None => "a double"
    end in
  match min data, max data with
  | None, None =>
      let descriptionParts :=
        if isMandatory d then [type; "and is required"] else [type] in
      Ok [("bsonType", VStr (second_word type));
          ("description",
           VStr ("must be " ++ String.concat ", " descriptionParts))]
  | _, _ => Throw (Error "ReferenceError: ret is not defined")
  end.

Definition StringField_getValidatorProperties (d : descriptor) : jsobject :=
  let ret := [("bsonType", VStr "string");
              ("description", VStr ("must be a string" ++ required_suffix d))] in
  let ret := set_if_truthy "maxLength" (maxLength (_data d)) ret in
  set_if_truthy "minLength" (minLength (_data d)) ret.

Definition EmailField_getValidatorProperties (d : descriptor) : jsobject :=
  let ret := [("bsonType", VStr "string"); ("pattern", emailRE);
              ("description", VStr ("must be an email" ++ required_suffix d))] in
  let ret := set_if_truthy "maxLength" (maxLength (_data d)) ret in
  set_if_truthy "minLength" (minLength (_data d)) ret.

Definition ListField_getValidatorProperties (d : descriptor) : jsobject :=
  let ret := [("bsonType", VStr "array");
              ("description", VStr ("must be a list" ++ required_suffix d))] in
  let ret := set_if_truthy "maxItems" (maxItems (_data d)) ret in
  if removeDuplicates (_data d) then obj_set "uniqueItems" (VBool true) ret
  else ret.

(** [descriptor.getValidatorProperties()], dispatched on the class.  The
    choice field calls [join] on [this._choices], which is a [Set] and
    has no such method. *)
Fixpoint getValidatorProperties (d : descriptor) : result jsobject :=
  match d with
  | GenericField _ | ForeignKeyField _ _ => Ok []
  | BooleanField _ =>
      Ok [("bsonType", VStr "bool");
          ("description", VStr ("must be a boolean" ++ required_suffix d))]
  | NumericField _ => NumericField_getValidatorProperties d
  | StringField _ => Ok (StringField_getValidatorProperties d)
  | EmailField _ => Ok (EmailField_getValidatorProperties d)
  | DateField _ =>
      Ok [("bsonType", VStr "date");
          ("description", VStr ("must be a date" ++ required_suffix d))]
  | ChoiceField _ => Throw (TypeError "this._choices.join is not a function")
  | ListField _ _ => Ok (ListField_getValidatorProperties d)
  | DictionaryField _ None =>
      Ok [("bsonType", VStr "object");
          ("description", VStr ("must be a dictionary" ++ required_suffix d))]
  | DictionaryField _ (Some sch) =>
      properties <- properties_loop getValidatorProperties sch [] ;;
      Ok [("bsonType", VStr "object");
          ("required", VList 0 (map VStr (mandatoryFields sch)));
          ("properties", VDict 0 properties);
          ("description",
           VStr ("must be a dictionary with a specific schema"
                 ++ required_suffix d))]
  end.

(** *** src/model_class_wrapper.js: the collection of a model *)

(** [getCollectionOptions()] *)
Definition getCollectionOptions (cw : ModelClassWrapper) : result jsobject :=
  let fs := fields (_md cw) in
  properties <- properties_loop getValidatorProperties fs [] ;;
  let collectionOptions :=
    [("validator",
      VDict 0 [("$jsonSchema",
                VDict 0 [("bsonType", VStr "object");
                         ("required", VList 0 (map VStr (mandatoryFields fs)));
                         ("properties", VDict 0 properties)])])] in
  let collectionOptions :=
    match maxSizeInBytes (_md cw) with
    | Some n =>
        if Z.eqb n 0 then collectionOptions
        else obj_set "capped" (VBool true)
               (obj_set "size" (VNum n) collectionOptions)
    | None => collectionOptions
    end in
  Ok (set_if_truthy "max" (maxCount (_md cw)) collectionOptions).

(** A request of collection administration. *)
Inductive admin_request : Type :=
| CreateCollection (name : string) (options : jsobject)
| CreateIndex (collection : string) (indexes : list (string * value))
    (unique : bool)
| DropCollection (name : string).

(** The loop of [createCollection] that sorts the index fields into the
    two batches; an index [{field: indexType}] is the pair of the two. *)
Fixpoint index_batches (fs : list (string * descriptor))
    (indexes uniqueIndexes : list (string * value))
    : list (string * value) * list (string * value) :=
  match fs with
  | [] => (indexes, uniqueIndexes)
  | (field, f) :: rest =>
      if isIndex f then
        if isUniqueIndex f
        then index_batches rest indexes (uniqueIndexes ++ [(field, indexType f)])
        else index_batches rest (indexes ++ [(field, indexType f)]) uniqueIndexes
      else index_batches rest indexes uniqueIndexes
  end.

(** [DbClient.createIndex]: with no index to create it calls [onSuccess]
    at once and asks the driver for nothing. *)
Definition createIndex (collection : string) (indexes : list (string * value))
    (unique : bool) : list admin_request :=
  match indexes with
  | [] => []
  | _ => [CreateIndex collection indexes unique]
  end.

(** [createCollection(onSuccess, onError)] when the driver answers every
    request with success: the requests it is asked for, in order. *)
Definition createCollection (c : MongoConnection) (cw : ModelClassWrapper)
    : result (list admin_request) :=
  collectionOptions <- getCollectionOptions cw ;;
  _ <- validateReady c ;;
  let name := ClassWrapper_collectionName cw in
  let '(indexes, uniqueIndexes) := index_batches (fields (_md cw)) [] [] in
  Ok (CreateCollection name collectionOptions
      :: createIndex name indexes false ++ createIndex name uniqueIndexes true).

(** [dropCollection(onSuccess, onError)] *)
Definition dropCollection (c : MongoConnection) (cw : ModelClassWrapper)
    : result admin_request :=
  _ <- validateReady c ;;
  Ok (DropCollection (ClassWrapper_collectionName cw)).

End Validators.

(** [typeof query !== "object"] then [{_id: query}] *)
Definition normalize_query (query : value) : value :=
  if typeof_object query then query else VDict 0 [("_id", query)].

(** [ModelClassWrapper.delete(query, ...)] *)
Definition ClassWrapper_delete (c : MongoConnection) (cw : ModelClassWrapper)
    (query : value) : result request :=
  deleteOne c (normalize_query query) (ClassWrapper_collectionName cw).

(** *** src/model.js: [buildModel] *)

(** A class before and after [buildModel]: the model class, the names
    that hold a truthy property on its prototype chain (methods of the
    class, of [Model] and of [Object]), and the names for which an
    accessor pair has been installed. *)
Record ClassState : Type := {
  cs_class : ModelClass;
  cs_prototype : list string;
  cs_accessors : list string
}.

(** The loop over [modelData.fields]: a name the prototype already
    answers to stops the registration; reading a name that already has
    an accessor runs the getter on the prototype, which has no wrapper. *)
Fixpoint install_accessors (names : list string) (st : ClassState)
    : ClassState * result unit :=
  match names with
  | [] => (st, Ok tt)
  | fieldName :: rest =>
      if Set_has fieldName (cs_accessors st)
      then (st, Throw (TypeError "Cannot read property '_fields' of undefined"))
      else if Set_has fieldName (cs_prototype st)
      then (st, Throw (Error ("Cannot define field '" ++ fieldName
                              ++ "' in class '" ++ name (cs_class st)
                              ++ "': a property with that name already exist!")))
      else
        install_accessors rest
          {| cs_class := cs_class st; cs_prototype := cs_prototype st;
             cs_accessors := cs_accessors st ++ [fieldName] |}
  end.

(** [Model.buildModel(modelData)]: the class as it is left, and the
    exception if one was thrown. *)
Definition buildModel (st : ClassState) (modelData : ModelData)
    : ClassState * result unit :=
  match mongore (cs_class st) with
  | Some _ =>
      (st, Throw (Error ("buildModel() already called on class "
                         ++ name (cs_class st) ++ ".")))
  | None =>
      let cls :=
        {| name := name (cs_class st);
           mongore := Some {| _class := name (cs_class st);
                              _md := modelData |} |} in
      install_accessors (Object_keys (fields modelData))
        {| cs_class := cls; cs_prototype := cs_prototype st;
           cs_accessors := cs_accessors st |}
  end.

(** The names every prototype of a subclass of [Model] answers to. *)
Definition Model_prototype : list string :=
  ["constructor"; "afterLoadedFromDB"; "beforeSaveToDB"; "afterSavedToDB";
   "afterDeletedFromDB"; "toString"; "valueOf"; "hasOwnProperty";
   "isPrototypeOf"; "propertyIsEnumerable"; "toLocaleString"; "__proto__";
   "__defineGetter__"; "__defineSetter__"; "__lookupGetter__";
   "__lookupSetter__"].

(** *** Predicates the statements use *)

(** No two elements of the list are the same value to a [Set]. *)
Fixpoint distinct_values (l : list value) : Prop :=
  match l with
  | [] => True
  | x :: rest =>
      (forall y, In y rest -> sameValueZero y x = false)
      /\ distinct_values rest
  end.

(** The descriptor is one of the classes that keep the [isEqual] of
    [Field]. *)
Definition keeps_Field_isEqual (d : descriptor) : Prop :=
  match d with
  | ForeignKeyField _ _ => False
  | _ => True
  end.

(** [buildModel(modelData)] returned on the class [st], a subclass of
    [Model] that was not registered before. *)
Definition registered_by (st : ClassState) (modelData : ModelData) : Prop :=
  mongore (cs_class st) = None
  /\ incl Model_prototype (cs_prototype st)
  /\ snd (buildModel st modelData) = Ok tt.

(** Whether a model instance occurs in the value: [JSON.stringify]
    throws on one, since an instance and its wrapper refer to each
    other. *)
Fixpoint has_instance (v : value) : bool :=
  match v with
  | VInst _ => true
  | VList _ items =>
      (fix any (l : list value) : bool :=
         match l with
         | [] => false
         | x :: rest => has_instance x || any rest
         end) items
  | VDict _ entries =>
      (fix any (l : list (string * value)) : bool :=
         match l with
         | [] => false
         | (_, x) :: rest => has_instance x || any rest
         end) entries
  | _ => false
  end.

(** The default of the descriptor can be cloned: [cloneData] of a
    foreign key returns the value itself, the other classes send an
    object through JSON. *)
Definition clonable (d : descriptor) : Prop :=
  match d with
  | ForeignKeyField _ _ => True
  | _ => has_instance (_default d) = false
  end.

(** The descriptors of single values: every class but the list, the
    dictionary and the foreign key.  For a numeric field the parser is
    asked to give a number back as it is (as [parseFloat] and [parseInt]
    do on whole numbers); for a date field [now] is asked to be a
    date. *)
Definition single_valued {P : Platform} (d : descriptor) (now : value)
    : Prop :=
  match d with
  | GenericField _ | BooleanField _ | StringField _ | EmailField _
  | ChoiceField _ => True
  | NumericField data =>
      forall n,
        match parser data with Some f => f | None => parseFloat end (VNum n)
        = VNum n
  | DateField _ => exists r t, now = VDate r t
  | ListField _ _ | DictionaryField _ _ | ForeignKeyField _ _ => False
  end.

(** The number of constructors of a value. *)
Fixpoint value_size (v : value) : nat :=
  match v with
  | VList _ items =>
      S ((fix items_size (l : list value) : nat :=
            match l with
            | [] => 0
            | x :: rest => value_size x + items_size rest
            end) items)
  | VDict _ entries =>
      S ((fix entries_size (l : list (string * value)) : nat :=
            match l with
            | [] => 0
            | (_, x) :: rest => value_size x + entries_size rest
            end) entries)
  | _ => 1
  end.

End Admin.

Import Admin.

(** *** Descriptors and instances the examples of the properties use *)

Module Examples.
Import Fields Client Model Scenario.

(** [{min: 0, max: 10}], [{maxLength: 16, minLength: 5}],
    [{choices: ["lab", "golden"]}], [{maxItems: 3, removeDuplicates: true}]
    and [{source: "name"}]. *)
Definition score_data : FieldData := {|
  default := VUndefined; source := None; sourceReadonly := false;
  canBeNull := false; index := true; unique := false; min := Some 0%Z;
  max := Some 10%Z; parser := None; maxLength := None; minLength := None;
  autoNow := false; choices := []; maxItems := None;
  removeDuplicates := false |}.

Definition name_data : FieldData := {|
  default := VUndefined; source := None; sourceReadonly := false;
  canBeNull := false; index := false; unique := true; min := None;
  max := None; parser := None; maxLength := Some 16%Z;
  minLength := Some 5%Z; autoNow := false; choices := []; maxItems := None;
  removeDuplicates := false |}.

Definition breed_data : FieldData := {|
  default := VUndefined; source := None; sourceReadonly := false;
  canBeNull := false; index := true; unique := true; min := None;
  max := None; parser := None; maxLength := None; minLength := None;
  autoNow := false; choices := [VStr "lab"; VStr "golden"]; maxItems := None;
  removeDuplicates := false |}.

Definition tags_data : FieldData := {|
  default := VUndefined; source := None; sourceReadonly := false;
  canBeNull := false; index := false; unique := false; min := None;
  max := None; parser := None; maxLength := None; minLength := None;
  autoNow := false; choices := []; maxItems := Some 3%Z;
  removeDuplicates := true |}.

Definition alias_data : FieldData := {|
  default := VUndefined; source := Some "name"; sourceReadonly := false;
  canBeNull := false; index := false; unique := false; min := None;
  max := None; parser := None; maxLength := None; minLength := None;
  autoNow := false; choices := []; maxItems := None;
  removeDuplicates := false |}.

(** An owner object whose property [name] is ["Rex"]. *)
Definition rex_owner : string -> value :=
  fun p => if String.eqb p "name" then VStr "Rex" else VUndefined.

(** A class with an indexed numeric field, a string field that asks for
    uniqueness without an index, and a choice field with a unique
    index. *)
Definition Pet_data : ModelData := {|
  fields := [("score", NumericField score_data);
             ("name", StringField name_data);
             ("breed", ChoiceField breed_data)];
  maxSizeInBytes := None; maxCount := None; collectionName := None |}.

Definition Pet_wrapper : ModelClassWrapper :=
  {| _class := "Pet"; _md := Pet_data |}.

Definition Dog_wrapper : ModelClassWrapper :=
  {| _class := "Dog"; _md := Dog_data |}.

(** A class [Cat] that has not been built, with the prototype of a plain
    subclass of [Model]. *)
Definition Cat_unbuilt : Admin.ClassState :=
  {| Admin.cs_class := {| name := "Cat"; mongore := None |};
     Admin.cs_prototype := Admin.Model_prototype;
     Admin.cs_accessors := [] |}.

(** Model data whose second field is named like a method of [Model]. *)
Definition clashing_data : ModelData := {|
  fields := [("name", GenericField noData);
             ("toString", GenericField noData)];
  maxSizeInBytes := None; maxCount := None; collectionName := None |}.

(** [{index: true}], [{unique: true, canBeNull: true}] and
    [{index: true, unique: true}], and a class [Message] with a field of
    each kind, limited to 4096 bytes. *)
Definition indexed : FieldData := {|
  default := VUndefined; source := None; sourceReadonly := false;
  canBeNull := false; index := true; unique := false; min := None;
  max := None; parser := None; maxLength := None; minLength := None;
  autoNow := false; choices := []; maxItems := None;
  removeDuplicates := false |}.

Definition unique_only : FieldData := {|
  default := VUndefined; source := None; sourceReadonly := false;
  canBeNull := true; index := false; unique := true; min := None;
  max := None; parser := None; maxLength := None; minLength := None;
  autoNow := false; choices := []; maxItems := None;
  removeDuplicates := false |}.

Definition unique_index : FieldData := {|
  default := VUndefined; source := None; sourceReadonly := false;
  canBeNull := false; index := true; unique := true; min := None;
  max := None; parser := None; maxLength := None; minLength := None;
  autoNow := false; choices := []; maxItems := None;
  removeDuplicates := false |}.

Definition Message_data : ModelData := {|
  fields := [("score", NumericField indexed);
             ("msg", StringField unique_only);
             ("title", StringField unique_index)];
  maxSizeInBytes := Some 4096%Z; maxCount := None; collectionName := None |}.

Definition Message_wrapper : ModelClassWrapper :=
  {| _class := "Message"; _md := Message_data |}.

(** The options and the requests of [createCollection] for [Message]. *)
Definition Message_options : jsobject :=
  [("validator",
    VDict 0
      [("$jsonSchema",
        VDict 0
          [("bsonType", VStr "object");
           ("required", VList 0 [VStr "score"; VStr "title"]);
           ("properties",
            VDict 0
              [("score",
                VDict 0
                  [("bsonType", VStr "double");
                   ("description", VStr "must be a double, and is required")]);
               ("msg",
                VDict 0
                  [("bsonType", VStr "string");
                   ("description", VStr "must be a string")]);
               ("title",
                VDict 0
                  [("bsonType", VStr "string");
                   ("description",
                    VStr "must be a string and is required")])])])]);
   ("size", VNum 4096); ("capped", VBool true)].

Definition Message_requests : list Admin.admin_request :=
  [Admin.CreateCollection "Messages" Message_options;
   Admin.CreateIndex "Messages" [("score", VNum 1)] false;
   Admin.CreateIndex "Messages" [("title", VStr "text")] true].

(** [{maxLength: 1}] *)
Definition one_unit_data : FieldData := {|
  default := VUndefined; source := None; sourceReadonly := false;
  canBeNull := false; index := false; unique := false; min := None;
  max := None; parser := None; maxLength := Some 1%Z; minLength := None;
  autoNow := false; choices := []; maxItems := None;
  removeDuplicates := false |}.


(** The class [Dog] before [buildModel(Dog_data)], which yields [Dog]. *)
Definition Dog_unbuilt : Admin.ClassState :=
  {| Admin.cs_class := {| name := "Dog"; mongore := None |};
     Admin.cs_prototype := Admin.Model_prototype;
     Admin.cs_accessors := [] |}.

(** A dog in storage under the key 7. *)
Definition dog7 : ModelInstanceWrapper :=
  with_flags
    (with_fields (new_ModelInstanceWrapper Dog_wrapper)
       [("name", VStr "Rex"); ("breed", VStr "lab"); ("_id", VNum 7)])
    true false t1.

End Examples.

Import Examples.

(* ================================================================== *)
(** ** Plain objects and sets *)
(* ================================================================== *)

Lemma obj_lookup_set_same :
  forall k v o, obj_lookup k (obj_set k v o) = Some v.
Proof.
  intros k v o; induction o as [|[k' v'] rest IH]; simpl.
  - now rewrite String.eqb_refl.
  - destruct (String.eqb k k') eqn:E; simpl; rewrite E; auto.
Qed.

Lemma obj_lookup_set_other :
  forall k k' v o, k <> k' -> obj_lookup k (obj_set k' v o) = obj_lookup k o.
Proof.
  intros k k' v o Hne; induction o as [|[k2 v2] rest IH]; simpl.
  - destruct (String.eqb_spec k k'); [contradiction | reflexivity].
  - destruct (String.eqb_spec k' k2) as [->|Hk]; simpl.
    + destruct (String.eqb_spec k k2); [contradiction | reflexivity].
    + destruct (String.eqb k k2); auto.
Qed.

Lemma obj_get_set_same : forall k v o, obj_get k (obj_set k v o) = v.
Proof. intros; unfold obj_get; now rewrite obj_lookup_set_same. Qed.

Lemma obj_get_set_other :
  forall k k' v o, k <> k' -> obj_get k (obj_set k' v o) = obj_get k o.
Proof. intros; unfold obj_get; now rewrite obj_lookup_set_other. Qed.

Lemma keys_obj_set :
  forall k k' v o,
    In k (Object_keys (obj_set k' v o)) <-> k = k' \/ In k (Object_keys o).
Proof.
  intros k k' v o; unfold Object_keys.
  induction o as [|[k2 v2] rest IH]; simpl.
  - intuition.
  - destruct (String.eqb_spec k' k2) as [->|Hk]; simpl.
    + intuition.
    + rewrite IH; intuition.
Qed.

Lemma obj_lookup_None_keys :
  forall A k (o : list (string * A)),
    obj_lookup k o = None <-> ~ In k (Object_keys o).
Proof.
  intros A k o; unfold Object_keys.
  induction o as [|[k2 v2] rest IH]; simpl.
  - intuition.
  - destruct (String.eqb_spec k k2) as [->|Hk].
    + split; [discriminate | intros H; exfalso; apply H; now left].
    + rewrite IH; intuition congruence.
Qed.

Lemma obj_set_fresh :
  forall k v o, obj_lookup k o = None -> obj_set k v o = o ++ [(k, v)].
Proof.
  intros k v o; induction o as [|[k2 v2] rest IH]; simpl; intros H.
  - reflexivity.
  - destruct (String.eqb k k2); [discriminate | now rewrite IH].
Qed.

Lemma Set_has_In : forall k s, Set_has k s = true <-> In k s.
Proof.
  intros k s; unfold Set_has; rewrite existsb_exists; split.
  - intros [x [Hin Heq]]; apply String.eqb_eq in Heq; now subst.
  - intros Hin; exists k; split; [assumption | apply String.eqb_refl].
Qed.

Lemma Set_has_false : forall k s, Set_has k s = false <-> ~ In k s.
Proof.
  intros k s; rewrite <- Set_has_In; destruct (Set_has k s); intuition congruence.
Qed.

(* ================================================================== *)
(** ** C1: equality of foreign keys *)
(* ================================================================== *)

(** C1 (the code at the inputs of the claim).  For two live instances
    [ForeignKeyField.isEqual] answers whether their primary keys DIFFER:
    it is the negation of [===] on the two [mongore.id].  With exactly
    one side [null] it answers [true], with both [null] it answers
    [false].  The claim asks for the opposite answer in each of these
    cases. *)
Theorem C1_foreign_key_isEqual_answers_difference :
  forall (data : FieldData) (model : string) (h : heap) (ra rb : ref),
    isEqual (ForeignKeyField data model) h (VInst ra) (VInst rb)
      = negb (strict_eq (iv_id (h ra)) (iv_id (h rb)))
    /\ isEqual (ForeignKeyField data model) h VNull (VInst rb) = true
    /\ isEqual (ForeignKeyField data model) h (VInst ra) VNull = true
    /\ isEqual (ForeignKeyField data model) h VNull VNull = false.
Proof.
  intros data model h ra rb; repeat split; reflexivity.
Qed.

(** The setter of a foreign-key attribute at the inputs of C1: the board
    holds user 1 (key 7).  Assigning user 2, who has the same key 7,
    stores it and marks [creator] dirty; assigning user 3, whose key is
    8, changes nothing. *)
Example foreign_key_setter_on_board :
  _dirtyFields (object_set users_heap board_of_user1 "creator" (VInst 2))
    = ["creator"]
  /\ object_set users_heap board_of_user1 "creator" (VInst 3) = board_of_user1.
Proof. split; reflexivity. Qed.

(* ================================================================== *)
(** ** Serialization: what [toDocument] puts into the document *)
(* ================================================================== *)

Section Serialization.
Context {P : Platform}.

(** Whether the loop of [toDocument] cleans [key] or skips it. *)
Let selected (w : ModelInstanceWrapper) (dirtyOnly : bool) (key : string) :=
  negb (dirtyOnly && negb (Set_has key (_dirtyFields w))).

Lemma toDocument_loop_keys :
  forall h now w dirtyOnly keys ret ret',
    toDocument_loop h now w dirtyOnly keys ret = Ok ret' ->
    forall k, In k (Object_keys ret') ->
      In k (Object_keys ret) \/ (In k keys /\ selected w dirtyOnly k = true).
Proof.
  intros h now w dirtyOnly keys; unfold selected.
  induction keys as [|key rest IH]; simpl; intros ret ret' Hloop k Hin.
  - inversion Hloop; subst; now left.
  - destruct (dirtyOnly && negb (Set_has key (_dirtyFields w))) eqn:Hskip.
    + destruct (IH _ _ Hloop k Hin) as [H|[H1 H2]]; [now left | right; auto].
    + destruct (clean_field h now w key) as [c|e]; simpl in Hloop;
        [|discriminate].
      destruct (IH _ _ Hloop k Hin) as [H|[H1 H2]]; [|right; auto].
      apply keys_obj_set in H; destruct H as [->|H]; [|now left].
      right; split; [now left | now rewrite Hskip].
Qed.

Lemma toDocument_loop_values :
  forall h now w dirtyOnly keys ret ret',
    toDocument_loop h now w dirtyOnly keys ret = Ok ret' ->
    forall k,
      (In k keys -> selected w dirtyOnly k = true ->
         clean_field h now w k = Ok (obj_get k ret'))
      /\ (~ (In k keys /\ selected w dirtyOnly k = true) ->
         obj_get k ret' = obj_get k ret).
Proof.
  intros h now w dirtyOnly keys; unfold selected.
  induction keys as [|key rest IH]; simpl; intros ret ret' Hloop k.
  - inversion Hloop; subst; split; [intros [] | reflexivity].
  - destruct (dirtyOnly && negb (Set_has key (_dirtyFields w))) eqn:Hskip.
    + destruct (IH _ _ Hloop k) as [Hin Hout]; split.
      * intros [->|Hk] Hsel; [rewrite Hskip in Hsel; discriminate | auto].
      * intros Hno; apply Hout; intros [Hk Hsel]; apply Hno; auto.
    + destruct (clean_field h now w key) as [c|e] eqn:Hc; simpl in Hloop;
        [|discriminate].
      destruct (IH _ _ Hloop k) as [Hin Hout]; split.
      * intros [->|Hk] Hsel; [|auto].
        destruct (in_dec string_dec k rest) as [Hk|Hk]; [auto|].
        rewrite Hout by (intros [Habs _]; contradiction).
        now rewrite obj_get_set_same.
      * intros Hno.
        rewrite Hout by (intros [Hk Hsel]; apply Hno; auto).
        apply obj_get_set_other; intros ->.
        apply Hno; split; [now left | now rewrite Hskip].
Qed.

Lemma stamp_metadata_keys :
  forall now w ret k,
    In k (Object_keys (stamp_metadata now w ret)) ->
    In k bookkeeping \/ In k (Object_keys ret).
Proof.
  intros now w ret k; unfold stamp_metadata, bookkeeping.
  rewrite !keys_obj_set; simpl; intuition.
Qed.

Lemma stamp_metadata_other :
  forall now w ret k,
    ~ In k bookkeeping ->
    obj_get k (stamp_metadata now w ret) = obj_get k ret.
Proof.
  intros now w ret k Hk; unfold stamp_metadata, bookkeeping in *; simpl in Hk.
  rewrite !obj_get_set_other; intuition.
Qed.

Lemma stamp_metadata_version :
  forall now w ret,
    obj_get "_dbObjectVersion" (stamp_metadata now w ret)
    = plus_one toString (or_else (objectVersion w) (VNum 0)).
Proof. intros; unfold stamp_metadata; now rewrite obj_get_set_same. Qed.

Lemma toDocument_inv :
  forall h now w dirtyOnly doc,
    toDocument h now w dirtyOnly = Ok doc ->
    exists ret,
      toDocument_loop h now w dirtyOnly (Object_keys (_fields w)) [] = Ok ret
      /\ doc = stamp_metadata now w ret.
Proof.
  intros h now w dirtyOnly doc; unfold toDocument.
  destruct (toDocument_loop _ _ _ _ _ _) as [ret|e]; simpl; intros H;
    [|discriminate].
  exists ret; split; congruence.
Qed.

Lemma toDocument_loop_present :
  forall h now w dirtyOnly keys ret ret',
    toDocument_loop h now w dirtyOnly keys ret = Ok ret' ->
    forall k,
      In k (Object_keys ret) \/ (In k keys /\ selected w dirtyOnly k = true) ->
      In k (Object_keys ret').
Proof.
  intros h now w dirtyOnly keys; unfold selected.
  induction keys as [|key rest IH]; simpl; intros ret ret' Hloop k Hk.
  - inversion Hloop; subst; destruct Hk as [Hk|[[] _]]; assumption.
  - destruct (dirtyOnly && negb (Set_has key (_dirtyFields w))) eqn:Hskip.
    + apply (IH _ _ Hloop k).
      destruct Hk as [Hk|[[->|Hk] Hsel]]; [now left | | right; auto].
      rewrite Hskip in Hsel; discriminate.
    + destruct (clean_field h now w key) as [c|e]; simpl in Hloop;
        [|discriminate].
      apply (IH _ _ Hloop k).
      destruct Hk as [Hk|[[->|Hk] Hsel]]; [left|left|right; auto];
        apply keys_obj_set; auto.
Qed.

Lemma stamp_metadata_values :
  forall now w ret,
    obj_get "_dbLastUpdateTime" (stamp_metadata now w ret) = now
    /\ obj_get "_dbCreationTime" (stamp_metadata now w ret)
       = or_else (creationTime w) now.
Proof.
  intros now w ret; unfold stamp_metadata, creationTime; split.
  - rewrite !obj_get_set_other by discriminate; apply obj_get_set_same.
  - rewrite obj_get_set_other by discriminate.
    now rewrite !obj_get_set_same.
Qed.

Lemma stamp_metadata_present :
  forall now w ret k,
    In k bookkeeping \/ In k (Object_keys ret) ->
    In k (Object_keys (stamp_metadata now w ret)).
Proof.
  intros now w ret k; unfold stamp_metadata, bookkeeping.
  rewrite !keys_obj_set; simpl; intuition.
Qed.

(** C2 (amended).  For an instance present in storage, a save that is
    forced or finds a dirty field hands the client one [updateOne] whose
    document is [toDocument(true)], with or without [forceSave].  The
    keys of the document are exactly the dirty fields of the field map
    and the three bookkeeping keys; each dirty field carries its cleaned
    value; the bookkeeping keys carry the current time, the creation
    time (the one the instance holds, else the current time) and the
    next version.  [forceSave] only decides whether the update goes out
    when nothing is dirty, and the document then holds the bookkeeping
    keys alone; it never adds the fields that are not dirty. *)
Theorem C2_update_carries_dirty_fields_only :
  forall (hk : Hooks) (c : MongoConnection) (h : heap) (now : value)
         (w : ModelInstanceWrapper) (forceSave : bool) (doc : jsobject),
    let w1 := beforeSaveToDB hk w in
    isInDB w1 = true ->
    _isReady c = true ->
    forceSave || isDirty w1 = true ->
    toDocument h now w1 true = Ok doc ->
    save hk c h now w forceSave
      = (w1, Ok (Some (UpdateOne (id_query w1) doc (get_collectionName w1))))
    /\ (forall k, In k (Object_keys doc) <->
          (In k (_dirtyFields w1) /\ In k (Object_keys (_fields w1)))
          \/ In k bookkeeping)
    /\ (forall k, In k (_dirtyFields w1) -> In k (Object_keys (_fields w1)) ->
          ~ In k bookkeeping ->
          clean_field h now w1 k = Ok (obj_get k doc))
    /\ obj_get "_dbLastUpdateTime" doc = now
    /\ obj_get "_dbCreationTime" doc = or_else (creationTime w1) now
    /\ obj_get "_dbObjectVersion" doc
       = plus_one toString (or_else (objectVersion w1) (VNum 0))
    /\ (_dirtyFields w1 = [] -> Object_keys doc = bookkeeping).
Proof.
  intros hk c h now w forceSave doc w1 HinDB Hready Hgo Hdoc.
  subst w1; split.
  { unfold save; rewrite HinDB, Hgo, Hdoc; simpl.
    unfold updateOne, validateReady; now rewrite Hready. }
  destruct (toDocument_inv _ _ _ _ Hdoc) as [ret [Hloop ->]].
  destruct (stamp_metadata_values now (beforeSaveToDB hk w) ret)
    as [Hlast Hcreated].
  split; [|split; [|split; [|split; [|split]]]]; try assumption.
  - intros k; split.
    + intros Hk; apply stamp_metadata_keys in Hk.
      destruct Hk as [Hk|Hk]; [now right|].
      destruct (toDocument_loop_keys _ _ _ _ _ _ Hloop k Hk)
        as [[]|[Hfield Hsel]].
      left; split; [|assumption].
      apply Set_has_In; unfold selected in Hsel.
      destruct (Set_has k (_dirtyFields (beforeSaveToDB hk w)));
        [reflexivity | discriminate].
    + intros Hk; apply stamp_metadata_present.
      destruct Hk as [[Hdirty Hfield]|Hk]; [right|now left].
      apply (toDocument_loop_present _ _ _ _ _ _ Hloop k); right.
      split; [assumption|].
      unfold selected; apply Set_has_In in Hdirty; now rewrite Hdirty.
  - intros k Hdirty Hfield Hbook.
    rewrite stamp_metadata_other by assumption.
    apply (toDocument_loop_values _ _ _ _ _ _ Hloop k); [assumption|].
    unfold selected; apply Set_has_In in Hdirty; now rewrite Hdirty.
  - apply stamp_metadata_version.
  - intros Hnone.
    assert (Hret : ret = []).
    { destruct ret as [|[k0 v0] rest]; [reflexivity|].
      destruct (toDocument_loop_keys _ _ _ _ _ _ Hloop k0 (or_introl eq_refl))
        as [[]|[_ Hsel]].
      unfold selected in Hsel; rewrite Hnone in Hsel; discriminate. }
    subst ret; reflexivity.
Qed.

End Serialization.

(** The dog of the examples: the constructor yields [fresh_dog], and its
    first save, answered by [echo], is an insert that leaves
    [saved_dog]. *)
Example dog_is_constructed_and_saved :
  Model_constructor (P := ref_platform) Dog empty_heap 10 = Ok fresh_dog
  /\ run (P := ref_platform) Model_hooks connected empty_heap echo
       [save_now t1] fresh_dog
     = Ok (saved_dog,
           [InsertOne [("name", VNull); ("breed", VNull);
                       ("_dbLastUpdateTime", t1); ("_dbCreationTime", t1);
                       ("_dbObjectVersion", VNum 1)] "Dogs"]).
Proof. split; reflexivity. Qed.

(** C2 (the claim fails).  [saved_dog] is in storage; its field [name]
    is then changed, [breed] is not.  The forced save hands the client an
    update whose document has [name] and the bookkeeping keys and no
    [breed], although [breed] is a registered field. *)
Lemma C2_forced_update_omits_clean_field :
  isInDB renamed_dog = true
  /\ getFieldDescriptor renamed_dog "breed" = Some (GenericField noData)
  /\ save (P := ref_platform) Model_hooks connected empty_heap t2
       renamed_dog true
     = (renamed_dog,
        Ok (Some (UpdateOne (VDict 0 [("_id", VUndefined)]) forced_doc "Dogs")))
  /\ obj_lookup "breed" forced_doc = None.
Proof. repeat split; reflexivity. Qed.

(** C2 at the renamed dog: it is in storage, [name] is dirty, the save is
    forced. *)
Lemma C2_update_carries_dirty_fields_only_witness :
  (isInDB (beforeSaveToDB Model_hooks renamed_dog) = true
   /\ _isReady connected = true
   /\ true || isDirty (beforeSaveToDB Model_hooks renamed_dog) = true
   /\ toDocument (P := ref_platform) empty_heap t2
        (beforeSaveToDB Model_hooks renamed_dog) true = Ok forced_doc)
  /\ (save (P := ref_platform) Model_hooks connected empty_heap t2
        renamed_dog true
      = (renamed_dog,
         Ok (Some (UpdateOne (id_query renamed_dog) forced_doc
                     (get_collectionName renamed_dog))))
      /\ (forall k, In k (Object_keys forced_doc) <->
            (In k (_dirtyFields renamed_dog)
             /\ In k (Object_keys (_fields renamed_dog)))
            \/ In k bookkeeping)
      /\ (forall k, In k (_dirtyFields renamed_dog) ->
            In k (Object_keys (_fields renamed_dog)) ->
            ~ In k bookkeeping ->
            clean_field (P := ref_platform) empty_heap t2 renamed_dog k
            = Ok (obj_get k forced_doc))
      /\ obj_get "_dbLastUpdateTime" forced_doc = t2
      /\ obj_get "_dbCreationTime" forced_doc
         = or_else (creationTime renamed_dog) t2
      /\ obj_get "_dbObjectVersion" forced_doc
         = plus_one ref_toString (or_else (objectVersion renamed_dog) (VNum 0))
      /\ (_dirtyFields renamed_dog = [] ->
          Object_keys forced_doc = bookkeeping)).
Proof.
  split; [repeat split|].
  exact (@C2_update_carries_dirty_fields_only ref_platform Model_hooks
           connected empty_heap t2 renamed_dog true forced_doc
           eq_refl eq_refl eq_refl eq_refl).
Defined.

(* ================================================================== *)
(** ** C3: the version counter *)
(* ================================================================== *)

Section Versioning.
Context {P : Platform}.

Lemma object_set_classWrapper :
  forall h w p v, _classWrapper (object_set h w p v) = _classWrapper w.
Proof.
  intros h w p v; unfold object_set.
  destruct (getFieldDescriptor w p) as [d|]; [|reflexivity].
  destruct (isEqual d h v (obj_get p (_fields w))); reflexivity.
Qed.

Lemma object_set_objectVersion :
  forall h w p v,
    getFieldDescriptor w "_dbObjectVersion" = None ->
    objectVersion (object_set h w p v) = objectVersion w.
Proof.
  intros h w p v Hnone; unfold object_set.
  destruct (getFieldDescriptor w p) as [d|] eqn:Hd; [|reflexivity].
  destruct (isEqual d h v (obj_get p (_fields w))); [reflexivity|].
  unfold objectVersion; simpl.
  apply obj_get_set_other; intros <-; congruence.
Qed.

Lemma assign_keeps_version :
  forall h es w,
    getFieldDescriptor w "_dbObjectVersion" = None ->
    _classWrapper (assign h w es) = _classWrapper w
    /\ objectVersion (assign h w es) = objectVersion w.
Proof.
  intros h es; induction es as [|[p v] rest IH]; simpl; intros w Hnone.
  - split; reflexivity.
  - destruct (IH (object_set h w p v)) as [Hc Hv].
    + unfold getFieldDescriptor in *; now rewrite object_set_classWrapper.
    + rewrite Hc, Hv, object_set_classWrapper, object_set_objectVersion; auto.
Qed.

(** What [save] hands the client is a write whose document comes from
    [toDocument]. *)
Lemma save_request :
  forall hk c h now w forceSave w2 r,
    save hk c h now w forceSave = (w2, Ok (Some r)) ->
    w2 = beforeSaveToDB hk w
    /\ is_write r = true
    /\ persisted_version r
       = plus_one toString (or_else (objectVersion w2) (VNum 0)).
Proof.
  intros hk c h now w forceSave w2 r; unfold save.
  destruct (isInDB (beforeSaveToDB hk w)).
  - destruct (forceSave || isDirty (beforeSaveToDB hk w));
      [|intros H; inversion H].
    destruct (toDocument h now (beforeSaveToDB hk w) true) as [doc|e] eqn:Hd;
      simpl; [|intros H; inversion H].
    unfold updateOne, validateReady; destruct (_isReady c); simpl;
      intros H; inversion H; subst; clear H.
    repeat split.
    destruct (toDocument_inv _ _ _ _ Hd) as [ret [_ ->]].
    apply stamp_metadata_version.
  - destruct (toDocument h now (beforeSaveToDB hk w) false) as [doc|e] eqn:Hd;
      simpl; [|intros H; inversion H].
    unfold insertOne, validateReady; destruct (_isReady c); simpl;
      intros H; inversion H; subst; clear H.
    repeat split.
    destruct (toDocument_inv _ _ _ _ Hd) as [ret [_ ->]].
    apply stamp_metadata_version.
Qed.

Lemma save_skipped :
  forall hk c h now w forceSave w2,
    save hk c h now w forceSave = (w2, Ok None) ->
    w2 = beforeSaveToDB hk w.
Proof.
  intros hk c h now w forceSave w2; unfold save.
  destruct (isInDB (beforeSaveToDB hk w)).
  - destruct (forceSave || isDirty (beforeSaveToDB hk w));
      intros H; now inversion H.
  - intros H; now inversion H.
Qed.

Lemma afterSaveToDB_mirrors :
  forall w data,
    _classWrapper (_afterSaveToDB Model_hooks w data) = _classWrapper w
    /\ objectVersion (_afterSaveToDB Model_hooks w data)
       = obj_get "_dbObjectVersion" data.
Proof.
  intros w data; split; [reflexivity|].
  unfold _afterSaveToDB, objectVersion; simpl.
  apply obj_get_set_same.
Qed.

Lemma afterSaveToDB_without_version :
  forall w data,
    obj_lookup "_dbObjectVersion" data = None ->
    objectVersion (_afterSaveToDB Model_hooks w data) = VUndefined.
Proof.
  intros w data Hnone.
  destruct (afterSaveToDB_mirrors w data) as [_ Hv]; rewrite Hv.
  unfold obj_get; now rewrite Hnone.
Qed.

(** From an instance that holds no version, every write of a run
    answered by the driver persists version 1, and the instance ends
    without a version. *)
Lemma run_without_version :
  forall c h respond steps w w' reqs,
    answers_without_version respond ->
    getFieldDescriptor w "_dbObjectVersion" = None ->
    objectVersion w = VUndefined ->
    run Model_hooks c h respond steps w = Ok (w', reqs) ->
    (forall r, In r reqs -> persisted_version r = VNum 1)
    /\ objectVersion w' = VUndefined.
Proof.
  intros c h respond steps; induction steps as [|s rest IH];
    intros w w' reqs Hans Hnone Hver Hrun; cbn [run] in Hrun.
  - inversion Hrun; subst; split; [intros r []|assumption].
  - destruct (assign_keeps_version h (edits s) w Hnone) as [Hcw Hv1].
    assert (Hn1 : getFieldDescriptor (assign h w (edits s))
                    "_dbObjectVersion" = None)
      by (unfold getFieldDescriptor in *; now rewrite Hcw).
    destruct (save Model_hooks c h (at_time s) (assign h w (edits s))
                (forceSave s)) as [w2 out] eqn:Hsave.
    destruct out as [[r|]|e]; cbn [bind] in Hrun; [| |discriminate].
    + destruct (save_request _ _ _ _ _ _ Hsave) as [Hw2 [Hwrite Hpv]].
      cbn [beforeSaveToDB Model_hooks] in Hw2; subst w2.
      rewrite Hv1, Hver in Hpv.
      change (fst (save_onSuccess Model_hooks (assign h w (edits s))
                     (respond r) None))
        with (_afterSaveToDB Model_hooks (assign h w (edits s)) (respond r))
        in Hrun.
      destruct (run Model_hooks c h respond rest
                  (_afterSaveToDB Model_hooks (assign h w (edits s))
                     (respond r))) as [[w4 rs]|e] eqn:Hrest;
        cbn [bind fst snd] in Hrun; [|discriminate].
      inversion Hrun; subst; clear Hrun.
      assert (Hn3 : getFieldDescriptor
                      (_afterSaveToDB Model_hooks (assign h w (edits s))
                         (respond r)) "_dbObjectVersion" = None).
      { destruct (afterSaveToDB_mirrors (assign h w (edits s)) (respond r))
          as [Hcw3 _].
        unfold getFieldDescriptor in *; now rewrite Hcw3. }
      assert (Hv3 : objectVersion
                      (_afterSaveToDB Model_hooks (assign h w (edits s))
                         (respond r)) = VUndefined)
        by (apply afterSaveToDB_without_version; now apply Hans).
      destruct (IH _ _ _ Hans Hn3 Hv3 Hrest) as [Hall Hend].
      split; [|assumption].
      intros r' [<-|Hin]; [exact Hpv | now apply Hall].
    + pose proof (save_skipped _ _ _ _ _ _ Hsave) as Hw2.
      cbn [beforeSaveToDB Model_hooks] in Hw2; subst w2.
      apply (IH _ _ _ Hans Hn1); [now rewrite Hv1 | assumption].
Qed.

(** C3 (the code at the inputs of the claim).  The client hands the
    driver's result to [_afterSaveToDB], which takes the instance's
    version from it; the result carries none, so the instance holds no
    version after a write and [toDocument] counts from 0 again.  Over
    any run of assignments and saves answered that way, every write
    after the first persists version 1; for a new instance every write
    does, the first included, and the instance ends without a version.
    The claim says the [n]-th write persists [n]. *)
Theorem C3_driver_answers_reset_the_version :
  forall (c : MongoConnection) (h : heap) (respond : request -> jsobject)
         (steps : list step) (w w' : ModelInstanceWrapper)
         (reqs : list request),
    answers_without_version respond ->
    getFieldDescriptor w "_dbObjectVersion" = None ->
    run Model_hooks c h respond steps w = Ok (w', reqs) ->
    (forall i r, nth_error reqs (S i) = Some r -> persisted_version r = VNum 1)
    /\ (objectVersion w = VUndefined ->
        forall r, In r reqs -> persisted_version r = VNum 1)
    /\ (objectVersion w = VUndefined \/ reqs <> [] ->
        objectVersion w' = VUndefined).
Proof.
  intros c h respond steps; induction steps as [|s rest IH];
    intros w w' reqs Hans Hnone Hrun.
  - cbn [run] in Hrun; inversion Hrun; subst; split; [|split].
    + intros i r Hi; discriminate.
    + intros _ r [].
    + intros [Hv|Hne]; [assumption | contradiction].
  - split; [|split].
    + cbn [run] in Hrun.
      destruct (assign_keeps_version h (edits s) w Hnone) as [Hcw Hv1].
      assert (Hn1 : getFieldDescriptor (assign h w (edits s))
                      "_dbObjectVersion" = None)
        by (unfold getFieldDescriptor in *; now rewrite Hcw).
      destruct (save Model_hooks c h (at_time s) (assign h w (edits s))
                  (forceSave s)) as [w2 out] eqn:Hsave.
      destruct out as [[r|]|e]; cbn [bind] in Hrun; [| |discriminate].
      * destruct (save_request _ _ _ _ _ _ Hsave) as [Hw2 [Hwrite _]].
        cbn [beforeSaveToDB Model_hooks] in Hw2; subst w2.
        change (fst (save_onSuccess Model_hooks (assign h w (edits s))
                       (respond r) None))
          with (_afterSaveToDB Model_hooks (assign h w (edits s)) (respond r))
          in Hrun.
        destruct (run Model_hooks c h respond rest
                    (_afterSaveToDB Model_hooks (assign h w (edits s))
                       (respond r))) as [[w4 rs]|e] eqn:Hrest;
          cbn [bind fst snd] in Hrun; [|discriminate].
        inversion Hrun; subst; clear Hrun.
        assert (Hn3 : getFieldDescriptor
                        (_afterSaveToDB Model_hooks (assign h w (edits s))
                           (respond r)) "_dbObjectVersion" = None).
        { destruct (afterSaveToDB_mirrors (assign h w (edits s)) (respond r))
            as [Hcw3 _].
          unfold getFieldDescriptor in *; now rewrite Hcw3. }
        assert (Hv3 : objectVersion
                        (_afterSaveToDB Model_hooks (assign h w (edits s))
                           (respond r)) = VUndefined)
          by (apply afterSaveToDB_without_version; now apply Hans).
        pose proof run_without_version as Hrw.
        specialize (Hrw _ _ _ _ _ _ _ Hans Hn3 Hv3 Hrest).
        destruct Hrw as [Hall _].
        intros i r' Hi; cbn [nth_error] in Hi.
        apply Hall; eapply nth_error_In; eauto.
      * pose proof (save_skipped _ _ _ _ _ _ Hsave) as Hw2.
        cbn [beforeSaveToDB Model_hooks] in Hw2; subst w2.
        exact (proj1 (IH _ _ _ Hans Hn1 Hrun)).
    + intros Hver.
      pose proof run_without_version as Hrw.
      exact (proj1 (Hrw _ _ _ _ _ _ _ Hans Hnone Hver Hrun)).
    + intros [Hver|Hne].
      * pose proof run_without_version as Hrw.
        exact (proj2 (Hrw _ _ _ _ _ _ _ Hans Hnone Hver Hrun)).
      * cbn [run] in Hrun.
        destruct (assign_keeps_version h (edits s) w Hnone) as [Hcw Hv1].
        assert (Hn1 : getFieldDescriptor (assign h w (edits s))
                        "_dbObjectVersion" = None)
          by (unfold getFieldDescriptor in *; now rewrite Hcw).
        destruct (save Model_hooks c h (at_time s) (assign h w (edits s))
                    (forceSave s)) as [w2 out] eqn:Hsave.
        destruct out as [[r|]|e]; cbn [bind] in Hrun; [| |discriminate].
        -- destruct (save_request _ _ _ _ _ _ Hsave) as [Hw2 [Hwrite _]].
           cbn [beforeSaveToDB Model_hooks] in Hw2; subst w2.
           change (fst (save_onSuccess Model_hooks (assign h w (edits s))
                          (respond r) None))
             with (_afterSaveToDB Model_hooks (assign h w (edits s))
                     (respond r)) in Hrun.
           destruct (run Model_hooks c h respond rest
                       (_afterSaveToDB Model_hooks (assign h w (edits s))
                          (respond r))) as [[w4 rs]|e] eqn:Hrest;
             cbn [bind fst snd] in Hrun; [|discriminate].
           inversion Hrun; subst; clear Hrun.
           assert (Hn3 : getFieldDescriptor
                           (_afterSaveToDB Model_hooks (assign h w (edits s))
                              (respond r)) "_dbObjectVersion" = None).
           { destruct (afterSaveToDB_mirrors (assign h w (edits s)) (respond r))
               as [Hcw3 _].
             unfold getFieldDescriptor in *; now rewrite Hcw3. }
           assert (Hv3 : objectVersion
                           (_afterSaveToDB Model_hooks (assign h w (edits s))
                              (respond r)) = VUndefined)
             by (apply afterSaveToDB_without_version; now apply Hans).
           pose proof run_without_version as Hrw.
           exact (proj2 (Hrw _ _ _ _ _ _ _ Hans Hn3 Hv3 Hrest)).
        -- pose proof (save_skipped _ _ _ _ _ _ Hsave) as Hw2.
           cbn [beforeSaveToDB Model_hooks] in Hw2; subst w2.
           apply (proj2 (proj2 (IH _ _ _ Hans Hn1 Hrun))); now right.
Qed.

End Versioning.

(** C3 at the dog of the examples: it is saved, renamed and saved again,
    each save answered with the driver's result.  The insert and the
    update both persist version 1, where the claim says 1 and 2. *)
Lemma C3_driver_answers_reset_the_version_witness :
  (answers_without_version metadata_only
   /\ getFieldDescriptor fresh_dog "_dbObjectVersion" = None
   /\ run (P := ref_platform) Model_hooks connected empty_heap metadata_only
        two_saves fresh_dog
      = Ok (dog_after_two_saves, writes_of_version_one)
   /\ map persisted_version writes_of_version_one = [VNum 1; VNum 1])
  /\ ((forall i r, nth_error writes_of_version_one (S i) = Some r ->
         persisted_version r = VNum 1)
      /\ (objectVersion fresh_dog = VUndefined ->
          forall r, In r writes_of_version_one ->
            persisted_version r = VNum 1)
      /\ (objectVersion fresh_dog = VUndefined \/ writes_of_version_one <> [] ->
          objectVersion dog_after_two_saves = VUndefined)).
Proof.
  split.
  - repeat split; intros r _; reflexivity.
  - exact (@C3_driver_answers_reset_the_version ref_platform connected
             empty_heap metadata_only two_saves fresh_dog dog_after_two_saves
             writes_of_version_one (fun r _ => eq_refl) eq_refl eq_refl).
Defined.

(* ================================================================== *)
(** ** Registration: what [buildModel] leaves when it returns *)
(* ================================================================== *)

Lemma install_accessors_class :
  forall names st,
    cs_class (fst (install_accessors names st)) = cs_class st
    /\ cs_prototype (fst (install_accessors names st)) = cs_prototype st.
Proof.
  intros names; induction names as [|f rest IH]; intros st;
    cbn [install_accessors]; [split; reflexivity|].
  destruct (Set_has f (cs_accessors st)); [split; reflexivity|].
  destruct (Set_has f (cs_prototype st)); [split; reflexivity|].
  destruct (IH {| cs_class := cs_class st; cs_prototype := cs_prototype st;
                  cs_accessors := cs_accessors st ++ [f] |}) as [H1 H2].
  split; assumption.
Qed.

Lemma install_accessors_ok :
  forall names st,
    snd (install_accessors names st) = Ok tt ->
    cs_accessors (fst (install_accessors names st))
    = cs_accessors st ++ names
    /\ (forall f, In f names -> ~ In f (cs_prototype st))
    /\ (forall f, In f names -> ~ In f (cs_accessors st))
    /\ NoDup names.
Proof.
  intros names; induction names as [|f rest IH]; intros st;
    cbn [install_accessors].
  - intros _; cbn [fst]; rewrite app_nil_r.
    repeat split; try (intros f []); constructor.
  - destruct (Set_has f (cs_accessors st)) eqn:Ha; [discriminate|].
    destruct (Set_has f (cs_prototype st)) eqn:Hp; [discriminate|].
    intros Hok; destruct (IH _ Hok) as [Hacc [Hfree [Hnew Hnd]]].
    cbn [cs_accessors cs_prototype] in *.
    rewrite Hacc, <- app_assoc; split; [reflexivity|].
    split; [|split].
    + intros f' [<-|Hin]; [now apply Set_has_false | auto].
    + intros f' [<-|Hin]; [now apply Set_has_false |].
      intros Hf'; apply (Hnew f' Hin), in_or_app; now left.
    + constructor; [|assumption].
      intros Hin; apply (Hnew f Hin), in_or_app; right; now left.
Qed.

(** A class on which [buildModel] returned: it carries the wrapper of
    the model data, every field name has its accessor pair, and the
    field names are distinct and none is a member of the prototype. *)
Lemma registered_by_class :
  forall st modelData,
    registered_by st modelData ->
    cs_class (fst (buildModel st modelData))
    = {| name := name (cs_class st);
         mongore := Some {| _class := name (cs_class st);
                            _md := modelData |} |}
    /\ NoDup (Object_keys (fields modelData))
    /\ (forall f, In f (Object_keys (fields modelData)) ->
          In f (cs_accessors (fst (buildModel st modelData)))
          /\ ~ In f Model_prototype).
Proof.
  intros st modelData [Hnone [Hproto Hok]].
  unfold buildModel in *; rewrite Hnone in *.
  set (st0 := {| cs_class :=
                   {| name := name (cs_class st);
                      mongore := Some {| _class := name (cs_class st);
                                         _md := modelData |} |};
                 cs_prototype := cs_prototype st;
                 cs_accessors := cs_accessors st |}) in *.
  destruct (install_accessors_class (Object_keys (fields modelData)) st0)
    as [Hcls _].
  destruct (install_accessors_ok _ _ Hok) as [Hacc [Hfree [_ Hnd]]].
  split; [rewrite Hcls; reflexivity|split; [exact Hnd|]].
  intros f Hin; split.
  - rewrite Hacc; apply in_or_app; now right.
  - intros Hp; apply (Hfree f Hin); cbn [cs_prototype st0].
    now apply Hproto.
Qed.

(* ================================================================== *)
(** ** C4: what the constructor of [Model] leaves *)
(* ================================================================== *)

Section Construction.
Context {P : Platform}.

Lemma _default_defined : forall d, _default d <> VUndefined.
Proof.
  intros d; unfold _default.
  destruct (default (_data d)); try discriminate.
  destruct d; discriminate.
Qed.

Lemma Field_default_defined :
  forall d fresh, Field_default d fresh <> VUndefined.
Proof.
  intros d fresh; unfold Field_default, cloneData.
  pose proof (_default_defined d) as Hd.
  destruct d; try assumption;
    (destruct (_default _) eqn:E; simpl;
     try discriminate; try apply JSON_clone_defined; congruence).
Qed.

Lemma strict_eq_undefined :
  forall v, v <> VUndefined -> strict_eq v VUndefined = false.
Proof. intros v Hv; destruct v; try reflexivity; congruence. Qed.

(** The setter takes a default for a change of a field that holds
    nothing yet. *)
Lemma default_differs_from_undefined :
  forall d h fresh,
    default_is_stored d ->
    isEqual d h (Field_default d fresh) VUndefined = false.
Proof.
  intros d h fresh Hst.
  destruct d;
    try (apply strict_eq_undefined; apply Field_default_defined).
  cbn [default_is_stored] in Hst.
  unfold isEqual, Field_default, cloneData; rewrite Hst; reflexivity.
Qed.

Lemma obj_lookup_In :
  forall A (o : list (string * A)) k v,
    NoDup (Object_keys o) -> In (k, v) o -> obj_lookup k o = Some v.
Proof.
  intros A o k v; unfold Object_keys.
  induction o as [|[k2 v2] rest IH]; simpl; intros Hnd Hin; [contradiction|].
  inversion Hnd as [|x l Hx Hrest]; subst.
  destruct Hin as [Heq|Hin].
  - inversion Heq; subst; now rewrite String.eqb_refl.
  - destruct (String.eqb_spec k k2) as [->|Hne]; [|auto].
    exfalso; apply Hx; apply in_map_iff; exists (k2, v); auto.
Qed.

Lemma set_defaults_appends :
  forall h fs alloc w,
    NoDup (Object_keys fs) ->
    (forall f d, In (f, d) fs ->
       getFieldDescriptor w f = Some d /\ default_is_stored d) ->
    (forall f, In f (Object_keys fs) ->
       obj_lookup f (_fields w) = None /\ ~ In f (_dirtyFields w)) ->
    set_defaults h (Object_keys fs) alloc w
    = Ok (with_dirtyFields
            (with_fields w (_fields w ++ defaults_from alloc fs))
            (_dirtyFields w ++ Object_keys fs)).
Proof.
  intros h fs; induction fs as [|[f d] rest IH]; intros alloc w Hnd Hdesc Hnew.
  - simpl; rewrite !app_nil_r; destruct w; reflexivity.
  - inversion Hnd as [|x l Hf Hrest]; subst.
    destruct (Hdesc f d (or_introl eq_refl)) as [Hd Hst].
    destruct (Hnew f (or_introl eq_refl)) as [Hlook Hclean].
    cbn [Object_keys map fst set_defaults].
    unfold getDefault, ClassWrapper_getDefault.
    unfold getFieldDescriptor in Hd; rewrite Hd; cbn [bind].
    assert (Hset : object_set h w f (Field_default d alloc)
                   = with_dirtyFields
                       (with_fields w (_fields w ++ [(f, Field_default d alloc)]))
                       (_dirtyFields w ++ [f])).
    { unfold object_set, getFieldDescriptor; rewrite Hd.
      unfold obj_get at 1; rewrite Hlook.
      rewrite default_differs_from_undefined by assumption.
      rewrite obj_set_fresh by assumption.
      unfold Set_add.
      apply Set_has_false in Hclean; now rewrite Hclean. }
    rewrite Hset.
    change (map fst rest) with (Object_keys rest).
    rewrite IH; clear IH.
    + destruct w; simpl; rewrite <- !app_assoc; reflexivity.
    + assumption.
    + intros f' d' Hin; destruct (Hdesc f' d' (or_intror Hin)); auto.
    + intros f' Hin.
      destruct (Hnew f' (or_intror Hin)) as [Hl Hc].
      assert (Hne : f' <> f) by (intros ->; contradiction).
      simpl; split.
      * apply obj_lookup_None_keys; unfold Object_keys; rewrite map_app.
        apply obj_lookup_None_keys in Hl.
        intros Habs; apply in_app_or in Habs; simpl in Habs; intuition.
      * intros Habs; apply in_app_or in Habs; simpl in Habs; intuition.
Qed.

Lemma defaults_from_nth :
  forall fs alloc i f d,
    NoDup (Object_keys fs) ->
    nth_error fs i = Some (f, d) ->
    obj_get f (defaults_from alloc fs) = Field_default d (alloc + i).
Proof.
  intros fs; induction fs as [|[f0 d0] rest IH]; intros alloc i f d Hnd Hnth.
  - destruct i; discriminate.
  - inversion Hnd as [|x l Hf Hrest]; subst.
    destruct i as [|i]; simpl in Hnth.
    + inversion Hnth; subst; unfold obj_get; simpl.
      now rewrite String.eqb_refl, Nat.add_0_r.
    + unfold obj_get; simpl.
      destruct (String.eqb_spec f f0) as [->|Hne].
      * exfalso; apply Hf; apply in_map_iff; exists (f0, d); split; auto.
        eapply nth_error_In; eauto.
      * fold (obj_get f (defaults_from (S alloc) rest)).
        rewrite (IH (S alloc) i f d Hrest Hnth); f_equal; lia.
Qed.

(** The constructor on a class whose wrapper is [cw], when every default
    assignment goes through a generated setter. *)
Lemma constructor_assigns_defaults :
  forall (cls : ModelClass) (cw : ModelClassWrapper) (h : heap) (alloc : ref),
    mongore cls = Some cw ->
    NoDup (ClassWrapper_fieldNames cw) ->
    (forall f d, In (f, d) (fields (_md cw)) -> default_is_stored d) ->
    exists w,
      Model_constructor cls h alloc = Ok w
      /\ _classWrapper w = cw
      /\ (forall i f d, nth_error (fields (_md cw)) i = Some (f, d) ->
            obj_get f (_fields w) = Field_default d (alloc + i))
      /\ _dirtyFields w = ClassWrapper_fieldNames cw
      /\ isDirty w = negb (Nat.eqb (length (fields (_md cw))) 0).
Proof.
  intros cls cw h alloc Hcw Hnd Hst.
  unfold Model_constructor; rewrite Hcw.
  unfold fieldNames, ClassWrapper_fieldNames in *; simpl _classWrapper.
  rewrite set_defaults_appends.
  - eexists; split; [reflexivity|]; simpl; repeat split.
    + intros i f d Hnth; now apply defaults_from_nth.
    + unfold isDirty; simpl.
      unfold Object_keys; now rewrite length_map.
  - assumption.
  - intros f d Hin; split; [|eauto].
    unfold getFieldDescriptor, ClassWrapper_getFieldDescriptor; simpl.
    now apply obj_lookup_In.
  - intros f _; simpl; auto.
Qed.

(** C4 (amended).  The constructor assigns every default through the
    generated setter, which stores it and marks the field dirty.  Let
    [buildModel] have returned on a subclass of [Model], with no field
    named [mongore] (the name of the property that holds the wrapper)
    and with defaults that can be cloned and that the setter stores (any
    class of the catalogue; a foreign key with the default [null]).
    Then the constructor yields an instance that holds the default of
    every registered field, and its dirty set is the list of ALL
    registered field names, so [isDirty] is true as soon as the class
    has a field. *)
Theorem C4_constructor_stores_defaults_and_marks_them_dirty :
  forall (st : ClassState) (modelData : ModelData) (h : heap) (alloc : ref),
    registered_by st modelData ->
    ~ In "mongore" (Object_keys (fields modelData)) ->
    (forall f d, In (f, d) (fields modelData) ->
       default_is_stored d /\ clonable d) ->
    exists w,
      Model_constructor (cs_class (fst (buildModel st modelData))) h alloc
      = Ok w
      /\ _classWrapper w
         = {| _class := name (cs_class st); _md := modelData |}
      /\ (forall i f d, nth_error (fields modelData) i = Some (f, d) ->
            obj_get f (_fields w) = Field_default d (alloc + i))
      /\ _dirtyFields w = Object_keys (fields modelData)
      /\ isDirty w = negb (Nat.eqb (length (fields modelData)) 0).
Proof.
  intros st modelData h alloc Hreg _ Hdef.
  destruct (registered_by_class Hreg) as [Hcls [Hnd _]].
  pose proof constructor_assigns_defaults as Hc.
  specialize (Hc (cs_class (fst (buildModel st modelData)))
                {| _class := name (cs_class st); _md := modelData |} h alloc).
  destruct Hc as [w Hw].
  - rewrite Hcls; reflexivity.
  - exact Hnd.
  - intros f d Hin; exact (proj1 (Hdef f d Hin)).
  - exists w; exact Hw.
Qed.

End Construction.

(** C4 (the claim fails).  The constructor of the class [Dog], whose two
    fields are generic, leaves both names in the dirty set: [isDirty] is
    true right after construction. *)
Lemma C4_defaults_are_marked_dirty :
  Model_constructor (P := ref_platform) Dog empty_heap 10 = Ok fresh_dog
  /\ _dirtyFields fresh_dog = ["name"; "breed"]
  /\ isDirty fresh_dog = true.
Proof. repeat split; reflexivity. Qed.

Lemma Dog_is_registered :
  registered_by Dog_unbuilt Dog_data
  /\ cs_class (fst (buildModel Dog_unbuilt Dog_data)) = Dog
  /\ ~ In "mongore" (Object_keys (fields Dog_data))
  /\ (forall f d, In (f, d) (fields Dog_data) ->
        default_is_stored d /\ clonable d).
Proof.
  split; [|split; [reflexivity|split]].
  - split; [reflexivity|split; [apply incl_refl | reflexivity]].
  - simpl; intuition discriminate.
  - intros f d [H|[H|[]]]; inversion H; (split; [exact I | reflexivity]).
Defined.

(** The class [Cat], on which [buildModel(clashing_data)] throws, is
    left with a wrapper and is not registered by it. *)
Example Cat_is_not_registered :
  mongore (cs_class (fst (buildModel Cat_unbuilt clashing_data))) <> None
  /\ ~ registered_by Cat_unbuilt clashing_data.
Proof.
  split; [discriminate|].
  intros [_ [_ Hok]]; discriminate Hok.
Qed.

(** C4 at the class [Dog], which [buildModel(Dog_data)] registers. *)
Lemma C4_constructor_stores_defaults_and_marks_them_dirty_witness :
  (registered_by Dog_unbuilt Dog_data
   /\ cs_class (fst (buildModel Dog_unbuilt Dog_data)) = Dog
   /\ ~ In "mongore" (Object_keys (fields Dog_data))
   /\ (forall f d, In (f, d) (fields Dog_data) ->
         default_is_stored d /\ clonable d))
  /\ exists w,
      Model_constructor (P := ref_platform)
        (cs_class (fst (buildModel Dog_unbuilt Dog_data))) empty_heap 10
      = Ok w
      /\ _classWrapper w = {| _class := "Dog"; _md := Dog_data |}
      /\ (forall i f d, nth_error (fields Dog_data) i = Some (f, d) ->
            obj_get f (_fields w) = Field_default (P := ref_platform) d (10 + i))
      /\ _dirtyFields w = ["name"; "breed"]
      /\ isDirty w = true.
Proof.
  split; [exact Dog_is_registered|].
  exact (@C4_constructor_stores_defaults_and_marks_them_dirty ref_platform
           Dog_unbuilt Dog_data empty_heap 10
           (proj1 Dog_is_registered)
           (proj1 (proj2 (proj2 Dog_is_registered)))
           (proj2 (proj2 (proj2 Dog_is_registered)))).
Defined.

(* ================================================================== *)
(** ** C5: [clean(null)] under [canBeNull] *)
(* ================================================================== *)

Section CleanNull.
Context {P : Platform}.

(** C5 (amended).  Let the descriptor have [canBeNull = true] and let
    the value it cleans be [null] (no [source] alias, or the aliased
    property is [null]).  The generic, boolean, numeric, string, choice
    and foreign-key fields return [null]; the date field returns [null],
    or the current time under [autoNow]; the list field and the
    dictionary field have no [canBeNull] handling and fail.  For the
    email field the outcome is the pattern test of the string "null". *)
Theorem C5_clean_null_under_canBeNull :
  forall (d : descriptor) (h : heap) (now : value)
         (instance : string -> value),
    canBeNull (_data d) = true ->
    Field_clean (_data d) instance VNull = VNull ->
    match d with
    | GenericField _ | BooleanField _ | NumericField _ | StringField _
    | ChoiceField _ | ForeignKeyField _ _ =>
        clean d h now instance VNull = Ok VNull
    | DateField data =>
        clean d h now instance VNull = Ok (if autoNow data then now else VNull)
    | ListField _ _ =>
        clean d h now instance VNull = Throw (Error "not a list")
    | DictionaryField _ _ =>
        clean d h now instance VNull
        = Throw (TypeError "Cannot read property 'constructor'")
    | EmailField _ =>
        clean d h now instance VNull
        = if emailRE_test "null" then Ok VNull
          else Throw (ValidationError "not a valid email pattern")
    end.
Proof.
  intros d h now instance Hnull Hval.
  destruct d; simpl in *;
    unfold BooleanField_clean, NumericField_clean, StringField_clean,
      EmailField_clean, StringField_clean, DateField_clean,
      ChoiceField_clean, ListField_clean, DictionaryField_clean,
      ForeignKeyField_clean, null_allowed, validateEmail;
    rewrite ?Hval, ?Hnull; simpl; try reflexivity.
  destruct (emailRE_test "null"); reflexivity.
Qed.

End CleanNull.

(** C5 (the claim fails).  A list field and a dictionary field built
    with [canBeNull: true] both fail on [null]. *)
Lemma C5_list_and_dictionary_reject_null :
  clean (P := ref_platform) (ListField nullable None) empty_heap t1
    no_owner VNull
  = Throw (Error "not a list")
  /\ clean (P := ref_platform) (DictionaryField nullable None) empty_heap t1
       no_owner VNull
     = Throw (TypeError "Cannot read property 'constructor'").
Proof. split; reflexivity. Qed.

(** C5 at a numeric field with [canBeNull: true]. *)
Lemma C5_clean_null_under_canBeNull_witness :
  (canBeNull (_data (NumericField nullable)) = true
   /\ Field_clean (_data (NumericField nullable)) no_owner VNull = VNull)
  /\ clean (P := ref_platform) (NumericField nullable) empty_heap t1
       no_owner VNull
     = Ok VNull.
Proof.
  split; [split; reflexivity|].
  exact (@C5_clean_null_under_canBeNull ref_platform (NumericField nullable)
           empty_heap t1 no_owner eq_refl eq_refl).
Defined.

(* ================================================================== *)
(** ** C6: a dictionary field with a schema *)
(* ================================================================== *)

Lemma arraysEqual_loop_spec :
  forall arr1 arr2 i,
    Utils.arraysEqual_loop arr1 arr2 i = true
    <-> forall j, j < i -> nth_error arr1 j = nth_error arr2 j.
Proof.
  intros arr1 arr2 i; induction i as [|i IH]; simpl.
  - split; [intros _ j Hj; lia | reflexivity].
  - destruct (nth_error arr1 i) as [x|] eqn:Hx,
             (nth_error arr2 i) as [y|] eqn:Hy.
    + destruct (String.eqb_spec x y) as [->|Hne]; simpl.
      * rewrite IH; split; intros H j Hj.
        -- destruct (Nat.eq_dec j i) as [->|]; [congruence | apply H; lia].
        -- apply H; lia.
      * split; [discriminate|].
        intros H; specialize (H i (Nat.lt_succ_diag_r i)); congruence.
    + split; [discriminate|].
      intros H; specialize (H i (Nat.lt_succ_diag_r i)); congruence.
    + split; [discriminate|].
      intros H; specialize (H i (Nat.lt_succ_diag_r i)); congruence.
    + rewrite IH; split; intros H j Hj.
      * destruct (Nat.eq_dec j i) as [->|]; [congruence | apply H; lia].
      * apply H; lia.
Qed.

(** [arraysEqual] is equality of the two arrays, position by position. *)
Lemma arraysEqual_eq :
  forall arr1 arr2, Utils.arraysEqual arr1 arr2 = true <-> arr1 = arr2.
Proof.
  intros arr1 arr2; unfold Utils.arraysEqual.
  destruct (Nat.eqb_spec (length arr1) (length arr2)) as [Hlen|Hlen]; simpl.
  - rewrite arraysEqual_loop_spec; split.
    + intros H; apply nth_error_ext; intros j.
      destruct (Nat.lt_ge_cases j (length arr1)) as [Hj|Hj]; [auto|].
      transitivity (@None string);
        [|symmetry]; apply nth_error_None; lia.
    + intros ->; reflexivity.
  - split; [discriminate | intros ->; contradiction].
Qed.

Section DictionarySchema.
Context {P : Platform}.

Lemma clean_entries_ext :
  forall f g es keys acc,
    (forall k x, f k x = g k x) ->
    clean_entries f es keys acc = clean_entries g es keys acc.
Proof.
  intros f g es keys; induction keys as [|k rest IH]; intros acc Hfg; simpl.
  - reflexivity.
  - rewrite Hfg; destruct (g k (obj_get k es)); simpl; auto.
Qed.

Lemma clean_entries_succeeds :
  forall f es keys acc,
    succeeds (clean_entries f es keys acc) = true
    <-> forall k, In k keys -> succeeds (f k (obj_get k es)) = true.
Proof.
  intros f es keys; induction keys as [|k rest IH]; intros acc; simpl.
  - split; [intros _ k [] | reflexivity].
  - destruct (f k (obj_get k es)) as [c|e] eqn:Hk; simpl.
    + rewrite IH; split.
      * intros H k' [<-|Hin]; [now rewrite Hk | auto].
      * intros H k' Hin; auto.
    + split; [discriminate|].
      intros H; specialize (H k (or_introl eq_refl)).
      rewrite Hk in H; discriminate.
Qed.

(** The [clean] of a dictionary field with a schema, with the lookup
    [this._schema[key]] written as [schema_clean]. *)
Lemma clean_DictionaryField_schema :
  forall data sch h now instance v,
    clean (DictionaryField data (Some sch)) h now instance v
    = DictionaryField_clean data
        (Some (Object_keys sch, schema_clean sch h now instance)) instance v.
Proof.
  intros data sch h now instance v; cbn [clean].
  unfold DictionaryField_clean.
  destruct (constructor_is_Object (Field_clean data instance v)) as [b|e];
    simpl; [|reflexivity].
  destruct b; simpl; [|reflexivity].
  destruct (Field_clean data instance v); try reflexivity.
  destruct (Utils.arraysEqual (Object_keys entries) (Object_keys sch));
    simpl; [|reflexivity].
  erewrite clean_entries_ext; [reflexivity|].
  intros k x; unfold schema_clean.
  induction sch as [|[k2 f] rest IH]; simpl; [reflexivity|].
  destruct (String.eqb k k2); auto.
Qed.

Lemma obj_lookup_Some_keys :
  forall A k (o : list (string * A)),
    In k (Object_keys o) -> exists v, obj_lookup k o = Some v.
Proof.
  intros A k o Hin.
  destruct (obj_lookup k o) as [v|] eqn:Hl; [eauto|].
  apply obj_lookup_None_keys in Hl; contradiction.
Qed.

(** C6 (amended).  With a schema configured, [clean] succeeds exactly
    when the value (after the [source] alias) is a plain object whose
    keys, in enumeration order, are the keys of the schema in their
    order, and every descriptor of the schema accepts the value under
    its key.  The comparison of the keys is [arraysEqual], position by
    position: it is sensitive to the order. *)
Theorem C6_dictionary_schema_clean_succeeds_iff :
  forall (data : FieldData) (sch : list (string * descriptor)) (h : heap)
         (now : value) (instance : string -> value) (v : value),
    succeeds (clean (DictionaryField data (Some sch)) h now instance v) = true
    <-> exists r es,
          Field_clean data instance v = VDict r es
          /\ obj_lookup "constructor" es = None
          /\ Object_keys es = Object_keys sch
          /\ (forall k d, obj_lookup k sch = Some d ->
                succeeds (clean d h now instance (obj_get k es)) = true).
Proof.
  intros data sch h now instance v.
  rewrite clean_DictionaryField_schema; unfold DictionaryField_clean.
  destruct (Field_clean data instance v) as [| | | | | | | |r es|] eqn:Hv;
    simpl;
    try (split; [discriminate | intros [r0 [es0 [Habs _]]]; discriminate]).
  destruct (obj_lookup "constructor" es) as [x|] eqn:Hctor; simpl.
  - split; [discriminate|].
    intros [r0 [es0 [Heq [Hc _]]]]; inversion Heq; subst; congruence.
  - destruct (Utils.arraysEqual (Object_keys es) (Object_keys sch)) eqn:Hkeys;
      simpl.
    + apply arraysEqual_eq in Hkeys.
      destruct (clean_entries (schema_clean sch h now instance) es
                  (Object_keys es) []) as [newDict|e] eqn:Hent; simpl.
      * split; [intros _|reflexivity].
        exists r, es; repeat split; auto.
        intros k d Hd.
        assert (Hs : succeeds (clean_entries (schema_clean sch h now instance)
                                 es (Object_keys es) []) = true)
          by now rewrite Hent.
        rewrite clean_entries_succeeds in Hs.
        specialize (Hs k); unfold schema_clean in Hs; rewrite Hd in Hs.
        apply Hs; rewrite Hkeys.
        destruct (in_dec string_dec k (Object_keys sch)) as [Hin|Hin];
          [assumption|].
        apply obj_lookup_None_keys in Hin; congruence.
      * split; [discriminate|].
        intros [r0 [es0 [Heq [_ [_ Hall]]]]]; inversion Heq; subst es0 r0.
        assert (Hs : succeeds (clean_entries (schema_clean sch h now instance)
                                 es (Object_keys es) []) = true).
        { apply clean_entries_succeeds; intros k Hin.
          rewrite Hkeys in Hin.
          destruct (obj_lookup_Some_keys _ _ Hin) as [d Hd].
          unfold schema_clean; rewrite Hd; auto. }
        rewrite Hent in Hs; discriminate.
    + split; [discriminate|].
      intros [r0 [es0 [Heq [_ [Hk _]]]]]; inversion Heq; subst es0 r0.
      apply arraysEqual_eq in Hk; congruence.
Qed.

End DictionarySchema.

(** C6 (the claim fails).  Under the schema [{a: NumericField,
    b: StringField}] the mapping [{b: "x", a: 1}] has exactly the keys of
    the schema and is rejected, because it enumerates them in another
    order; [{a: 1, b: "x"}] is accepted. *)
Lemma C6_same_keys_in_other_order_rejected :
  clean (P := ref_platform) ab_field empty_heap t1 no_owner
    (VDict 5 [("b", VStr "x"); ("a", VNum 1)])
  = Throw (ValidationError "value keys don't match schema")
  /\ (forall k, In k ["b"; "a"] <-> In k (Object_keys ab_schema))
  /\ clean (P := ref_platform) ab_field empty_heap t1 no_owner
       (VDict 5 [("a", VNum 1); ("b", VStr "x")])
     = Ok (VDict 0 [("a", VNum 1); ("b", VStr "x")]).
Proof.
  repeat split; try reflexivity; simpl; intuition.
Qed.

(* ================================================================== *)
(** ** C7, C8, C10: what [save] and [delete] hand to the client *)
(* ================================================================== *)

Section SaveAndDelete.
Context {P : Platform}.

Lemma toDocument_loop_nothing_dirty :
  forall h now w keys ret,
    _dirtyFields w = [] ->
    toDocument_loop h now w true keys ret = Ok ret.
Proof.
  intros h now w keys ret Hd; induction keys as [|k rest IH]; simpl.
  - reflexivity.
  - rewrite Hd; simpl; exact IH.
Qed.

Lemma toDocument_loop_throws :
  forall h now w dirtyOnly keys ret key e,
    In key keys ->
    (dirtyOnly = true -> In key (_dirtyFields w)) ->
    clean_field h now w key = Throw e ->
    exists e', toDocument_loop h now w dirtyOnly keys ret = Throw e'.
Proof.
  intros h now w dirtyOnly keys; induction keys as [|k rest IH];
    intros ret key e Hin Hsel Hthrow; [contradiction|]; simpl.
  destruct (dirtyOnly && negb (Set_has k (_dirtyFields w))) eqn:Hskip.
  - destruct Hin as [->|Hin]; [|eauto].
    apply andb_true_iff in Hskip; destruct Hskip as [Hd Hnot].
    apply Set_has_In in Hsel; [|assumption].
    rewrite Hsel in Hnot; discriminate.
  - destruct (clean_field h now w k) as [c|e0] eqn:Hk; simpl; [|eauto].
    destruct Hin as [->|Hin]; [congruence | eauto].
Qed.

(** C7.  An instance that is in storage and has nothing dirty when the
    before-save hook returns: [save] without [forceSave] hands nothing to
    the client.  In particular, for a new instance of a class with the
    hooks of [Model]: the first [save] hands the client exactly one
    request, the insert of [toDocument(false)]; once the storage has
    answered it (with whatever response), a second [save] hands the
    client nothing, and a forced one hands it an update. *)
Theorem C7_save_without_changes_issues_no_request :
  forall (hk : Hooks) (c : MongoConnection) (h : heap) (now : value)
         (w : ModelInstanceWrapper),
    (isInDB (beforeSaveToDB hk w) = true ->
     isDirty (beforeSaveToDB hk w) = false ->
     save hk c h now w false = (beforeSaveToDB hk w, Ok None))
    /\ (forall (doc data : jsobject) (now' : value)
               (onSuccess : option callback),
          isInDB w = false ->
          _isReady c = true ->
          toDocument h now w false = Ok doc ->
          let w' := fst (save_onSuccess Model_hooks w data onSuccess) in
          save Model_hooks c h now w false
            = (w, Ok (Some (InsertOne doc (get_collectionName w))))
          /\ save Model_hooks c h now' w' false = (w', Ok None)
          /\ exists doc',
               save Model_hooks c h now' w' true
               = (w', Ok (Some (UpdateOne (id_query w') doc'
                                  (get_collectionName w'))))).
Proof.
  intros hk c h now w; split.
  - intros HinDB Hclean; unfold save; now rewrite HinDB, Hclean.
  - intros doc data now' onSuccess HnotIn Hready Hdoc w'; subst w'.
    split; [|split].
    + unfold save; cbn [beforeSaveToDB Model_hooks].
      rewrite HnotIn, Hdoc; cbn [bind].
      unfold insertOne, validateReady; now rewrite Hready.
    + unfold save; cbn [beforeSaveToDB Model_hooks].
      unfold isInDB, isLoadedFromDB, isSavedToDB; simpl.
      now rewrite orb_true_r.
    + eexists; unfold save; cbn [beforeSaveToDB Model_hooks].
      unfold isInDB, isLoadedFromDB, isSavedToDB; cbn [fst save_onSuccess].
      replace (_isSavedToDB (_afterSaveToDB Model_hooks w data)) with true
        by reflexivity.
      rewrite orb_true_r; cbn [orb].
      unfold toDocument.
      rewrite toDocument_loop_nothing_dirty by reflexivity; cbn [bind].
      unfold updateOne, validateReady; rewrite Hready; reflexivity.
Qed.

(** C8.  If [clean] throws for a field that the save serializes (any
    field of the field map on the insert path, a dirty one on the update
    path), [save] throws before the client is called: no request is
    issued, and the wrapper is exactly as the before-save hook left it.
    Under the empty hook of [Model] that is the wrapper [save] was
    called on: field values and dirty set are unchanged. *)
Theorem C8_failed_clean_aborts_save_before_any_request :
  forall (hk : Hooks) (c : MongoConnection) (h : heap) (now : value)
         (w : ModelInstanceWrapper) (forceSave : bool) (key : string)
         (e : error),
    In key (Object_keys (_fields (beforeSaveToDB hk w))) ->
    (isInDB (beforeSaveToDB hk w) = true ->
     In key (_dirtyFields (beforeSaveToDB hk w))) ->
    clean_field h now (beforeSaveToDB hk w) key = Throw e ->
    (exists e', save hk c h now w forceSave = (beforeSaveToDB hk w, Throw e'))
    /\ (beforeSaveToDB hk w = w ->
        _fields (fst (save hk c h now w forceSave)) = _fields w
        /\ _dirtyFields (fst (save hk c h now w forceSave)) = _dirtyFields w).
Proof.
  intros hk c h now w forceSave key e Hkey Hdirty Hthrow.
  assert (Hsave : exists e',
             save hk c h now w forceSave = (beforeSaveToDB hk w, Throw e')).
  { unfold save.
    destruct (isInDB (beforeSaveToDB hk w)) eqn:HinDB.
    - specialize (Hdirty eq_refl).
      assert (Hd : isDirty (beforeSaveToDB hk w) = true).
      { unfold isDirty.
        destruct (_dirtyFields (beforeSaveToDB hk w));
          [contradiction | reflexivity]. }
      rewrite Hd, orb_true_r; unfold toDocument.
      assert (Hloop : exists e',
                 toDocument_loop h now (beforeSaveToDB hk w) true
                   (Object_keys (_fields (beforeSaveToDB hk w))) []
                 = Throw e')
        by (eapply toDocument_loop_throws; eauto).
      destruct Hloop as [e' He']; rewrite He'; simpl; eauto.
    - unfold toDocument.
      assert (Hloop : exists e',
                 toDocument_loop h now (beforeSaveToDB hk w) false
                   (Object_keys (_fields (beforeSaveToDB hk w))) []
                 = Throw e')
        by (eapply toDocument_loop_throws; eauto; discriminate).
      destruct Hloop as [e' He']; rewrite He'; simpl; eauto. }
  split; [exact Hsave|].
  intros Hhook; destruct Hsave as [e' He']; rewrite He'; simpl.
  now rewrite Hhook.
Qed.

(** C10.  The success callback of [delete] runs the after-delete hook
    and the caller's callback and touches nothing of the wrapper; with
    the empty hook of [Model] the wrapper after a successful delete is
    the wrapper before it.  An instance that was in storage is still
    [isInDB], so a later [save] takes the update path: when it is forced
    or finds a dirty field it hands the client the [updateOne] of
    [toDocument(true)] on the instance's id, and no request it hands
    over is ever an [insertOne]. *)
Theorem C10_delete_leaves_wrapper_in_storage :
  forall (hk : Hooks) (c : MongoConnection) (h : heap) (now : value)
         (w : ModelInstanceWrapper) (onSuccess : option callback)
         (forceSave : bool),
    isInDB w = true ->
    let deleted := fst (delete_onSuccess Model_hooks w onSuccess) in
    fst (delete_onSuccess hk w onSuccess) = afterDeletedFromDB hk w
    /\ deleted = w
    /\ isInDB deleted = true
    /\ (forall doc,
          forceSave || isDirty w = true ->
          _isReady c = true ->
          toDocument h now w true = Ok doc ->
          save Model_hooks c h now deleted forceSave
          = (w, Ok (Some (UpdateOne (id_query w) doc (get_collectionName w)))))
    /\ (forceSave || isDirty w = false ->
        save Model_hooks c h now deleted forceSave = (w, Ok None))
    /\ (forall r,
          snd (save Model_hooks c h now deleted forceSave) = Ok (Some r) ->
          exists doc,
            toDocument h now w true = Ok doc
            /\ r = UpdateOne (id_query w) doc (get_collectionName w)).
Proof.
  intros hk c h now w onSuccess forceSave HinDB deleted; subst deleted.
  cbn [fst delete_onSuccess afterDeletedFromDB Model_hooks].
  split; [reflexivity|split; [reflexivity|split; [assumption|]]].
  unfold save; cbn [beforeSaveToDB Model_hooks]; rewrite HinDB.
  split; [|split].
  - intros doc Hgo Hready Hdoc; rewrite Hgo, Hdoc; cbn [bind].
    unfold updateOne, validateReady; rewrite Hready; reflexivity.
  - intros Hgo; now rewrite Hgo.
  - intros r.
    destruct (forceSave || isDirty w); cbn [snd]; [|discriminate].
    destruct (toDocument h now w true) as [doc|e]; cbn [bind]; [|discriminate].
    unfold updateOne, validateReady; destruct (_isReady c); cbn [bind negb];
      [|discriminate].
    intros Hr; inversion Hr; eauto.
Qed.

End SaveAndDelete.

(** C7 at the dog of the examples: [saved_dog] is [fresh_dog] after its
    insert was answered, and its next save hands the client nothing. *)
Lemma C7_save_without_changes_issues_no_request_witness :
  (isInDB saved_dog = true /\ isDirty saved_dog = false
   /\ isInDB fresh_dog = false)
  /\ save (P := ref_platform) Model_hooks connected empty_heap t2 saved_dog
       false
     = (saved_dog, Ok None)
  /\ saved_dog
     = fst (save_onSuccess Model_hooks fresh_dog
              (request_obj (InsertOne
                 [("name", VNull); ("breed", VNull);
                  ("_dbLastUpdateTime", t1); ("_dbCreationTime", t1);
                  ("_dbObjectVersion", VNum 1)] "Dogs")) None).
Proof.
  split; [repeat split|split; [|reflexivity]].
  exact (proj1 (@C7_save_without_changes_issues_no_request ref_platform
                  Model_hooks connected empty_heap t2 saved_dog)
           eq_refl eq_refl).
Defined.

(** The post of the examples is what the constructor yields. *)
Example post_is_constructed :
  Model_constructor (P := ref_platform) Post empty_heap 10 = Ok fresh_post.
Proof. reflexivity. Qed.

(** C8 at a new post whose [tags] holds a number: the list field throws,
    and [save] throws with it. *)
Lemma C8_failed_clean_aborts_save_before_any_request_witness :
  (In "tags" (Object_keys (_fields (beforeSaveToDB Model_hooks bad_post)))
   /\ isInDB (beforeSaveToDB Model_hooks bad_post) = false
   /\ clean_field (P := ref_platform) empty_heap t1
        (beforeSaveToDB Model_hooks bad_post) "tags"
      = Throw (Error "not a list"))
  /\ ((exists e',
         save (P := ref_platform) Model_hooks connected empty_heap t1
           bad_post false
         = (beforeSaveToDB Model_hooks bad_post, Throw e'))
      /\ (beforeSaveToDB Model_hooks bad_post = bad_post ->
          _fields (fst (save (P := ref_platform) Model_hooks connected
                          empty_heap t1 bad_post false))
          = _fields bad_post
          /\ _dirtyFields (fst (save (P := ref_platform) Model_hooks connected
                                  empty_heap t1 bad_post false))
             = _dirtyFields bad_post)).
Proof.
  split; [repeat split; now left|].
  exact (@C8_failed_clean_aborts_save_before_any_request ref_platform
           Model_hooks connected empty_heap t1 bad_post false "tags"
           (Error "not a list") (or_introl eq_refl)
           (fun H => False_ind _ (diff_false_true H)) eq_refl).
Defined.

(** C10 at the saved dog: after its delete succeeded, a forced save
    hands the client an update of the bookkeeping keys. *)
Lemma C10_delete_leaves_wrapper_in_storage_witness :
  (isInDB saved_dog = true
   /\ save (P := ref_platform) Model_hooks connected empty_heap t2
        (fst (delete_onSuccess Model_hooks saved_dog None)) true
      = (saved_dog,
         Ok (Some (UpdateOne (VDict 0 [("_id", VUndefined)])
                     [("_dbLastUpdateTime", t2); ("_dbCreationTime", t1);
                      ("_dbObjectVersion", VNum 2)] "Dogs"))))
  /\ (let deleted := fst (delete_onSuccess Model_hooks saved_dog None) in
      fst (delete_onSuccess Model_hooks saved_dog None)
      = afterDeletedFromDB Model_hooks saved_dog
      /\ deleted = saved_dog
      /\ isInDB deleted = true
      /\ (forall doc,
            true || isDirty saved_dog = true ->
            _isReady connected = true ->
            toDocument (P := ref_platform) empty_heap t2 saved_dog true
            = Ok doc ->
            save (P := ref_platform) Model_hooks connected empty_heap t2
              deleted true
            = (saved_dog,
               Ok (Some (UpdateOne (id_query saved_dog) doc
                           (get_collectionName saved_dog)))))
      /\ (true || isDirty saved_dog = false ->
          save (P := ref_platform) Model_hooks connected empty_heap t2
            deleted true
          = (saved_dog, Ok None))
      /\ (forall r,
            snd (save (P := ref_platform) Model_hooks connected empty_heap t2
                   deleted true)
            = Ok (Some r) ->
            exists doc,
              toDocument (P := ref_platform) empty_heap t2 saved_dog true
              = Ok doc
              /\ r = UpdateOne (id_query saved_dog) doc
                       (get_collectionName saved_dog))).
Proof.
  split; [split; reflexivity|].
  exact (@C10_delete_leaves_wrapper_in_storage ref_platform Model_hooks
           connected empty_heap t2 saved_dog None true eq_refl).
Defined.

(* ================================================================== *)
(** ** C9: the callback of the first load *)
(* ================================================================== *)

Section FirstLoad.
Context {P : Platform}.

Lemma object_set_frame :
  forall h w p v,
    onFirstLoad (object_set h w p v) = onFirstLoad w
    /\ _onFirstLoad (object_set h w p v) = _onFirstLoad w
    /\ _isLoadedFromDB (object_set h w p v) = _isLoadedFromDB w
    /\ _isSavedToDB (object_set h w p v) = _isSavedToDB w.
Proof.
  intros h w p v; unfold object_set.
  destruct (getFieldDescriptor w p) as [d|]; [|repeat split].
  destruct (isEqual d h v (obj_get p (_fields w))); repeat split.
Qed.

Lemma set_defaults_frame :
  forall h names alloc w w',
    set_defaults h names alloc w = Ok w' ->
    onFirstLoad w' = onFirstLoad w
    /\ _isLoadedFromDB w' = _isLoadedFromDB w.
Proof.
  intros h names; induction names as [|f rest IH]; simpl;
    intros alloc w w' Hset.
  - inversion Hset; subst; split; reflexivity.
  - destruct (getDefault w f alloc) as [v|e]; simpl in Hset; [|discriminate].
    destruct (IH _ _ _ Hset) as [H1 H2].
    destruct (object_set_frame h w f v) as [F1 [_ [F3 _]]].
    split; congruence.
Qed.

Lemma Model_constructor_frame :
  forall cls h alloc w,
    Model_constructor cls h alloc = Ok w ->
    onFirstLoad w = None /\ _isLoadedFromDB w = false.
Proof.
  intros cls h alloc w; unfold Model_constructor.
  destruct (mongore cls) as [cw|]; [|discriminate].
  intros Hset; apply set_defaults_frame in Hset; exact Hset.
Qed.

Lemma initAfterLoad_frame :
  forall d h alloc w v cb,
    onFirstLoad (fst (fst (initAfterLoad d h alloc w v))) = onFirstLoad w
    /\ invocations cb (snd (initAfterLoad d h alloc w v)) = 0.
Proof.
  intros d h alloc w v cb.
  assert (Hf : forall data x,
             onFirstLoad (Field_initAfterLoad data h w x) = onFirstLoad w).
  { intros data x; unfold Field_initAfterLoad.
    destruct (source_of data); [|reflexivity].
    destruct (sourceReadonly data); [reflexivity|].
    apply object_set_frame. }
  destruct d; simpl; split; auto.
Qed.

Lemma invocations_app :
  forall cb ev ev',
    invocations cb (ev ++ ev') = invocations cb ev + invocations cb ev'.
Proof.
  intros cb ev ev'; unfold invocations.
  now rewrite filter_app, length_app.
Qed.

Lemma setFields_loop_frame :
  forall h data keys alloc w cb,
    onFirstLoad (fst (setFields_loop h alloc data keys w)) = onFirstLoad w
    /\ invocations cb (snd (setFields_loop h alloc data keys w)) = 0.
Proof.
  intros h data keys; induction keys as [|k rest IH]; intros alloc w cb;
    simpl; [split; reflexivity|].
  destruct (getFieldDescriptor w k) as [d|].
  - destruct (initAfterLoad_frame d h alloc w (obj_get k data) cb)
      as [Hf Hi].
    destruct (initAfterLoad d h alloc w (obj_get k data)) as [[w1 v] ev].
    simpl in Hf, Hi.
    specialize (IH (S alloc) (with_fields w1 (obj_set k v (_fields w1))) cb).
    destruct (setFields_loop h (S alloc) data rest
                (with_fields w1 (obj_set k v (_fields w1)))) as [w3 ev'].
    simpl in *; destruct IH as [H1 H2]; split; [congruence|].
    rewrite invocations_app; lia.
  - specialize (IH (S alloc)
                  (with_fields w (obj_set k (obj_get k data) (_fields w))) cb).
    destruct (setFields_loop h (S alloc) data rest
                (with_fields w (obj_set k (obj_get k data) (_fields w))))
      as [w3 ev'].
    simpl in *; exact IH.
Qed.

(** A hydration of an instance whose [onFirstLoad] holds nothing invokes
    no callback, whether it is the first one or not. *)
Lemma hydration_invokes_nothing :
  forall h now alloc w data cb,
    onFirstLoad w = None ->
    onFirstLoad (fst (_setFromDBDocument Model_hooks h now alloc w data true))
    = None
    /\ _isLoadedFromDB
         (fst (_setFromDBDocument Model_hooks h now alloc w data true))
       = true
    /\ _onFirstLoad
         (fst (_setFromDBDocument Model_hooks h now alloc w data true))
       = _onFirstLoad (fst (setFields_loop h alloc data (Object_keys data) w))
    /\ invocations cb
         (snd (_setFromDBDocument Model_hooks h now alloc w data true))
       = 0.
Proof.
  intros h now alloc w data cb Hnone; unfold _setFromDBDocument.
  destruct (setFields_loop_frame h data (Object_keys data) alloc w cb)
    as [Hf Hi].
  destruct (setFields_loop h alloc data (Object_keys data) w) as [w1 ev].
  cbn [fst snd] in Hf, Hi.
  unfold _afterLoadFromDB; cbn [afterLoadedFromDB Model_hooks].
  cbn [onFirstLoad with_flags with_dirtyFields fst snd call].
  rewrite Hf, Hnone.
  destruct (negb (_isLoadedFromDB w1)); cbn [call fst snd];
    rewrite app_nil_r; repeat split; auto.
Qed.

(** C9 (the code at the inputs of the claim).  A callback registered
    through [onLoaded] on a new instance is stored in [_onFirstLoad];
    [_afterLoadFromDB] reads [onFirstLoad], which holds nothing.  So
    neither the registration, nor the first hydration of the instance,
    nor a reload after it invokes the callback: it is invoked 0 times,
    where the claim says exactly once, on the first hydration. *)
Theorem C9_registered_callback_is_not_invoked_by_first_load :
  forall (cls : ModelClass) (h h' : heap) (alloc alloc' alloc'' : ref)
         (w : ModelInstanceWrapper) (cb : callback) (now now' : value)
         (data data' : jsobject),
    Model_constructor cls h alloc = Ok w ->
    let registered := set_onLoaded w (Some cb) in
    let loaded :=
      load_onSuccess Model_hooks h' now alloc' (fst registered) data None in
    let reloaded :=
      reload_onSuccess Model_hooks h' now' alloc'' (fst loaded) data' None in
    _onFirstLoad (fst registered) = Some cb
    /\ _isLoadedFromDB (fst loaded) = true
    /\ invocations cb (snd registered ++ snd loaded ++ snd reloaded) = 0.
Proof.
  intros cls h h' alloc alloc' alloc'' w cb now now' data data' Hnew.
  destruct (Model_constructor_frame _ _ _ Hnew) as [Hnone Hfresh].
  cbv zeta.
  unfold set_onLoaded; cbn [fst snd]; cbn [_isLoadedFromDB with_onFirstLoad].
  rewrite Hfresh; cbn [app].
  unfold load_onSuccess, reload_onSuccess.
  destruct (hydration_invokes_nothing h' now alloc'
              (with_onFirstLoad w (Some cb)) data cb Hnone)
    as [H1 [H2 [_ H3]]].
  destruct (_setFromDBDocument Model_hooks h' now alloc'
              (with_onFirstLoad w (Some cb)) data true) as [w1 ev1].
  cbn [fst snd] in *.
  destruct (hydration_invokes_nothing h' now' alloc'' w1 data' cb H1)
    as [_ [_ [_ H4]]].
  destruct (_setFromDBDocument Model_hooks h' now' alloc'' w1 data' true)
    as [w2 ev2].
  cbn [fst snd call] in *.
  rewrite !app_nil_r, invocations_app, H3, H4.
  repeat split; auto.
Qed.

End FirstLoad.

(** C9 at the dog of the examples: the callback 1 is registered, the dog
    is hydrated from [rex_document] and reloaded. *)
Lemma C9_registered_callback_is_not_invoked_by_first_load_witness :
  Model_constructor (P := ref_platform) Dog empty_heap 10 = Ok fresh_dog
  /\ (let registered := set_onLoaded fresh_dog (Some 1) in
      let loaded :=
        load_onSuccess Model_hooks empty_heap t1 20 (fst registered)
          rex_document None in
      let reloaded :=
        reload_onSuccess Model_hooks empty_heap t2 30 (fst loaded)
          rex_document None in
      _onFirstLoad (fst registered) = Some 1
      /\ _isLoadedFromDB (fst loaded) = true
      /\ invocations 1 (snd registered ++ snd loaded ++ snd reloaded) = 0).
Proof.
  split; [reflexivity|].
  exact (@C9_registered_callback_is_not_invoked_by_first_load ref_platform
           Dog empty_heap empty_heap 10 20 30 fresh_dog 1 t1 t2 rex_document
           rex_document eq_refl).
Defined.

(* ================================================================== *)
(** ** Further properties of the field catalogue *)
(* ================================================================== *)

(** X1.  [arraysEqual] answers [true] exactly for two arrays with the
    same elements at the same positions: it is equality of the lists,
    and so it tells apart two lists with the same members in another
    order. *)
Theorem X1_arraysEqual_is_positional_equality :
  forall arr1 arr2 : list string,
    Utils.arraysEqual arr1 arr2 = true <-> arr1 = arr2.
Proof. exact arraysEqual_eq. Qed.

Lemma strict_eq_null : forall v, strict_eq v VNull = true -> v = VNull.
Proof. intros v; destruct v; simpl; congruence. Qed.

Lemma null_allowed_true :
  forall data v, null_allowed data v = true -> v = VNull /\ canBeNull data = true.
Proof.
  intros data v H; unfold null_allowed in H.
  apply andb_true_iff in H; destruct H as [H1 H2].
  split; [now apply strict_eq_null | assumption].
Qed.

Lemma sameValueZero_str :
  forall s c, sameValueZero (VStr s) c = true -> c = VStr s.
Proof.
  intros s c; destruct c; simpl; try discriminate.
  intros H; apply String.eqb_eq in H; now subst.
Qed.

Lemma clean_items_length :
  forall f items out,
    clean_items f items = Ok out -> length out = length items.
Proof.
  intros f items; induction items as [|x rest IH]; simpl; intros out H.
  - now inversion H.
  - destruct (f x) as [c|e]; simpl in H; [|discriminate].
    destruct (clean_items f rest) as [cs|e]; simpl in H; [|discriminate].
    inversion H; subst; simpl; f_equal; auto.
Qed.

Lemma dedup_from_spec :
  forall l seen,
    distinct_values (dedup_from seen l)
    /\ (forall y, In y (dedup_from seen l) ->
          In y l /\ existsb (sameValueZero y) seen = false)
    /\ length (dedup_from seen l) <= length l.
Proof.
  intros l; induction l as [|x rest IH]; intros seen; simpl.
  - split; [exact I|]; split; [intros y Hy; contradiction | lia].
  - destruct (existsb (sameValueZero x) seen) eqn:Hx.
    + destruct (IH seen) as [Hd [Hin Hlen]].
      split; [assumption|]; split; [|lia].
      intros y Hy; destruct (Hin y Hy) as [H1 H2]; auto.
    + destruct (IH (x :: seen)) as [Hd [Hin Hlen]]; simpl.
      split; [split; [|assumption]|split; [|lia]].
      * intros y Hy; destruct (Hin y Hy) as [_ Hs]; simpl in Hs.
        now apply orb_false_iff in Hs.
      * intros y [<-|Hy]; [split; [now left | assumption]|].
        destruct (Hin y Hy) as [H1 Hs]; simpl in Hs.
        apply orb_false_iff in Hs; split; [now right | tauto].
Qed.

Section FieldCatalogue.
Context {P : Platform}.

(** X2.  A numeric field never hands a number outside its bounds to the
    storage: what [clean] returns is [null] (only under [canBeNull]) or
    a number that is at least [min] and at most [max], where they are
    configured. *)
Theorem X2_numeric_clean_is_within_bounds :
  forall (data : FieldData) (h : heap) (now : value)
         (instance : string -> value) (v r : value),
    clean (NumericField data) h now instance v = Ok r ->
    (r = VNull /\ canBeNull data = true)
    \/ exists n, r = VNum n
         /\ (forall m, min data = Some m -> (m <= n)%Z)
         /\ (forall m, max data = Some m -> (n <= m)%Z).
Proof.
  intros data h now instance v r; cbn [clean]; unfold NumericField_clean.
  destruct (null_allowed data (Field_clean data instance v)) eqn:Hnull.
  - intros H; inversion H; subst.
    left; now apply null_allowed_true.
  - destruct (match parser data with Some f => f | None => parseFloat end
                (Field_clean data instance v)); try discriminate.
    destruct (min data) as [lo|] eqn:Hlo, (max data) as [hi|] eqn:Hhi;
      repeat match goal with
             | |- context [Z.ltb ?a ?b] => destruct (Z.ltb_spec a b)
             end; try discriminate;
      intros Hok; inversion Hok; subst; right; exists n;
      (split; [reflexivity|]); split; intros m Hm; inversion Hm; subst; lia.
Qed.

(** X3.  For a value that is a string, the string field accepts it
    exactly when its length, counted in UTF-16 code units as [length]
    does, is at most [maxLength] and at most [minLength], where they are
    configured: both tests of the source are [value.length > bound], so
    [minLength] acts as a second upper bound and a string shorter than
    [minLength] passes. *)
Theorem X3_string_clean_length_tests :
  forall (data : FieldData) (h : heap) (now : value)
         (instance : string -> value) (v : value) (s : string),
    Field_clean data instance v = VStr s ->
    (clean (StringField data) h now instance v = Ok (VStr s)
     <-> (forall m, maxLength data = Some m ->
            (Z.of_nat (js_length s) <= m)%Z)
         /\ (forall m, minLength data = Some m ->
               (Z.of_nat (js_length s) <= m)%Z))
    /\ (succeeds (clean (StringField data) h now instance v) = true ->
        clean (StringField data) h now instance v = Ok (VStr s)).
Proof.
  intros data h now instance v s Hv; cbn [clean]; unfold StringField_clean.
  rewrite Hv; unfold null_allowed; cbn [strict_eq andb js_toString bind].
  destruct (maxLength data) as [hi|], (minLength data) as [lo|];
    repeat match goal with
           | |- context [Z.ltb ?a ?b] => destruct (Z.ltb_spec a b)
           end; cbn [succeeds];
    (split; [split|]); try discriminate; try reflexivity;
    try (intros _; split; intros m Hm; inversion Hm; subst; lia);
    try (intros [H1 H2]; exfalso;
         try (specialize (H1 _ eq_refl)); try (specialize (H2 _ eq_refl));
         lia).
Qed.

(** X4.  What a choice field returns is [null] (only under [canBeNull])
    or a string that is one of the configured choices: the value is
    converted to a string before it is looked up, so a choice that is
    not a string is never returned. *)
Theorem X4_choice_clean_returns_a_string_choice :
  forall (data : FieldData) (h : heap) (now : value)
         (instance : string -> value) (v r : value),
    clean (ChoiceField data) h now instance v = Ok r ->
    (r = VNull /\ canBeNull data = true)
    \/ exists s, r = VStr s /\ In (VStr s) (choices data).
Proof.
  intros data h now instance v r; cbn [clean]; unfold ChoiceField_clean.
  destruct (null_allowed data (Field_clean data instance v)) eqn:Hnull.
  - intros H; inversion H; subst; left; now apply null_allowed_true.
  - destruct (js_toString (Field_clean data instance v)) as [s|e];
      cbn [bind]; [|discriminate].
    destruct (existsb (sameValueZero (VStr s)) (choices data)) eqn:Hin;
      cbn [negb]; [|discriminate].
    intros H; inversion H; subst; right; exists s; split; [reflexivity|].
    apply existsb_exists in Hin; destruct Hin as [c [Hc Heq]].
    apply sameValueZero_str in Heq; now subst.
Qed.

(** X5.  When a list field accepts a value, the value is an array of at
    most [maxItems] elements and the result is an array that is never
    longer; with [removeDuplicates] no two elements of the result are
    the same value, and without it the result has the length of the
    input. *)
Theorem X5_list_clean_respects_maxItems_and_removes_duplicates :
  forall (data : FieldData) (itemsType : option descriptor) (h : heap)
         (now : value) (instance : string -> value) (v out : value),
    clean (ListField data itemsType) h now instance v = Ok out ->
    exists r items r' items',
      Field_clean data instance v = VList r items
      /\ out = VList r' items'
      /\ (forall m, maxItems data = Some m ->
            (Z.of_nat (length items) <= m)%Z)
      /\ length items' <= length items
      /\ (removeDuplicates data = true -> distinct_values items')
      /\ (removeDuplicates data = false -> length items' = length items).
Proof.
  intros data itemsType h now instance v out; cbn [clean].
  unfold ListField_clean; cbv zeta.
  destruct (Field_clean data instance v) as [| | | | | | |r items| |];
    try discriminate.
  assert (Hmax : forall b : bool,
             (if match maxItems data with
                 | Some m => Z.ltb m (Z.of_nat (length items))
                 | None => false
                 end then true else false) = b ->
             b = false ->
             forall m, maxItems data = Some m ->
               (Z.of_nat (length items) <= m)%Z).
  { intros b Hb -> m Hm; rewrite Hm in Hb.
    destruct (Z.ltb_spec m (Z.of_nat (length items))); [discriminate | lia]. }
  destruct (match maxItems data with
            | Some m => Z.ltb m (Z.of_nat (length items))
            | None => false
            end) eqn:Hlen; [discriminate|].
  specialize (Hmax false eq_refl eq_refl).
  assert (Hend : forall r1 l1,
             length l1 = length items ->
             (if removeDuplicates data
              then Ok (VList 0 (Array_from_Set l1))
              else Ok (VList r1 l1)) = Ok out ->
             exists r0 items0 r' items',
               VList r items = VList r0 items0
               /\ out = VList r' items'
               /\ (forall m, maxItems data = Some m ->
                     (Z.of_nat (length items0) <= m)%Z)
               /\ length items' <= length items0
               /\ (removeDuplicates data = true -> distinct_values items')
               /\ (removeDuplicates data = false ->
                   length items' = length items0)).
  { intros r1 l1 Hl1.
    destruct (removeDuplicates data) eqn:Hdup; intros Hok; inversion Hok;
      subst.
    - destruct (dedup_from_spec l1 []) as [Hd [_ Hle]].
      exists r, items, 0, (Array_from_Set l1); unfold Array_from_Set.
      repeat split; auto; try lia; discriminate.
    - exists r, items, r1, l1; repeat split; auto; try lia; discriminate. }
  destruct itemsType as [t|]; cbn [bind].
  - destruct (clean_items (clean t h now instance) items) as [l1|e] eqn:Hl;
      cbn [bind]; [|discriminate].
    apply Hend; eapply clean_items_length; eauto.
  - now apply Hend.
Qed.


(** X7.  A descriptor with a [source] alias cleans the aliased property
    of the owner and never looks at the value stored for the field: for
    every class of the catalogue, two stored values give the same
    result. *)
Theorem X7_source_alias_replaces_the_stored_value :
  forall (d : descriptor) (h : heap) (now : value)
         (instance : string -> value) (alias : string) (v v' : value),
    source_of (_data d) = Some alias ->
    clean d h now instance v = clean d h now instance v'
    /\ clean d h now instance v = clean d h now instance (instance alias).
Proof.
  intros d h now instance alias v v' Hsrc.
  assert (Hf : forall x, Field_clean (_data d) instance x = instance alias)
    by (intros x; unfold Field_clean; now rewrite Hsrc).
  destruct d; cbn [clean _data] in *;
    unfold BooleanField_clean, NumericField_clean, EmailField_clean,
      StringField_clean, DateField_clean, ChoiceField_clean,
      ListField_clean, DictionaryField_clean, ForeignKeyField_clean;
    rewrite !Hf; split; reflexivity.
Qed.

End FieldCatalogue.

(** X2 at a numeric field with the bounds 0 and 10 and the value 5. *)
Lemma X2_numeric_clean_is_within_bounds_witness :
  clean (P := ref_platform) (NumericField score_data) empty_heap t1
    no_owner (VNum 5)
  = Ok (VNum 5)
  /\ ((VNum 5 = VNull /\ canBeNull score_data = true)
      \/ exists n, VNum 5 = VNum n
           /\ (forall m, min score_data = Some m -> (m <= n)%Z)
           /\ (forall m, max score_data = Some m -> (n <= m)%Z)).
Proof.
  split; [reflexivity|].
  exact (@X2_numeric_clean_is_within_bounds ref_platform score_data
           empty_heap t1 no_owner (VNum 5) (VNum 5) eq_refl).
Defined.

(** X3 at a string field with [maxLength] 1 and the euro sign, which
    has three bytes and is one code unit: it passes. *)
Lemma X3_string_clean_length_tests_witness :
  (Field_clean one_unit_data no_owner (VStr "€") = VStr "€"
   /\ String.length "€" = 3 /\ js_length "€" = 1)
  /\ clean (P := ref_platform) (StringField one_unit_data) empty_heap t1
       no_owner (VStr "€")
     = Ok (VStr "€")
  /\ ((clean (P := ref_platform) (StringField one_unit_data) empty_heap t1
         no_owner (VStr "€") = Ok (VStr "€")
       <-> (forall m, maxLength one_unit_data = Some m ->
              (Z.of_nat (js_length "€") <= m)%Z)
           /\ (forall m, minLength one_unit_data = Some m ->
                 (Z.of_nat (js_length "€") <= m)%Z))
      /\ (succeeds (clean (P := ref_platform) (StringField one_unit_data)
                      empty_heap t1 no_owner (VStr "€")) = true ->
          clean (P := ref_platform) (StringField one_unit_data) empty_heap t1
            no_owner (VStr "€") = Ok (VStr "€"))).
Proof.
  split; [repeat split|split; [reflexivity|]].
  exact (@X3_string_clean_length_tests ref_platform one_unit_data empty_heap
           t1 no_owner (VStr "€") "€" eq_refl).
Defined.

(** X4 at a choice field with the choices ["lab"] and ["golden"]. *)
Lemma X4_choice_clean_returns_a_string_choice_witness :
  clean (P := ref_platform) (ChoiceField breed_data) empty_heap t1
    no_owner (VStr "lab")
  = Ok (VStr "lab")
  /\ ((VStr "lab" = VNull /\ canBeNull breed_data = true)
      \/ exists s, VStr "lab" = VStr s /\ In (VStr s) (choices breed_data)).
Proof.
  split; [reflexivity|].
  exact (@X4_choice_clean_returns_a_string_choice ref_platform breed_data
           empty_heap t1 no_owner (VStr "lab") (VStr "lab") eq_refl).
Defined.

(** X5 at a list field with [maxItems] 3 and [removeDuplicates]:
    [[1, 2, 2]] becomes [[1, 2]]. *)
Lemma X5_list_clean_respects_maxItems_and_removes_duplicates_witness :
  clean (P := ref_platform) (ListField tags_data None) empty_heap t1
    no_owner (VList 7 [VNum 1; VNum 2; VNum 2])
  = Ok (VList 0 [VNum 1; VNum 2])
  /\ exists r items r' items',
       Field_clean tags_data no_owner (VList 7 [VNum 1; VNum 2; VNum 2])
       = VList r items
       /\ VList 0 [VNum 1; VNum 2] = VList r' items'
       /\ (forall m, maxItems tags_data = Some m ->
             (Z.of_nat (length items) <= m)%Z)
       /\ length items' <= length items
       /\ (removeDuplicates tags_data = true -> distinct_values items')
       /\ (removeDuplicates tags_data = false ->
           length items' = length items).
Proof.
  split; [reflexivity|].
  exact (@X5_list_clean_respects_maxItems_and_removes_duplicates
           ref_platform tags_data None empty_heap t1 no_owner
           (VList 7 [VNum 1; VNum 2; VNum 2]) (VList 0 [VNum 1; VNum 2])
           eq_refl).
Defined.


(** X7 at a generic field with the alias [name] on an owner named
    ["Rex"]. *)
Lemma X7_source_alias_replaces_the_stored_value_witness :
  source_of (_data (GenericField alias_data)) = Some "name"
  /\ clean (P := ref_platform) (GenericField alias_data) empty_heap t1
       rex_owner (VNum 1)
     = Ok (VStr "Rex")
  /\ (clean (P := ref_platform) (GenericField alias_data) empty_heap t1
        rex_owner (VNum 1)
      = clean (P := ref_platform) (GenericField alias_data) empty_heap t1
          rex_owner VNull
      /\ clean (P := ref_platform) (GenericField alias_data) empty_heap t1
           rex_owner (VNum 1)
         = clean (P := ref_platform) (GenericField alias_data) empty_heap t1
             rex_owner (rex_owner "name")).
Proof.
  split; [reflexivity|split; [reflexivity|]].
  exact (@X7_source_alias_replaces_the_stored_value ref_platform
           (GenericField alias_data) empty_heap t1 rex_owner "name"
           (VNum 1) VNull eq_refl).
Defined.

(* ================================================================== *)
(** ** Further properties of the generated properties and the dirty set *)
(* ================================================================== *)

Lemma obj_set_idempotent :
  forall k v o, obj_set k v (obj_set k v o) = obj_set k v o.
Proof.
  intros k v o; induction o as [|[k2 v2] rest IH]; simpl.
  - now rewrite String.eqb_refl.
  - destruct (String.eqb k k2) eqn:E; simpl; rewrite E; [reflexivity|].
    now rewrite IH.
Qed.

Lemma Set_has_add : forall k s, Set_has k (Set_add k s) = true.
Proof.
  intros k s; unfold Set_add.
  destruct (Set_has k s) eqn:E; [assumption|].
  unfold Set_has; rewrite existsb_app; simpl.
  now rewrite String.eqb_refl, orb_true_r.
Qed.

Lemma Set_add_idempotent :
  forall k s, Set_add k (Set_add k s) = Set_add k s.
Proof.
  intros k s; unfold Set_add at 1; now rewrite Set_has_add.
Qed.

Lemma Set_add_In :
  forall k p s, In k (Set_add p s) <-> k = p \/ In k s.
Proof.
  intros k p s; unfold Set_add.
  destruct (Set_has p s) eqn:E.
  - apply Set_has_In in E; split; [auto | intros [->|H]; assumption].
  - rewrite in_app_iff; simpl; intuition.
Qed.

Lemma Set_add_NoDup : forall p s, NoDup s -> NoDup (Set_add p s).
Proof.
  intros p s Hnd; unfold Set_add.
  destruct (Set_has p s) eqn:E; [assumption|].
  apply Set_has_false in E.
  apply NoDup_app; [assumption | repeat constructor; intros [] |].
  intros x Hx [<-|[]]; contradiction.
Qed.

(** X8.  Assigning a property the value it was just assigned changes
    nothing: the generated setter (of any descriptor) and the plain
    assignment of an unregistered property are idempotent on the whole
    wrapper, dirty set included. *)
Theorem X8_assigning_twice_is_assigning_once :
  forall (h : heap) (w : ModelInstanceWrapper) (p : string) (v : value),
    object_set h (object_set h w p v) p v = object_set h w p v.
Proof.
  intros h w p v.
  destruct (getFieldDescriptor w p) as [d|] eqn:Hd.
  - destruct (isEqual d h v (obj_get p (_fields w))) eqn:Heq.
    + assert (E1 : object_set h w p v = w)
        by (unfold object_set; now rewrite Hd, Heq).
      now rewrite !E1.
    + assert (E1 : object_set h w p v
                   = with_dirtyFields
                       (with_fields w (obj_set p v (_fields w)))
                       (Set_add p (_dirtyFields w)))
        by (unfold object_set; now rewrite Hd, Heq).
      rewrite E1; unfold object_set at 1; unfold getFieldDescriptor in *.
      cbn [_classWrapper with_dirtyFields with_fields _fields _dirtyFields].
      rewrite Hd, obj_get_set_same.
      destruct (isEqual d h v v); [reflexivity|].
      destruct w; unfold with_dirtyFields, with_fields; simpl.
      now rewrite obj_set_idempotent, Set_add_idempotent.
  - assert (E1 : object_set h w p v = with_object w (obj_set p v (_object w)))
      by (unfold object_set; now rewrite Hd).
    rewrite E1; unfold object_set, getFieldDescriptor in *.
    cbn [_classWrapper with_object _object].
    rewrite Hd; destruct w; unfold with_object; simpl.
    now rewrite obj_set_idempotent.
Qed.

Lemma object_set_dirty_wf :
  forall h w p v,
    (NoDup (_dirtyFields w)
     /\ forall k, In k (_dirtyFields w) -> In k (fieldNames w)) ->
    NoDup (_dirtyFields (object_set h w p v))
    /\ forall k, In k (_dirtyFields (object_set h w p v)) ->
         In k (fieldNames (object_set h w p v)).
Proof.
  intros h w p v [Hnd Hreg].
  assert (Hnames : fieldNames (object_set h w p v) = fieldNames w).
  { unfold fieldNames; f_equal; unfold object_set.
    destruct (getFieldDescriptor w p) as [d|]; [|reflexivity].
    destruct (isEqual d h v (obj_get p (_fields w))); reflexivity. }
  rewrite Hnames; unfold object_set.
  destruct (getFieldDescriptor w p) as [d|] eqn:Hd; [|split; assumption].
  destruct (isEqual d h v (obj_get p (_fields w))); [split; assumption|].
  cbn [_dirtyFields with_dirtyFields]; split.
  - now apply Set_add_NoDup.
  - intros k Hk; apply Set_add_In in Hk; destruct Hk as [->|Hk]; [|auto].
    unfold fieldNames, ClassWrapper_fieldNames.
    destruct (in_dec string_dec p (Object_keys (fields (_md (_classWrapper w)))))
      as [Hin|Hin]; [assumption|].
    apply obj_lookup_None_keys in Hin.
    unfold getFieldDescriptor, ClassWrapper_getFieldDescriptor in Hd.
    congruence.
Qed.

Section DirtySet.
Context {P : Platform}.

Lemma set_defaults_dirty_wf :
  forall h names alloc w w',
    (NoDup (_dirtyFields w)
     /\ forall k, In k (_dirtyFields w) -> In k (fieldNames w)) ->
    set_defaults h names alloc w = Ok w' ->
    NoDup (_dirtyFields w')
    /\ forall k, In k (_dirtyFields w') -> In k (fieldNames w').
Proof.
  intros h names; induction names as [|f rest IH]; simpl;
    intros alloc w w' Hwf Hset.
  - now inversion Hset; subst.
  - destruct (getDefault w f alloc) as [v|e]; simpl in Hset; [|discriminate].
    eapply IH; [|exact Hset]; now apply object_set_dirty_wf.
Qed.

(** X9.  From the constructor on and through any sequence of
    assignments, the dirty set lists only names of registered fields and
    lists no name twice. *)
Theorem X9_dirty_set_holds_registered_names_once :
  forall (cls : ModelClass) (h h' : heap) (alloc : ref)
         (w : ModelInstanceWrapper) (es : list (string * value)),
    Model_constructor cls h alloc = Ok w ->
    NoDup (_dirtyFields (assign h' w es))
    /\ forall k, In k (_dirtyFields (assign h' w es)) ->
         In k (fieldNames (assign h' w es)).
Proof.
  intros cls h h' alloc w es Hnew.
  assert (Hw : NoDup (_dirtyFields w)
               /\ forall k, In k (_dirtyFields w) -> In k (fieldNames w)).
  { unfold Model_constructor in Hnew.
    destruct (mongore cls) as [cw|]; [|discriminate].
    eapply set_defaults_dirty_wf; [|exact Hnew].
    split; [constructor | intros k []]. }
  clear Hnew; revert w Hw.
  induction es as [|[p v] rest IH]; simpl; intros w Hw; [assumption|].
  apply IH; now apply object_set_dirty_wf.
Qed.

End DirtySet.

(** X9 at a new dog that is then renamed twice. *)
Lemma X9_dirty_set_holds_registered_names_once_witness :
  Model_constructor (P := ref_platform) Dog empty_heap 10 = Ok fresh_dog
  /\ (NoDup (_dirtyFields
               (assign empty_heap fresh_dog
                  [("name", VStr "Rex"); ("name", VStr "Max")]))
      /\ forall k,
           In k (_dirtyFields
                   (assign empty_heap fresh_dog
                      [("name", VStr "Rex"); ("name", VStr "Max")])) ->
           In k (fieldNames
                   (assign empty_heap fresh_dog
                      [("name", VStr "Rex"); ("name", VStr "Max")]))).
Proof.
  split; [reflexivity|].
  exact (@X9_dirty_set_holds_registered_names_once ref_platform Dog
           empty_heap empty_heap 10 fresh_dog
           [("name", VStr "Rex"); ("name", VStr "Max")] eq_refl).
Defined.

Lemma object_set_getFieldDescriptor :
  forall h w p v q,
    getFieldDescriptor (object_set h w p v) q = getFieldDescriptor w q.
Proof.
  intros h w p v q; unfold getFieldDescriptor.
  now rewrite object_set_classWrapper.
Qed.

(** X10.  The generated accessor pair, on an instance that still holds
    its wrapper, of a class on which [buildModel] returned and that has
    no field named [mongore].  After [instance[p] = v] on a field whose
    descriptor keeps the equality of [Field], [instance[p]] is [v]
    itself or a value [===] to it; and the assignment (for every
    descriptor) leaves every other field as it reads. *)
Theorem X10_property_read_after_assignment :
  forall (st : ClassState) (modelData : ModelData) (h : heap)
         (w : ModelInstanceWrapper) (p : string) (v : value),
    registered_by st modelData ->
    _classWrapper w = {| _class := name (cs_class st); _md := modelData |} ->
    ~ In "mongore" (Object_keys (fields modelData)) ->
    obj_lookup "mongore" (_object w) = None ->
    In p (Object_keys (fields modelData)) ->
    ((forall d, getFieldDescriptor w p = Some d -> keeps_Field_isEqual d) ->
     object_get (object_set h w p v) p = v
     \/ strict_eq v (object_get (object_set h w p v) p) = true)
    /\ forall q, q <> p -> In q (Object_keys (fields modelData)) ->
         object_get (object_set h w p v) q = object_get w q.
Proof.
  intros st modelData h w p v _ Hcw _ _ Hp.
  assert (Hreg : getFieldDescriptor w p <> None).
  { unfold getFieldDescriptor, ClassWrapper_getFieldDescriptor.
    rewrite Hcw; cbn [_md]; intros Habs.
    now apply obj_lookup_None_keys in Habs. }
  split.
  - intros Hd; unfold object_get; rewrite object_set_getFieldDescriptor.
    unfold object_set.
    destruct (getFieldDescriptor w p) as [d|] eqn:E; [|contradiction].
    specialize (Hd d eq_refl).
    destruct d; try contradiction; cbn [isEqual]; unfold Field_isEqual;
      (destruct (strict_eq v (obj_get p (_fields w))) eqn:Heq;
       [right; assumption
       | left; cbn [_fields with_dirtyFields with_fields];
         apply obj_get_set_same]).
  - intros q Hq _; unfold object_get; rewrite object_set_getFieldDescriptor.
    unfold object_set.
    destruct (getFieldDescriptor w p) as [d|] eqn:E; [|contradiction].
    destruct (isEqual d h v (obj_get p (_fields w))); [reflexivity|].
    cbn [_fields _object with_dirtyFields with_fields].
    now rewrite obj_get_set_other.
Qed.

(** X10 at the saved dog and its field [name]. *)
Lemma X10_property_read_after_assignment_witness :
  (registered_by Dog_unbuilt Dog_data
   /\ _classWrapper saved_dog
      = {| _class := name (cs_class Dog_unbuilt); _md := Dog_data |}
   /\ ~ In "mongore" (Object_keys (fields Dog_data))
   /\ obj_lookup "mongore" (_object saved_dog) = None
   /\ In "name" (Object_keys (fields Dog_data))
   /\ object_get (object_set empty_heap saved_dog "name" (VStr "Rex")) "name"
      = VStr "Rex")
  /\ (((forall d, getFieldDescriptor saved_dog "name" = Some d ->
          keeps_Field_isEqual d) ->
       object_get (object_set empty_heap saved_dog "name" (VStr "Rex")) "name"
       = VStr "Rex"
       \/ strict_eq (VStr "Rex")
            (object_get (object_set empty_heap saved_dog "name" (VStr "Rex"))
               "name") = true)
      /\ forall q, q <> "name" -> In q (Object_keys (fields Dog_data)) ->
           object_get (object_set empty_heap saved_dog "name" (VStr "Rex")) q
           = object_get saved_dog q).
Proof.
  assert (Hfree : ~ In "mongore" (Object_keys (fields Dog_data)))
    by (simpl; intuition discriminate).
  split.
  - split; [exact (proj1 Dog_is_registered)|].
    split; [reflexivity|split; [exact Hfree|split; [reflexivity|]]].
    split; [now left | reflexivity].
  - exact (@X10_property_read_after_assignment Dog_unbuilt Dog_data
             empty_heap saved_dog "name" (VStr "Rex")
             (proj1 Dog_is_registered) eq_refl Hfree eq_refl
             (or_introl eq_refl)).
Defined.

(* ================================================================== *)
(** ** Further properties of save, load and reload *)
(* ================================================================== *)

Section SaveAndLoad.
Context {P : Platform}.

Lemma save_request_document :
  forall hk c h now w forceSave w2 r,
    save hk c h now w forceSave = (w2, Ok (Some r)) ->
    w2 = beforeSaveToDB hk w
    /\ toDocument h now w2 (isInDB w2) = Ok (request_obj r)
    /\ r = (if isInDB w2
            then UpdateOne (id_query w2) (request_obj r) (get_collectionName w2)
            else InsertOne (request_obj r) (get_collectionName w2))
    /\ _isReady c = true.
Proof.
  intros hk c h now w forceSave w2 r; unfold save.
  destruct (isInDB (beforeSaveToDB hk w)) eqn:HinDB.
  - destruct (forceSave || isDirty (beforeSaveToDB hk w));
      [|intros H; inversion H].
    destruct (toDocument h now (beforeSaveToDB hk w) true) as [doc|e] eqn:Hd;
      cbn [bind]; [|intros H; inversion H].
    unfold updateOne, validateReady; destruct (_isReady c); cbn [bind negb];
      intros H; inversion H; subst; clear H.
    rewrite HinDB; repeat split; assumption.
  - destruct (toDocument h now (beforeSaveToDB hk w) false) as [doc|e] eqn:Hd;
      cbn [bind]; [|intros H; inversion H].
    unfold insertOne, validateReady; destruct (_isReady c); cbn [bind negb];
      intros H; inversion H; subst; clear H.
    rewrite HinDB; repeat split; assumption.
Qed.

(** X11.  The creation time.  Every document a save writes carries the
    current time as last-update time and, as creation time, the one the
    instance holds, or the current time if it holds none.  The instance
    takes its creation time from the storage's answer when the answer
    carries one and keeps its own otherwise; so an instance that holds a
    creation time and is answered with the document it wrote, or with an
    answer that carries none, holds the same creation time after the
    save. *)
Theorem X11_creation_time_is_written_and_kept :
  forall (c : MongoConnection) (h : heap) (now : value)
         (w w2 : ModelInstanceWrapper) (forceSave : bool) (r : request)
         (data : jsobject) (onSuccess : option callback),
    save Model_hooks c h now w forceSave = (w2, Ok (Some r)) ->
    obj_get "_dbLastUpdateTime" (request_obj r) = now
    /\ obj_get "_dbCreationTime" (request_obj r)
       = or_else (creationTime w) now
    /\ creationTime (fst (save_onSuccess Model_hooks w2 data onSuccess))
       = or_else (obj_get "_dbCreationTime" data) (creationTime w)
    /\ (truthy (creationTime w) = true ->
        data = request_obj r \/ obj_get "_dbCreationTime" data = VUndefined ->
        creationTime (fst (save_onSuccess Model_hooks w2 data onSuccess))
        = creationTime w).
Proof.
  intros c h now w w2 forceSave r data onSuccess Hsave.
  destruct (save_request_document _ _ _ _ _ _ Hsave) as [Hw2 [Hdoc _]].
  cbn [beforeSaveToDB Model_hooks] in Hw2; subst w2.
  destruct (toDocument_inv _ _ _ _ Hdoc) as [ret [_ Hstamp]].
  assert (Hlast : obj_get "_dbLastUpdateTime" (request_obj r) = now).
  { rewrite Hstamp; unfold stamp_metadata.
    rewrite !obj_get_set_other by discriminate.
    apply obj_get_set_same. }
  assert (Hct : obj_get "_dbCreationTime" (request_obj r)
                = or_else (creationTime w) now).
  { rewrite Hstamp; unfold stamp_metadata.
    rewrite obj_get_set_other by discriminate.
    now rewrite !obj_get_set_same. }
  assert (Hafter :
            creationTime (fst (save_onSuccess Model_hooks w data onSuccess))
            = or_else (obj_get "_dbCreationTime" data) (creationTime w)).
  { unfold creationTime; cbn [fst save_onSuccess]; unfold _afterSaveToDB.
    cbn [afterSavedToDB Model_hooks _fields with_fields with_dirtyFields
           with_flags].
    rewrite !obj_get_set_other by discriminate.
    apply obj_get_set_same. }
  repeat split; try assumption.
  intros Htruthy [->|Hnone]; rewrite Hafter.
  - rewrite Hct; unfold or_else; rewrite Htruthy; now rewrite Htruthy.
  - now rewrite Hnone.
Qed.

(** X12.  With a client that is not connected nothing reaches the
    storage: [save] never hands over a request, and [delete] and a
    [reload] of an instance in storage throw the error of
    [validateReady]. *)
Theorem X12_nothing_is_requested_without_a_connection :
  forall (hk : Hooks) (c : MongoConnection) (h : heap) (now : value)
         (w : ModelInstanceWrapper) (forceSave : bool),
    _isReady c = false ->
    (forall r, snd (save hk c h now w forceSave) <> Ok (Some r))
    /\ delete c w = Throw (Error "DB is not connected!")
    /\ (isInDB w = true -> reload c w = Throw (Error "DB is not connected!")).
Proof.
  intros hk c h now w forceSave Hready; split; [|split].
  - intros r Hr.
    destruct (save hk c h now w forceSave) as [w2 out] eqn:Hsave.
    cbn [snd] in Hr; subst out.
    destruct (save_request_document _ _ _ _ _ _ Hsave) as [_ [_ [_ Hc]]].
    congruence.
  - unfold delete, deleteOne, validateReady; now rewrite Hready.
  - intros HinDB; unfold reload, findOne, validateReady.
    now rewrite HinDB, Hready.
Qed.

Lemma toDocument_loop_covers :
  forall h now w keys ret ret',
    toDocument_loop h now w false keys ret = Ok ret' ->
    forall k, In k (Object_keys ret) \/ In k keys -> In k (Object_keys ret').
Proof.
  intros h now w keys; induction keys as [|key rest IH]; simpl;
    intros ret ret' Hloop k Hk.
  - inversion Hloop; subst; destruct Hk as [Hk|[]]; assumption.
  - destruct (clean_field h now w key) as [c0|e]; cbn [bind] in Hloop;
      [|discriminate].
    apply (IH _ _ Hloop k).
    destruct Hk as [Hk|[->|Hk]]; [left|left|right; assumption];
      apply keys_obj_set; auto.
Qed.

(** X13.  The first save of an instance that is not in storage is an
    insert of the whole field map: every key of the field map is a key
    of the inserted document, and every key that is no bookkeeping key
    carries its cleaned value, dirty or not. *)
Theorem X13_insert_carries_every_field :
  forall (hk : Hooks) (c : MongoConnection) (h : heap) (now : value)
         (w w2 : ModelInstanceWrapper) (forceSave : bool) (r : request),
    isInDB (beforeSaveToDB hk w) = false ->
    save hk c h now w forceSave = (w2, Ok (Some r)) ->
    r = InsertOne (request_obj r) (get_collectionName w2)
    /\ (forall k, In k (Object_keys (_fields w2)) ->
          In k (Object_keys (request_obj r)))
    /\ (forall k, In k (Object_keys (_fields w2)) -> ~ In k bookkeeping ->
          clean_field h now w2 k = Ok (obj_get k (request_obj r))).
Proof.
  intros hk c h now w w2 forceSave r HnotIn Hsave.
  destruct (save_request_document _ _ _ _ _ _ Hsave)
    as [Hw2 [Hdoc [Hr _]]].
  subst w2; rewrite HnotIn in *.
  destruct (toDocument_inv _ _ _ _ Hdoc) as [ret [Hloop Hstamp]].
  split; [assumption|split].
  - intros k Hk; rewrite Hstamp; unfold stamp_metadata.
    rewrite !keys_obj_set; right; right; right.
    eapply toDocument_loop_covers; eauto.
  - intros k Hk Hbook; rewrite Hstamp.
    rewrite stamp_metadata_other by assumption.
    apply (toDocument_loop_values _ _ _ _ _ _ Hloop k); [assumption|].
    reflexivity.
Qed.

Lemma setFields_loop_stores :
  forall h data keys alloc w,
    (forall f d, getFieldDescriptor w f = Some d ->
       source_of (_data d) = None) ->
    _classWrapper (fst (setFields_loop h alloc data keys w)) = _classWrapper w
    /\ (forall k, ~ In k keys ->
          obj_get k (_fields (fst (setFields_loop h alloc data keys w)))
          = obj_get k (_fields w))
    /\ (forall k, In k keys ->
          match getFieldDescriptor w k with
          | Some (ForeignKeyField _ _) =>
              exists a,
                obj_get k (_fields (fst (setFields_loop h alloc data keys w)))
                = VInst a
          | _ =>
              obj_get k (_fields (fst (setFields_loop h alloc data keys w)))
              = obj_get k data
          end).
Proof.
  intros h data keys; induction keys as [|key rest IH]; intros alloc w Hsrc.
  - cbn [setFields_loop fst]; repeat split; auto; intros k [].
  - cbn [setFields_loop].
    assert (Hstep : exists v,
               (match getFieldDescriptor w key with
                | Some d => initAfterLoad d h alloc w (obj_get key data)
                | None => (w, obj_get key data, [])
                end) = (w, v, snd (match getFieldDescriptor w key with
                                   | Some d =>
                                       initAfterLoad d h alloc w
                                         (obj_get key data)
                                   | None => (w, obj_get key data, [])
                                   end))
               /\ match getFieldDescriptor w key with
                  | Some (ForeignKeyField _ _) => exists a, v = VInst a
                  | _ => v = obj_get key data
                  end).
    { destruct (getFieldDescriptor w key) as [d|] eqn:Hd; [|eauto].
      specialize (Hsrc key d Hd).
      destruct d; cbn [initAfterLoad _data] in *;
        unfold Field_initAfterLoad; rewrite Hsrc; cbn [snd]; eauto. }
    destruct Hstep as [v [Hstep Hv]]; rewrite Hstep; clear Hstep.
    set (w2 := with_fields w (obj_set key v (_fields w))).
    assert (Hsrc2 : forall f d, getFieldDescriptor w2 f = Some d ->
                      source_of (_data d) = None) by exact Hsrc.
    destruct (IH (S alloc) w2 Hsrc2) as [Hcw [Hout Hin]].
    destruct (setFields_loop h (S alloc) data rest w2) as [w3 ev'].
    cbn [fst] in *; split; [exact Hcw|split].
    + intros k Hk; rewrite Hout by (intros Habs; apply Hk; now right).
      subst w2; cbn [_fields with_fields].
      apply obj_get_set_other; intros ->; apply Hk; now left.
    + intros k Hk.
      destruct (in_dec string_dec k rest) as [Hrest|Hrest].
      * exact (Hin k Hrest).
      * destruct Hk as [->|Hk]; [|contradiction].
        rewrite (Hout k Hrest); subst w2; cbn [_fields with_fields].
        rewrite obj_get_set_same.
        destruct (getFieldDescriptor w k) as [[]|]; assumption.
Qed.

(** X14.  Hydration (hooks of [Model]) of an instance of a class without
    [source] aliases, from a document none of whose keys is the name of
    a member of [Object.prototype] or a foreign-key field: every key of
    the fetched document ends up in the field map with the document's
    value; the fields the document does not mention keep their value;
    the dirty set is empty, the instance is marked loaded and its last
    load time is the current time. *)
Theorem X14_hydration_stores_the_document :
  forall (h : heap) (now : value) (alloc : ref) (w : ModelInstanceWrapper)
         (data : jsobject),
    (forall f d, getFieldDescriptor w f = Some d ->
       source_of (_data d) = None) ->
    (forall k, In k (Object_keys data) ->
       ~ In k Object_prototype
       /\ forall d, getFieldDescriptor w k = Some d -> keeps_Field_isEqual d) ->
    let w' := fst (_setFromDBDocument Model_hooks h now alloc w data true) in
    (forall k, In k (Object_keys data) ->
       obj_get k (_fields w') = obj_get k data)
    /\ (forall k, ~ In k (Object_keys data) ->
          obj_get k (_fields w') = obj_get k (_fields w))
    /\ _dirtyFields w' = []
    /\ isLoadedFromDB w' = true
    /\ _lastLoadTime w' = now.
Proof.
  intros h now alloc w data Hsrc Hkeys w'; subst w'.
  destruct (setFields_loop_stores h data (Object_keys data) alloc w Hsrc)
    as [Hcw [Hout Hin]].
  unfold _setFromDBDocument.
  destruct (setFields_loop h alloc data (Object_keys data) w) as [w1 ev].
  cbn [fst] in *.
  unfold _afterLoadFromDB; cbn [afterLoadedFromDB Model_hooks fst].
  cbn [_fields _dirtyFields isLoadedFromDB _isLoadedFromDB _lastLoadTime
         with_flags with_dirtyFields].
  split; [|repeat split; assumption].
  intros k Hk; specialize (Hin k Hk).
  destruct (Hkeys k Hk) as [_ Hkeep].
  destruct (getFieldDescriptor w k) as [d|]; [|assumption].
  specialize (Hkeep d eq_refl).
  destruct d; try assumption; contradiction.
Qed.

(** X15.  The setter of [onLoaded]: on a new instance it only stores
    the callback; on an instance that has been hydrated it also invokes
    it at once, and does so again each time a callback is assigned;
    assigning [null] invokes nothing. *)
Theorem X15_onLoaded_on_a_loaded_instance_is_invoked_at_once :
  forall (cls : ModelClass) (h h' : heap) (alloc alloc' : ref)
         (w : ModelInstanceWrapper) (cb : callback) (now : value)
         (data : jsobject),
    Model_constructor cls h alloc = Ok w ->
    let loaded :=
      fst (_setFromDBDocument Model_hooks h' now alloc' w data true) in
    set_onLoaded w (Some cb) = (with_onFirstLoad w (Some cb), [])
    /\ set_onLoaded loaded (Some cb)
       = (with_onFirstLoad loaded (Some cb), [Invoke cb])
    /\ invocations cb
         (snd (set_onLoaded loaded (Some cb))
          ++ snd (set_onLoaded (fst (set_onLoaded loaded (Some cb)))
                    (Some cb)))
       = 2
    /\ snd (set_onLoaded loaded None) = [].
Proof.
  intros cls h h' alloc alloc' w cb now data Hnew loaded.
  destruct (Model_constructor_frame _ _ _ Hnew) as [_ Hfresh].
  assert (Hl : _isLoadedFromDB loaded = true).
  { subst loaded; unfold _setFromDBDocument.
    destruct (setFields_loop h' alloc' data (Object_keys data) w) as [w1 ev].
    reflexivity. }
  unfold set_onLoaded; cbn [_isLoadedFromDB with_onFirstLoad fst snd].
  rewrite Hfresh, Hl; cbn [call app].
  repeat split.
  unfold invocations; cbn [filter length]; now rewrite Nat.eqb_refl.
Qed.

Lemma set_defaults_not_saved :
  forall h names alloc w w',
    set_defaults h names alloc w = Ok w' ->
    _isSavedToDB w' = _isSavedToDB w.
Proof.
  intros h names; induction names as [|f rest IH]; simpl;
    intros alloc w w' Hset.
  - now inversion Hset.
  - destruct (getDefault w f alloc) as [v|e]; simpl in Hset; [|discriminate].
    rewrite (IH _ _ _ Hset).
    now destruct (object_set_frame h w f v) as [_ [_ [_ F]]].
Qed.

(** X16.  [reload] needs an instance that is in storage.  On a new
    instance it throws before the client is called, connected or not;
    once a save of the instance has been answered (hooks of [Model]) and
    the client is connected, it asks for the document with the
    instance's id. *)
Theorem X16_reload_requires_presence_in_storage :
  forall (cls : ModelClass) (c : MongoConnection) (h : heap) (alloc : ref)
         (w : ModelInstanceWrapper) (data : jsobject)
         (onSuccess : option callback),
    Model_constructor cls h alloc = Ok w ->
    reload c w
    = Throw (Error "Cannot call 'reload()' on instances that were not load / saved to DB!")
    /\ (_isReady c = true ->
        reload c (fst (save_onSuccess Model_hooks w data onSuccess))
        = Ok (FindOne
                (id_query (fst (save_onSuccess Model_hooks w data onSuccess)))
                (get_collectionName w))).
Proof.
  intros cls c h alloc w data onSuccess Hnew.
  destruct (Model_constructor_frame _ _ _ Hnew) as [_ Hfresh].
  assert (Hs : _isSavedToDB w = false).
  { unfold Model_constructor in Hnew.
    destruct (mongore cls) as [cw|]; [|discriminate].
    now rewrite (set_defaults_not_saved _ _ _ _ Hnew). }
  split.
  - unfold reload, isInDB, isLoadedFromDB, isSavedToDB.
    now rewrite Hfresh, Hs.
  - intros Hready; unfold reload, isInDB, isLoadedFromDB, isSavedToDB.
    cbn [fst save_onSuccess].
    replace (_isSavedToDB (_afterSaveToDB Model_hooks w data)) with true
      by reflexivity.
    rewrite orb_true_r; cbn [negb].
    unfold findOne, validateReady; rewrite Hready; reflexivity.
Qed.

End SaveAndLoad.

(** X11 at the renamed dog, whose update at [t2] is answered with the
    document written: the creation time [t1] is written and kept. *)
Lemma X11_creation_time_is_written_and_kept_witness :
  save (P := ref_platform) Model_hooks connected empty_heap t2 renamed_dog
    false
  = (renamed_dog,
     Ok (Some (UpdateOne (VDict 0 [("_id", VUndefined)]) forced_doc "Dogs")))
  /\ creationTime renamed_dog = t1
  /\ (obj_get "_dbLastUpdateTime" forced_doc = t2
      /\ obj_get "_dbCreationTime" forced_doc
         = or_else (creationTime renamed_dog) t2
      /\ creationTime
           (fst (save_onSuccess Model_hooks renamed_dog forced_doc None))
         = or_else (obj_get "_dbCreationTime" forced_doc)
             (creationTime renamed_dog)
      /\ (truthy (creationTime renamed_dog) = true ->
          forced_doc = forced_doc
          \/ obj_get "_dbCreationTime" forced_doc = VUndefined ->
          creationTime
            (fst (save_onSuccess Model_hooks renamed_dog forced_doc None))
          = creationTime renamed_dog)).
Proof.
  split; [reflexivity|split; [reflexivity|]].
  exact (@X11_creation_time_is_written_and_kept ref_platform connected
           empty_heap t2 renamed_dog renamed_dog false
           (UpdateOne (VDict 0 [("_id", VUndefined)]) forced_doc "Dogs")
           forced_doc None eq_refl).
Defined.

(** X12 at a new dog and a client that was never connected. *)
Lemma X12_nothing_is_requested_without_a_connection_witness :
  _isReady {| _isReady := false |} = false
  /\ ((forall r,
         snd (save (P := ref_platform) Model_hooks {| _isReady := false |}
                empty_heap t1 fresh_dog false)
         <> Ok (Some r))
      /\ delete {| _isReady := false |} fresh_dog
         = Throw (Error "DB is not connected!")
      /\ (isInDB fresh_dog = true ->
          reload {| _isReady := false |} fresh_dog
          = Throw (Error "DB is not connected!"))).
Proof.
  split; [reflexivity|].
  exact (@X12_nothing_is_requested_without_a_connection ref_platform
           Model_hooks {| _isReady := false |} empty_heap t1 fresh_dog false
           eq_refl).
Defined.

(** X13 at the first save of a new dog. *)
Lemma X13_insert_carries_every_field_witness :
  (isInDB (beforeSaveToDB Model_hooks fresh_dog) = false
   /\ save (P := ref_platform) Model_hooks connected empty_heap t1 fresh_dog
        false
      = (fresh_dog,
         Ok (Some (InsertOne
                     [("name", VNull); ("breed", VNull);
                      ("_dbLastUpdateTime", t1); ("_dbCreationTime", t1);
                      ("_dbObjectVersion", VNum 1)] "Dogs"))))
  /\ (InsertOne
        [("name", VNull); ("breed", VNull); ("_dbLastUpdateTime", t1);
         ("_dbCreationTime", t1); ("_dbObjectVersion", VNum 1)] "Dogs"
      = InsertOne
          (request_obj
             (InsertOne
                [("name", VNull); ("breed", VNull);
                 ("_dbLastUpdateTime", t1); ("_dbCreationTime", t1);
                 ("_dbObjectVersion", VNum 1)] "Dogs"))
          (get_collectionName fresh_dog)
      /\ (forall k, In k (Object_keys (_fields fresh_dog)) ->
            In k (Object_keys
                    (request_obj
                       (InsertOne
                          [("name", VNull); ("breed", VNull);
                           ("_dbLastUpdateTime", t1); ("_dbCreationTime", t1);
                           ("_dbObjectVersion", VNum 1)] "Dogs"))))
      /\ (forall k, In k (Object_keys (_fields fresh_dog)) ->
            ~ In k bookkeeping ->
            clean_field (P := ref_platform) empty_heap t1 fresh_dog k
            = Ok (obj_get k
                    (request_obj
                       (InsertOne
                          [("name", VNull); ("breed", VNull);
                           ("_dbLastUpdateTime", t1); ("_dbCreationTime", t1);
                           ("_dbObjectVersion", VNum 1)] "Dogs"))))).
Proof.
  split; [split; reflexivity|].
  exact (@X13_insert_carries_every_field ref_platform Model_hooks connected
           empty_heap t1 fresh_dog fresh_dog false
           (InsertOne
              [("name", VNull); ("breed", VNull); ("_dbLastUpdateTime", t1);
               ("_dbCreationTime", t1); ("_dbObjectVersion", VNum 1)] "Dogs")
           eq_refl eq_refl).
Defined.

(** X14 at a new dog hydrated from the document of Rex. *)
Lemma X14_hydration_stores_the_document_witness :
  ((forall f d, getFieldDescriptor fresh_dog f = Some d ->
      source_of (_data d) = None)
   /\ (forall k, In k (Object_keys rex_document) ->
         ~ In k Object_prototype
         /\ forall d, getFieldDescriptor fresh_dog k = Some d ->
              keeps_Field_isEqual d)
   /\ obj_get "name"
        (_fields (fst (_setFromDBDocument Model_hooks empty_heap t1 20
                         fresh_dog rex_document true)))
      = VStr "Rex")
  /\ (let w' :=
        fst (_setFromDBDocument Model_hooks empty_heap t1 20 fresh_dog
               rex_document true) in
      (forall k, In k (Object_keys rex_document) ->
         obj_get k (_fields w') = obj_get k rex_document)
      /\ (forall k, ~ In k (Object_keys rex_document) ->
            obj_get k (_fields w') = obj_get k (_fields fresh_dog))
      /\ _dirtyFields w' = []
      /\ isLoadedFromDB w' = true
      /\ _lastLoadTime w' = t1).
Proof.
  assert (Hdesc : forall f d, getFieldDescriptor fresh_dog f = Some d ->
                    d = GenericField noData).
  { intros f d; unfold getFieldDescriptor, ClassWrapper_getFieldDescriptor.
    simpl.
    destruct (String.eqb f "name"); [intros H; now inversion H|].
    destruct (String.eqb f "breed"); [intros H; now inversion H|].
    discriminate. }
  assert (Hsrc : forall f d, getFieldDescriptor fresh_dog f = Some d ->
                   source_of (_data d) = None)
    by (intros f d Hd; now rewrite (Hdesc f d Hd)).
  assert (Hkeys : forall k, In k (Object_keys rex_document) ->
                    ~ In k Object_prototype
                    /\ forall d, getFieldDescriptor fresh_dog k = Some d ->
                         keeps_Field_isEqual d).
  { intros k Hk; split.
    - intros Hp; simpl in Hk, Hp.
      repeat (destruct Hk as [<-|Hk];
              [repeat (destruct Hp as [Hp|Hp]; [discriminate|]); exact Hp|]).
      exact Hk.
    - intros d Hd; rewrite (Hdesc k d Hd); exact I. }
  split; [split; [exact Hsrc|split; [exact Hkeys|reflexivity]]|].
  exact (@X14_hydration_stores_the_document empty_heap t1 20 fresh_dog
           rex_document Hsrc Hkeys).
Defined.

(** X15 at a new dog, hydrated from the document of Rex, and the
    callback 1. *)
Lemma X15_onLoaded_on_a_loaded_instance_is_invoked_at_once_witness :
  Model_constructor (P := ref_platform) Dog empty_heap 10 = Ok fresh_dog
  /\ (let loaded :=
        fst (_setFromDBDocument Model_hooks empty_heap t1 20 fresh_dog
               rex_document true) in
      set_onLoaded fresh_dog (Some 1) = (with_onFirstLoad fresh_dog (Some 1), [])
      /\ set_onLoaded loaded (Some 1)
         = (with_onFirstLoad loaded (Some 1), [Invoke 1])
      /\ invocations 1
           (snd (set_onLoaded loaded (Some 1))
            ++ snd (set_onLoaded (fst (set_onLoaded loaded (Some 1)))
                      (Some 1)))
         = 2
      /\ snd (set_onLoaded loaded None) = []).
Proof.
  split; [reflexivity|].
  exact (@X15_onLoaded_on_a_loaded_instance_is_invoked_at_once ref_platform
           Dog empty_heap empty_heap 10 20 fresh_dog 1 t1 rex_document
           eq_refl).
Defined.

(** X16 at a new dog and a connected client. *)
Lemma X16_reload_requires_presence_in_storage_witness :
  Model_constructor (P := ref_platform) Dog empty_heap 10 = Ok fresh_dog
  /\ (reload connected fresh_dog
      = Throw (Error "Cannot call 'reload()' on instances that were not load / saved to DB!")
      /\ (_isReady connected = true ->
          reload connected
            (fst (save_onSuccess Model_hooks fresh_dog forced_doc None))
          = Ok (FindOne
                  (id_query
                     (fst (save_onSuccess Model_hooks fresh_dog forced_doc
                             None)))
                  (get_collectionName fresh_dog)))).
Proof.
  split; [reflexivity|].
  exact (@X16_reload_requires_presence_in_storage ref_platform Dog connected
           empty_heap 10 fresh_dog forced_doc None eq_refl).
Defined.

(* ================================================================== *)
(** ** Further properties of registration, collection set-up and the
       client's callbacks *)
(* ================================================================== *)

Lemma index_batches_In :
  forall fs indexes uniqueIndexes f t,
    (In (f, t) (fst (index_batches fs indexes uniqueIndexes))
     <-> In (f, t) indexes
         \/ exists d, In (f, d) fs /\ isIndex d = true
                      /\ isUniqueIndex d = false /\ t = indexType d)
    /\ (In (f, t) (snd (index_batches fs indexes uniqueIndexes))
        <-> In (f, t) uniqueIndexes
            \/ exists d, In (f, d) fs /\ isIndex d = true
                         /\ isUniqueIndex d = true /\ t = indexType d).
Proof.
  intros fs; induction fs as [|[f0 d0] rest IH];
    intros indexes uniqueIndexes f t; cbn [index_batches].
  - cbn [fst snd]; split; split; auto;
      intros [H|[d [[] _]]]; assumption.
  - destruct (isIndex d0) eqn:Hi; [destruct (isUniqueIndex d0) eqn:Hu|].
    + destruct (IH indexes (uniqueIndexes ++ [(f0, indexType d0)]) f t)
        as [H1 H2]; rewrite H1, H2, in_app_iff; cbn [In]; split; split.
      * intros [H|[d [Hin Hd]]]; [now left | right; exists d; auto].
      * intros [H|[d [[Heq|Hin] [Hd1 [Hd2 Hd3]]]]]; [now left | |].
        -- inversion Heq; subst; congruence.
        -- right; exists d; auto.
      * intros [[H|[Heq|[]]]|[d [Hin Hd]]].
        -- now left.
        -- inversion Heq; subst; right; exists d0; auto.
        -- right; exists d; auto.
      * intros [H|[d [[Heq|Hin] [Hd1 [Hd2 Hd3]]]]].
        -- left; now left.
        -- inversion Heq; subst; left; right; now left.
        -- right; exists d; auto.
    + destruct (IH (indexes ++ [(f0, indexType d0)]) uniqueIndexes f t)
        as [H1 H2]; rewrite H1, H2, in_app_iff; cbn [In]; split; split.
      * intros [[H|[Heq|[]]]|[d [Hin Hd]]].
        -- now left.
        -- inversion Heq; subst; right; exists d0; auto.
        -- right; exists d; auto.
      * intros [H|[d [[Heq|Hin] [Hd1 [Hd2 Hd3]]]]].
        -- left; now left.
        -- inversion Heq; subst; left; right; now left.
        -- right; exists d; auto.
      * intros [H|[d [Hin Hd]]]; [now left | right; exists d; auto].
      * intros [H|[d [[Heq|Hin] [Hd1 [Hd2 Hd3]]]]]; [now left | |].
        -- inversion Heq; subst; congruence.
        -- right; exists d; auto.
    + destruct (IH indexes uniqueIndexes f t) as [H1 H2];
        rewrite H1, H2; cbn [In]; split; split.
      * intros [H|[d [Hin Hd]]]; [now left | right; exists d; auto].
      * intros [H|[d [[Heq|Hin] [Hd1 Hd]]]]; [now left | |].
        -- inversion Heq; subst; congruence.
        -- right; exists d; auto.
      * intros [H|[d [Hin Hd]]]; [now left | right; exists d; auto].
      * intros [H|[d [[Heq|Hin] [Hd1 Hd]]]]; [now left | |].
        -- inversion Heq; subst; congruence.
        -- right; exists d; auto.
Qed.

Lemma createIndex_In :
  forall name ixs uq r,
    In r (createIndex name ixs uq) <-> r = CreateIndex name ixs uq /\ ixs <> [].
Proof.
  intros name ixs uq r; unfold createIndex; destruct ixs; cbn [In].
  - split; [intros [] | intros [_ H]; now apply H].
  - split; [intros [<-|[]]; split; [reflexivity | discriminate]
           | intros [-> _]; now left].
Qed.

Lemma properties_loop_throws :
  forall gvp fs acc f d e,
    In (f, d) fs -> gvp d = Throw e ->
    exists e', properties_loop gvp fs acc = Throw e'.
Proof.
  intros gvp fs; induction fs as [|[f0 d0] rest IH]; intros acc f d e Hin He;
    [contradiction|]; cbn [properties_loop].
  destruct (gvp d0) as [p|e0] eqn:H0; cbn [bind]; [|eauto].
  destruct Hin as [Heq|Hin]; [inversion Heq; subst; congruence | eauto].
Qed.

Lemma properties_loop_keys :
  forall gvp fs acc props,
    properties_loop gvp fs acc = Ok props ->
    forall f, In f (Object_keys props)
              <-> In f (Object_keys acc) \/ In f (Object_keys fs).
Proof.
  intros gvp fs; induction fs as [|[f0 d0] rest IH]; intros acc props Hloop f;
    cbn [properties_loop] in Hloop.
  - inversion Hloop; subst; simpl; intuition.
  - destruct (gvp d0) as [p|e0]; cbn [bind] in Hloop; [|discriminate].
    rewrite (IH _ _ Hloop f), keys_obj_set; simpl; intuition.
Qed.

Section CollectionSetup.
Variable emailRE : value.
Variable is_parseInt : (value -> value) -> bool.

(** X17.  The indexes [createCollection] asks for (the driver answering
    every request with success).  The first request creates the
    collection under the model's collection name; every later request
    creates a non-empty batch of indexes on that collection; a field is
    in a batch exactly when it is flagged [index], in the unique batch
    when it is also flagged [unique]; so a field flagged [unique]
    without [index] gets no index at all. *)
Theorem X17_createCollection_indexes_the_index_fields :
  forall (c : MongoConnection) (cw : ModelClassWrapper)
         (reqs : list admin_request),
    createCollection emailRE is_parseInt c cw = Ok reqs ->
    exists options rest,
      reqs = CreateCollection (ClassWrapper_collectionName cw) options :: rest
      /\ getCollectionOptions emailRE is_parseInt cw = Ok options
      /\ (forall r, In r rest ->
            exists ixs uq,
              r = CreateIndex (ClassWrapper_collectionName cw) ixs uq
              /\ ixs <> []
              /\ forall f t, In (f, t) ixs ->
                   exists d, In (f, d) (fields (_md cw))
                             /\ isIndex d = true /\ isUniqueIndex d = uq
                             /\ t = indexType d)
      /\ (forall f d, In (f, d) (fields (_md cw)) -> isIndex d = true ->
            exists ixs,
              In (CreateIndex (ClassWrapper_collectionName cw) ixs
                    (isUniqueIndex d)) rest
              /\ In (f, indexType d) ixs)
      /\ (forall f d ixs uq, In (f, d) (fields (_md cw)) ->
            NoDup (Object_keys (fields (_md cw))) ->
            isIndex d = false ->
            In (CreateIndex (ClassWrapper_collectionName cw) ixs uq) rest ->
            ~ In f (Object_keys ixs)).
Proof.
  intros c cw reqs; unfold createCollection.
  destruct (getCollectionOptions emailRE is_parseInt cw) as [options|e];
    cbn [bind]; [|discriminate].
  unfold validateReady; destruct (_isReady c); cbn [bind negb];
    [|discriminate].
  pose proof (index_batches_In (fields (_md cw)) [] []) as Hspec.
  destruct (index_batches (fields (_md cw)) [] []) as [ixs uqs].
  cbn [fst snd In] in Hspec.
  intros H; inversion H; subst; clear H.
  exists options, (createIndex (ClassWrapper_collectionName cw) ixs false
                   ++ createIndex (ClassWrapper_collectionName cw) uqs true).
  split; [reflexivity|split; [reflexivity|split; [|split]]].
  - intros r Hr; apply in_app_or in Hr; destruct Hr as [Hr|Hr];
      apply createIndex_In in Hr; destruct Hr as [-> Hne].
    + exists ixs, false; repeat split; auto.
      intros f t Hin; apply (proj1 (Hspec f t)) in Hin.
      destruct Hin as [[]|[d Hd]]; exists d; tauto.
    + exists uqs, true; repeat split; auto.
      intros f t Hin; apply (proj2 (Hspec f t)) in Hin.
      destruct Hin as [[]|[d Hd]]; exists d; tauto.
  - intros f d Hin Hi; destruct (isUniqueIndex d) eqn:Hu.
    + assert (Hm : In (f, indexType d) uqs)
        by (apply (proj2 (Hspec f (indexType d))); right; exists d; auto).
      exists uqs; split; [|assumption].
      apply in_or_app; right; apply createIndex_In; split; [reflexivity|].
      intros ->; contradiction.
    + assert (Hm : In (f, indexType d) ixs)
        by (apply (proj1 (Hspec f (indexType d))); right; exists d; auto).
      exists ixs; split; [|assumption].
      apply in_or_app; left; apply createIndex_In; split; [reflexivity|].
      intros ->; contradiction.
  - intros f d ixs0 uq Hin Hnd Hi Hr Hf.
    apply in_map_iff in Hf; destruct Hf as [[f' t] [Hf' Hft]].
    cbn [fst] in Hf'; subst f'.
    assert (Hd' : exists d', In (f, d') (fields (_md cw)) /\ isIndex d' = true).
    { apply in_app_or in Hr; destruct Hr as [Hr|Hr];
        apply createIndex_In in Hr; destruct Hr as [Heq _];
        inversion Heq; subst.
      - apply (proj1 (Hspec f t)) in Hft.
        destruct Hft as [[]|[d' Hd']]; exists d'; tauto.
      - apply (proj2 (Hspec f t)) in Hft.
        destruct Hft as [[]|[d' Hd']]; exists d'; tauto. }
    destruct Hd' as [d' [Hin' Hi']].
    assert (d' = d).
    { apply (obj_lookup_In _ _ _ Hnd) in Hin.
      apply (obj_lookup_In _ _ _ Hnd) in Hin'. congruence. }
    congruence.
Qed.

(** X18.  A model that declares a choice field, or a numeric field with
    [min] or [max], cannot have its collection created:
    [getValidatorProperties] of that field throws, so
    [getCollectionOptions] and [createCollection] throw, and no request
    is issued. *)
Theorem X18_createCollection_throws_on_choice_and_bounded_numeric_fields :
  forall (c : MongoConnection) (cw : ModelClassWrapper) (f : string)
         (d : descriptor),
    In (f, d) (fields (_md cw)) ->
    match d with
    | ChoiceField _ => True
    | NumericField data => min data <> None \/ max data <> None
    | _ => False
    end ->
    exists e,
      getCollectionOptions emailRE is_parseInt cw = Throw e
      /\ createCollection emailRE is_parseInt c cw = Throw e.
Proof.
  intros c cw f d Hin Hd.
  assert (Hthrow : exists e, getValidatorProperties emailRE is_parseInt d
                             = Throw e).
  { destruct d; try contradiction; cbn [getValidatorProperties]; eauto.
    unfold NumericField_getValidatorProperties; cbn [_data].
    destruct (min data), (max data); eauto.
    destruct Hd as [Hd|Hd]; congruence. }
  destruct Hthrow as [e0 He0].
  destruct (properties_loop_throws
              (getValidatorProperties emailRE is_parseInt)
              (fields (_md cw)) [] f d Hin He0) as [e He].
  exists e; unfold createCollection, getCollectionOptions.
  rewrite He; split; reflexivity.
Qed.

(** X19.  When [getCollectionOptions] succeeds, the validator it builds
    is one JSON schema of type [object] whose [properties] have exactly
    the field names as keys and whose [required] list holds, in
    declaration order, exactly the fields that were not given
    [canBeNull]; the collection is capped exactly when a non-zero
    [maxSizeInBytes] is configured. *)
Theorem X19_collection_options_list_the_mandatory_fields :
  forall (cw : ModelClassWrapper) (options : jsobject),
    getCollectionOptions emailRE is_parseInt cw = Ok options ->
    exists properties,
      obj_get "validator" options
      = VDict 0
          [("$jsonSchema",
            VDict 0
              [("bsonType", VStr "object");
               ("required",
                VList 0 (map VStr (mandatoryFields (fields (_md cw)))));
               ("properties", VDict 0 properties)])]
      /\ (forall f, In f (Object_keys properties)
                    <-> In f (Object_keys (fields (_md cw))))
      /\ (forall f, In f (mandatoryFields (fields (_md cw)))
                    <-> exists d, In (f, d) (fields (_md cw))
                                  /\ canBeNull (_data d) = false)
      /\ (obj_get "capped" options = VBool true
          <-> exists n, maxSizeInBytes (_md cw) = Some n /\ n <> 0%Z).
Proof.
  intros cw options; unfold getCollectionOptions.
  destruct (properties_loop (getValidatorProperties emailRE is_parseInt)
              (fields (_md cw)) []) as [properties|e] eqn:Hloop;
    cbn [bind]; [|discriminate].
  intros H; inversion H; subst; clear H.
  exists properties; split; [|split; [|split]].
  - unfold set_if_truthy.
    destruct (maxCount (_md cw)) as [m|]; [destruct (Z.eqb m 0)|];
      destruct (maxSizeInBytes (_md cw)) as [n|]; try destruct (Z.eqb n 0);
      rewrite ?obj_get_set_other by discriminate; reflexivity.
  - intros f; rewrite (properties_loop_keys _ _ _ Hloop f); simpl; intuition.
  - intros f; unfold mandatoryFields; rewrite in_map_iff; split.
    + intros [[f' d] [Hf Hin]]; cbn [fst] in Hf; subst f'.
      apply filter_In in Hin; destruct Hin as [Hin Hm]; cbn [snd] in Hm.
      exists d; split; [assumption|].
      unfold isMandatory in Hm; now apply negb_true_iff in Hm.
    + intros [d [Hin Hc]]; exists (f, d); split; [reflexivity|].
      apply filter_In; split; [assumption|].
      cbn [snd]; unfold isMandatory; now rewrite Hc.
  - unfold set_if_truthy.
    destruct (maxCount (_md cw)) as [m|]; [destruct (Z.eqb m 0)|];
      (destruct (maxSizeInBytes (_md cw)) as [n|];
       [destruct (Z.eqb_spec n 0)|]);
      rewrite ?obj_get_set_other by discriminate;
      rewrite ?obj_get_set_same;
      (split; [try discriminate; try (intros _; eexists; split;
                                      [reflexivity | assumption])
              | intros [n' [Hn' Hne]]; try discriminate;
                try (inversion Hn'; subst; contradiction);
                try reflexivity]).
Qed.

End CollectionSetup.

(** X17 at the class [Message]: one index on [score], one unique index
    on [title], none on [msg], which asks for uniqueness only. *)
Lemma X17_createCollection_indexes_the_index_fields_witness :
  createCollection VNull (fun _ => false) connected Message_wrapper
  = Ok Message_requests
  /\ exists options rest,
       Message_requests
       = CreateCollection (ClassWrapper_collectionName Message_wrapper)
           options :: rest
       /\ getCollectionOptions VNull (fun _ => false) Message_wrapper
          = Ok options
       /\ (forall r, In r rest ->
             exists ixs uq,
               r = CreateIndex (ClassWrapper_collectionName Message_wrapper)
                     ixs uq
               /\ ixs <> []
               /\ forall f t, In (f, t) ixs ->
                    exists d, In (f, d) (fields (_md Message_wrapper))
                              /\ isIndex d = true /\ isUniqueIndex d = uq
                              /\ t = indexType d)
       /\ (forall f d, In (f, d) (fields (_md Message_wrapper)) ->
             isIndex d = true ->
             exists ixs,
               In (CreateIndex (ClassWrapper_collectionName Message_wrapper)
                     ixs (isUniqueIndex d)) rest
               /\ In (f, indexType d) ixs)
       /\ (forall f d ixs uq, In (f, d) (fields (_md Message_wrapper)) ->
             NoDup (Object_keys (fields (_md Message_wrapper))) ->
             isIndex d = false ->
             In (CreateIndex (ClassWrapper_collectionName Message_wrapper)
                   ixs uq) rest ->
             ~ In f (Object_keys ixs)).
Proof.
  split; [reflexivity|].
  exact (@X17_createCollection_indexes_the_index_fields VNull
           (fun _ => false) connected Message_wrapper Message_requests
           eq_refl).
Defined.

(** X18 at the class [Pet], which declares a choice field. *)
Lemma X18_createCollection_throws_on_choice_and_bounded_numeric_fields_witness :
  In ("breed", ChoiceField breed_data) (fields (_md Pet_wrapper))
  /\ exists e,
       getCollectionOptions VNull (fun _ => false) Pet_wrapper = Throw e
       /\ createCollection VNull (fun _ => false) connected Pet_wrapper
          = Throw e.
Proof.
  assert (Hin : In ("breed", ChoiceField breed_data)
                  (fields (_md Pet_wrapper)))
    by (right; right; now left).
  split; [exact Hin|].
  exact (@X18_createCollection_throws_on_choice_and_bounded_numeric_fields
           VNull (fun _ => false) connected Pet_wrapper "breed"
           (ChoiceField breed_data) Hin I).
Defined.

(** X19 at the class [Message]. *)
Lemma X19_collection_options_list_the_mandatory_fields_witness :
  getCollectionOptions VNull (fun _ => false) Message_wrapper
  = Ok Message_options
  /\ exists properties,
       obj_get "validator" Message_options
       = VDict 0
           [("$jsonSchema",
             VDict 0
               [("bsonType", VStr "object");
                ("required",
                 VList 0
                   (map VStr (mandatoryFields (fields (_md Message_wrapper)))));
                ("properties", VDict 0 properties)])]
       /\ (forall f, In f (Object_keys properties)
                     <-> In f (Object_keys (fields (_md Message_wrapper))))
       /\ (forall f, In f (mandatoryFields (fields (_md Message_wrapper)))
                     <-> exists d, In (f, d) (fields (_md Message_wrapper))
                                   /\ canBeNull (_data d) = false)
       /\ (obj_get "capped" Message_options = VBool true
           <-> exists n, maxSizeInBytes (_md Message_wrapper) = Some n
                         /\ n <> 0%Z).
Proof.
  split; [reflexivity|].
  exact (@X19_collection_options_list_the_mandatory_fields VNull
           (fun _ => false) Message_wrapper Message_options eq_refl).
Defined.

Section Registration.
Context {P : Platform}.

Lemma set_defaults_succeeds :
  forall h names alloc w,
    (forall f, In f names -> getFieldDescriptor w f <> None) ->
    exists w',
      set_defaults h names alloc w = Ok w'
      /\ _classWrapper w' = _classWrapper w
      /\ _onFirstLoad w' = _onFirstLoad w.
Proof.
  intros h names; induction names as [|f rest IH]; intros alloc w Hreg;
    cbn [set_defaults]; [eauto|].
  unfold getDefault, ClassWrapper_getDefault.
  pose proof (Hreg f (or_introl eq_refl)) as Hf.
  unfold getFieldDescriptor in Hf.
  destruct (ClassWrapper_getFieldDescriptor (_classWrapper w) f) as [d|];
    [|contradiction]; cbn [bind].
  destruct (IH (S alloc) (object_set h w f (Field_default d alloc)))
    as [w' [Hok [Hcw Hcb]]].
  - intros f' Hin; rewrite object_set_getFieldDescriptor; apply Hreg.
    now right.
  - exists w'; split; [assumption|split].
    + now rewrite Hcw, object_set_classWrapper.
    + rewrite Hcb; now destruct (object_set_frame h w f (Field_default d alloc))
        as [_ [F _]].
Qed.

Lemma Model_constructor_built :
  forall cls cw h alloc,
    mongore cls = Some cw ->
    exists w,
      Model_constructor cls h alloc = Ok w
      /\ _classWrapper w = cw
      /\ isInDB w = false
      /\ _onFirstLoad w = None.
Proof.
  intros cls cw h alloc Hcw; unfold Model_constructor; rewrite Hcw.
  destruct (set_defaults_succeeds h
              (fieldNames (new_ModelInstanceWrapper cw)) alloc
              (new_ModelInstanceWrapper cw)) as [w [Hok [Hw Hcb]]].
  - intros f Hin Hnone.
    unfold getFieldDescriptor, ClassWrapper_getFieldDescriptor in Hnone.
    apply obj_lookup_None_keys in Hnone; contradiction.
  - exists w; split; [assumption|split; [assumption|split; [|assumption]]].
    destruct (set_defaults_frame _ _ _ _ Hok) as [_ Hl].
    pose proof (set_defaults_not_saved _ _ _ _ Hok) as Hs.
    unfold isInDB, isLoadedFromDB, isSavedToDB; now rewrite Hl, Hs.
Qed.

(** X20.  The constructor of [Model] throws on a class on which
    [buildModel] has not run.  Once [buildModel] has returned on the
    class (a subclass of [Model] with no field named [mongore] and with
    defaults that can be cloned) the constructor always yields an
    instance: no default can be missing, since the names it assigns are
    the keys of the map the descriptors are read from.  The instance is
    bound to the wrapper of its class, is neither loaded nor saved, and
    has no callback. *)
Theorem X20_constructor_succeeds_exactly_on_built_classes :
  forall (st : ClassState) (modelData : ModelData) (h : heap) (alloc : ref),
    mongore (cs_class st) = None ->
    Model_constructor (cs_class st) h alloc
    = Throw (Error "Cannot create instance of 'Model' before buildModel() is called!")
    /\ (registered_by st modelData ->
        ~ In "mongore" (Object_keys (fields modelData)) ->
        (forall f d, In (f, d) (fields modelData) -> clonable d) ->
        exists w,
          Model_constructor (cs_class (fst (buildModel st modelData))) h alloc
          = Ok w
          /\ _classWrapper w
             = {| _class := name (cs_class st); _md := modelData |}
          /\ isInDB w = false
          /\ _onFirstLoad w = None).
Proof.
  intros st modelData h alloc Hnone; split.
  - unfold Model_constructor; now rewrite Hnone.
  - intros Hreg _ _.
    destruct (registered_by_class Hreg) as [Hcls _].
    apply Model_constructor_built; rewrite Hcls; reflexivity.
Qed.

(** X24.  The class-level [delete] and [load], given the primary key of
    an instance of the class, over a connected client.  A key that is
    no object is wrapped into [{_id: key}], and the requests are those
    of the instance's own [delete] and [reload].  A key that is an
    object (or [null]) is taken for the query itself: the request
    carries the key and differs from the instance's own. *)
Theorem X24_class_level_delete_and_load_by_key :
  forall (cls : ModelClass) (c : MongoConnection) (h : heap) (alloc : ref)
         (w : ModelInstanceWrapper),
    mongore cls = Some (_classWrapper w) ->
    _isReady c = true ->
    isInDB w = true ->
    (typeof_object (get_id w) = false ->
     ClassWrapper_delete c (_classWrapper w) (get_id w) = delete c w
     /\ exists ret r,
          ClassWrapper_load cls c h alloc (get_id w) = Ok (ret, r)
          /\ reload c w = Ok r)
    /\ (typeof_object (get_id w) = true ->
        ClassWrapper_delete c (_classWrapper w) (get_id w)
        = Ok (DeleteOne (get_id w) (get_collectionName w))
        /\ ClassWrapper_delete c (_classWrapper w) (get_id w) <> delete c w
        /\ exists ret,
             ClassWrapper_load cls c h alloc (get_id w)
             = Ok (ret, FindOne (get_id w) (get_collectionName w))
             /\ reload c w <> Ok (FindOne (get_id w) (get_collectionName w))).
Proof.
  intros cls c h alloc w Hcls Hready Hin.
  destruct (Model_constructor_built cls h alloc Hcls)
    as [ret [Hret [Hcw _]]].
  assert (Hneq : VDict 0 [("_id", get_id w)] <> get_id w).
  { intros Heq; apply (f_equal value_size) in Heq.
    cbn [value_size] in Heq; lia. }
  split; intros Hobj.
  - split.
    + unfold ClassWrapper_delete, normalize_query, delete, id_query,
        get_collectionName; now rewrite Hobj.
    + exists ret, (FindOne (id_query w) (get_collectionName w)).
      unfold ClassWrapper_load, reload; rewrite Hret, Hin, Hobj.
      cbn [bind negb]; unfold findOne, validateReady, get_collectionName.
      rewrite Hready, Hcw; cbn [bind negb]; split; reflexivity.
  - unfold ClassWrapper_delete, normalize_query, delete, id_query,
      deleteOne, validateReady, get_collectionName.
    rewrite Hobj, Hready; cbn [bind negb].
    split; [reflexivity|split].
    + intros Heq; inversion Heq as [Hq]; now apply Hneq.
    + exists ret; unfold ClassWrapper_load, reload; rewrite Hret, Hin, Hobj.
      cbn [bind negb]; unfold findOne, validateReady, get_collectionName,
        id_query.
      rewrite Hready, Hcw; cbn [bind negb]; split; [reflexivity|].
      intros Heq; inversion Heq as [Hq]; now apply Hneq.
Qed.

End Registration.

(** X20 at the class [Dog] before and after [buildModel(Dog_data)]. *)
Lemma X20_constructor_succeeds_exactly_on_built_classes_witness :
  mongore (cs_class Dog_unbuilt) = None
  /\ (Model_constructor (P := ref_platform) (cs_class Dog_unbuilt)
        empty_heap 10
      = Throw (Error "Cannot create instance of 'Model' before buildModel() is called!")
      /\ (registered_by Dog_unbuilt Dog_data ->
          ~ In "mongore" (Object_keys (fields Dog_data)) ->
          (forall f d, In (f, d) (fields Dog_data) -> clonable d) ->
          exists w,
            Model_constructor (P := ref_platform)
              (cs_class (fst (buildModel Dog_unbuilt Dog_data))) empty_heap 10
            = Ok w
            /\ _classWrapper w = {| _class := "Dog"; _md := Dog_data |}
            /\ isInDB w = false
            /\ _onFirstLoad w = None)).
Proof.
  split; [reflexivity|].
  exact (@X20_constructor_succeeds_exactly_on_built_classes ref_platform
           Dog_unbuilt Dog_data empty_heap 10 eq_refl).
Defined.


(** X21.  [buildModel] marks the class as registered before it installs
    the first accessor.  So on a class that was not registered it leaves
    the class registered with the given model data whether it returns or
    throws, and any later [buildModel] throws and changes nothing.  It
    returns only if the field names are pairwise distinct and none is a
    name the prototype already answers to, and then every field name has
    its accessor pair; a field name the prototype answers to makes it
    throw. *)
Theorem X21_buildModel_registers_before_it_checks_names :
  forall (st : ClassState) (modelData modelData' : ModelData),
    mongore (cs_class st) = None ->
    let st' := fst (buildModel st modelData) in
    mongore (cs_class st')
    = Some {| _class := name (cs_class st); _md := modelData |}
    /\ cs_prototype st' = cs_prototype st
    /\ buildModel st' modelData'
       = (st', Throw (Error ("buildModel() already called on class "
                             ++ name (cs_class st) ++ ".")))
    /\ (snd (buildModel st modelData) = Ok tt ->
        cs_accessors st'
        = cs_accessors st ++ Object_keys (fields modelData)
        /\ NoDup (Object_keys (fields modelData))
        /\ forall f, In f (Object_keys (fields modelData)) ->
             ~ In f (cs_prototype st))
    /\ (forall f, In f (Object_keys (fields modelData)) ->
          In f (cs_prototype st) ->
          exists e, snd (buildModel st modelData) = Throw e).
Proof.
  intros st modelData modelData' Hnew st'; subst st'.
  set (st0 := {| cs_class :=
                   {| name := name (cs_class st);
                      mongore := Some {| _class := name (cs_class st);
                                         _md := modelData |} |};
                 cs_prototype := cs_prototype st;
                 cs_accessors := cs_accessors st |}).
  assert (E : buildModel st modelData
              = install_accessors (Object_keys (fields modelData)) st0)
    by (unfold buildModel; now rewrite Hnew).
  rewrite E.
  destruct (install_accessors_class (Object_keys (fields modelData)) st0)
    as [Hcls Hproto].
  split; [rewrite Hcls; reflexivity|].
  split; [rewrite Hproto; reflexivity|].
  split; [|split].
  - unfold buildModel; rewrite Hcls; reflexivity.
  - intros Hok.
    destruct (install_accessors_ok _ _ Hok) as [Hacc [Hfree [_ Hnd]]].
    split; [exact Hacc|split; [exact Hnd|exact Hfree]].
  - intros f Hin Hp.
    destruct (snd (install_accessors (Object_keys (fields modelData)) st0))
      as [[]|e] eqn:Hres; [|eauto].
    destruct (install_accessors_ok _ _ Hres) as [_ [Hfree _]].
    exfalso; exact (Hfree f Hin Hp).
Qed.

(** X21 at the class [Cat] and model data whose second field is named
    [toString]. *)
Lemma X21_buildModel_registers_before_it_checks_names_witness :
  mongore (cs_class Cat_unbuilt) = None
  /\ snd (buildModel Cat_unbuilt clashing_data)
     = Throw (Error "Cannot define field 'toString' in class 'Cat': a property with that name already exist!")
  /\ (let st' := fst (buildModel Cat_unbuilt clashing_data) in
      mongore (cs_class st')
      = Some {| _class := name (cs_class Cat_unbuilt);
                _md := clashing_data |}
      /\ cs_prototype st' = cs_prototype Cat_unbuilt
      /\ buildModel st' Dog_data
         = (st', Throw (Error ("buildModel() already called on class "
                               ++ name (cs_class Cat_unbuilt) ++ ".")))
      /\ (snd (buildModel Cat_unbuilt clashing_data) = Ok tt ->
          cs_accessors st'
          = cs_accessors Cat_unbuilt ++ Object_keys (fields clashing_data)
          /\ NoDup (Object_keys (fields clashing_data))
          /\ forall f, In f (Object_keys (fields clashing_data)) ->
               ~ In f (cs_prototype Cat_unbuilt))
      /\ (forall f, In f (Object_keys (fields clashing_data)) ->
            In f (cs_prototype Cat_unbuilt) ->
            exists e, snd (buildModel Cat_unbuilt clashing_data) = Throw e)).
Proof.
  split; [reflexivity|split; [reflexivity|]].
  exact (@X21_buildModel_registers_before_it_checks_names Cat_unbuilt
           clashing_data Dog_data eq_refl).
Defined.

(** X24 at the dog stored under the key 7. *)
Lemma X24_class_level_delete_and_load_by_key_witness :
  (mongore Dog = Some (_classWrapper dog7)
   /\ _isReady connected = true
   /\ isInDB dog7 = true
   /\ ClassWrapper_delete connected (_classWrapper dog7) (VNum 7)
      = Ok (DeleteOne (VDict 0 [("_id", VNum 7)]) "Dogs"))
  /\ ((typeof_object (get_id dog7) = false ->
       ClassWrapper_delete connected (_classWrapper dog7) (get_id dog7)
       = delete connected dog7
       /\ exists ret r,
            ClassWrapper_load (P := ref_platform) Dog connected empty_heap 10
              (get_id dog7)
            = Ok (ret, r)
            /\ reload connected dog7 = Ok r)
      /\ (typeof_object (get_id dog7) = true ->
          ClassWrapper_delete connected (_classWrapper dog7) (get_id dog7)
          = Ok (DeleteOne (get_id dog7) (get_collectionName dog7))
          /\ ClassWrapper_delete connected (_classWrapper dog7) (get_id dog7)
             <> delete connected dog7
          /\ exists ret,
               ClassWrapper_load (P := ref_platform) Dog connected empty_heap
                 10 (get_id dog7)
               = Ok (ret, FindOne (get_id dog7) (get_collectionName dog7))
               /\ reload connected dog7
                  <> Ok (FindOne (get_id dog7) (get_collectionName dog7)))).
Proof.
  split; [repeat split|].
  exact (@X24_class_level_delete_and_load_by_key ref_platform Dog connected
           empty_heap 10 dog7 eq_refl eq_refl eq_refl).
Defined.

(** X22.  Where a reply of the driver goes.  An error is never dropped:
    it reaches the error callback, or is thrown when there is none.  The
    success callback is reached only by a reply without an error, and
    for [findOne] and [deleteOne] only with the document of the reply; a
    reply without a document goes to the not-found callback and, when
    there is none, is treated as an error. *)
Theorem X22_an_error_is_never_dropped :
  forall (query collection : string) (err : option error)
         (res : option jsobject) (written : jsobject)
         (onSuccess onError onNotFound : option callback),
    match on_document_reply query collection err res onSuccess onError
            onNotFound with
    | ToSuccess f doc => err = None /\ res = Some doc /\ onSuccess = Some f
    | ToNotFound f => err = None /\ res = None /\ onNotFound = Some f
    | ToError f e =>
        onError = Some f
        /\ (err = Some e \/ (err = None /\ res = None /\ onNotFound = None))
    | Raised e =>
        onError = None
        /\ (err = Some e \/ (err = None /\ res = None /\ onNotFound = None))
    | Dropped => err = None /\ res <> None /\ onSuccess = None
    end
    /\ match on_write_reply err written onSuccess onError with
       | ToSuccess f doc => err = None /\ doc = written /\ onSuccess = Some f
       | ToError f e => err = Some e /\ onError = Some f
       | Raised e => err = Some e /\ onError = None
       | Dropped => err = None /\ onSuccess = None
       | ToNotFound _ => False
       end.
Proof.
  intros query collection err res written onSuccess onError onNotFound.
  unfold on_document_reply, on_write_reply, callbackOrThrow.
  destruct err, res, onSuccess, onError, onNotFound; cbn;
    repeat split; auto; discriminate.
Qed.

Lemma null_allowed_not_null :
  forall data v, v <> VNull -> null_allowed data v = false.
Proof.
  intros data v Hv; unfold null_allowed.
  destruct v; try reflexivity; contradiction.
Qed.

Section Stability.
Context {P : Platform}.

Lemma StringField_clean_stable :
  forall data instance v c,
    StringField_clean data instance v = Ok c ->
    StringField_clean data instance c = Ok c.
Proof.
  intros data instance v c; unfold StringField_clean, Field_clean.
  destruct (source_of data) as [s|]; [trivial|].
  destruct (null_allowed data v) eqn:Hn.
  - intros H; inversion H; subst; now rewrite Hn.
  - destruct (js_toString v) as [s|e]; cbn [bind]; [|discriminate].
    destruct (match maxLength data with
              | Some m => Z.ltb m (Z.of_nat (js_length s))
              | None => false
              end) eqn:Hmax; [discriminate|].
    destruct (match minLength data with
              | Some m => Z.ltb m (Z.of_nat (js_length s))
              | None => false
              end) eqn:Hmin; [discriminate|].
    intros H; inversion H; subst.
    rewrite null_allowed_not_null by discriminate.
    cbn [js_toString bind]; now rewrite Hmax, Hmin.
Qed.

(** X23.  Cleaning is stable on the fields of single values: a value
    that [clean] returned is accepted by [clean] again and returned as
    it is.  (With a [source] alias [clean] ignores its argument; a
    numeric field needs a parser that gives a number back as it is.) *)
Theorem X23_cleaning_a_cleaned_value_changes_nothing :
  forall (d : descriptor) (h : heap) (now : value)
         (instance : string -> value) (v c : value),
    single_valued d now ->
    clean d h now instance v = Ok c ->
    clean d h now instance c = Ok c.
Proof.
  intros d h now instance v c Hd.
  destruct d; cbn [single_valued] in Hd; try contradiction; cbn [clean].
  - unfold Field_clean; destruct (source_of data); [trivial|].
    intros H; now inversion H.
  - unfold BooleanField_clean, Field_clean.
    destruct (source_of data); [trivial|].
    destruct (null_allowed data v) eqn:Hn; intros H; inversion H; subst.
    + now rewrite Hn.
    + now rewrite null_allowed_not_null by discriminate.
  - unfold NumericField_clean, Field_clean.
    destruct (source_of data); [trivial|].
    destruct (null_allowed data v) eqn:Hn.
    + intros H; inversion H; subst; now rewrite Hn.
    + cbv zeta.
      destruct (match parser data with
                | Some f => f
                | None => parseFloat
                end v) as [| | | n | | | | | |] eqn:Hp; try discriminate.
      destruct (match min data with
                | Some m => Z.ltb n m
                | None => false
                end) eqn:Hmin; [discriminate|].
      destruct (match max data with
                | Some m => Z.ltb m n
                | None => false
                end) eqn:Hmax; [discriminate|].
      intros H; inversion H; subst.
      rewrite null_allowed_not_null by discriminate.
      now rewrite Hd, Hmin, Hmax.
  - apply StringField_clean_stable.
  - unfold EmailField_clean.
    destruct (StringField_clean data instance v) as [c0|e] eqn:Hc0;
      cbn [bind]; [|discriminate].
    destruct (validateEmail c0) eqn:Hv; cbn [negb]; [|discriminate].
    intros H; inversion H; subst.
    rewrite (StringField_clean_stable _ _ _ Hc0); cbn [bind].
    now rewrite Hv.
  - destruct Hd as [r [t ->]].
    unfold DateField_clean, Field_clean.
    destruct (source_of data); [trivial|].
    destruct v; try discriminate; intros H; inversion H; subst.
    + destruct (autoNow data); reflexivity.
    + reflexivity.
  - unfold ChoiceField_clean, Field_clean.
    destruct (source_of data); [trivial|].
    destruct (null_allowed data v) eqn:Hn.
    + intros H; inversion H; subst; now rewrite Hn.
    + destruct (js_toString v) as [s|e]; cbn [bind]; [|discriminate].
      destruct (existsb (sameValueZero (VStr s)) (choices data)) eqn:Hc;
        cbn [negb]; [|discriminate].
      intros H; inversion H; subst.
      rewrite null_allowed_not_null by discriminate.
      cbn [js_toString bind]; now rewrite Hc.
Qed.

End Stability.

(** X23 at a string field with length bounds and the value 12345, which
    is cleaned into the string of its digits. *)
Lemma X23_cleaning_a_cleaned_value_changes_nothing_witness :
  (single_valued (P := ref_platform) (StringField name_data) t1
   /\ clean (P := ref_platform) (StringField name_data) empty_heap t1 no_owner
        (VNum 12345)
      = Ok (VStr "12345"))
  /\ clean (P := ref_platform) (StringField name_data) empty_heap t1 no_owner
       (VStr "12345")
     = Ok (VStr "12345").
Proof.
  split; [split; [exact I | reflexivity]|].
  exact (@X23_cleaning_a_cleaned_value_changes_nothing ref_platform
           (StringField name_data) empty_heap t1 no_owner (VNum 12345)
           (VStr "12345") I eq_refl).
Defined.
